(** * Anomaly detection engine for vehicle telemetry

    Shallow embedding of [anomaly_detector.py] (class [AnomalyDetector])
    and verification of the properties its specification states, followed
    by further properties of the code; the generators and the frame
    packing of [publisher.py], which produce what the detector reads, are
    embedded with them.

    Conventions of the embedding.
    - Signal values are Python numbers; they are modelled as exact
      rationals [Q].  Comparisons are the exact ones of the source,
      [int(x)] is truncation toward zero.
    - A signal snapshot is a Python [dict]; it lives in a heap of dict
      objects and is passed around by reference, as in the source.
    - Methods of [AnomalyDetector] are computations in a monad that
      threads the detector object (with the model store on disk and the
      heap), collects what the method writes to the anomaly sink or prints
      as a diagnostic, and may end in a Python exception. *)

From Stdlib Require Import ZArith QArith Qabs Lia Lqa.
From stdpp Require Import base option list strings gmap fin_maps.

Local Open Scope string_scope.
Local Open Scope list_scope.

(** ** Numbers *)

(** [a > b] and [a < b] on Python numbers, as booleans. *)
Definition Qgtb (a b : Q) : bool := negb (Qle_bool a b).
Definition Qltb (a b : Q) : bool := negb (Qle_bool b a).

(** [int(x)]: truncation toward zero. *)
Definition py_int (x : Q) : Z := (Qnum x ÷ Z.pos (Qden x))%Z.

(** ** Data model *)

Inductive Geography : Type :=
  | RAINY | MOUNTAINOUS | URBAN | HIGHWAY | HOT | SNOWY.

(** [_get_expected_gear]. *)
Definition _get_expected_gear (speed : Q) : Z :=
  if Qeq_bool speed 0 then 1
  else if Qle_bool speed 20 then 1
  else if Qle_bool speed 40 then 2
  else if Qle_bool speed 70 then 3
  else if Qle_bool speed 100 then 4
  else if Qle_bool speed 150 then 5
  else 6.

(** A signal snapshot is a [dict] from signal name to number; dict objects
    are referred to by their address in the heap. *)
Definition loc : Type := positive.

(** [dataclass VehicleState]; [last_values] holds references to the
    snapshots it was given, not copies. *)
Record VehicleState : Type := mkVehicleState {
  vehicle_id : string;
  last_update : Q;
  last_values : gmap string loc;
  geography : Geography
}.

(** An [IsolationForest] object: its hyper-parameters and, once [fit] was
    called, the samples it was fitted on. *)
Record IsolationForest : Type := mkIsolationForest {
  contamination : Q;
  random_state : Z;
  n_estimators : nat;
  fitted_on : option (list (list Q))
}.

(** What a model file on disk holds: a pickled forest, or bytes that
    [joblib.load] rejects. *)
Inductive artifact : Type :=
  | Corrupt
  | Pickled (model : IsolationForest).

(** The point written by [_save_anomaly_to_influxdb].  [a_signals] is the
    content of the snapshot at the time of the write; [details] keeps the
    number formatted into the free text, if there is one. *)
Record Anomaly : Type := mkAnomaly {
  a_vehicle_id : string;
  anomaly_type : string;
  message_type : string;
  a_signals : gmap string Q;
  a_geography : Geography;
  severity : string;
  details : option Q
}.

(** The blocks the detector only prints (one constructor per block; the
    numbers shown inside a block are left out). *)
Inductive diagnostic : Type :=
  (* _check_temporal_anomalies *)
  | TemporalAnalysis (vehicle : string)
  | GearJump | EngineSpeedJump | BatteryDrop | CabinTempJump
  (* _check_signal_based_anomalies *)
  | CriticalEngineTemp | CriticalBattery | LowBattery
  | GearSpeedMismatch | CriticalGearTooLow | CriticalGearTooHigh
  | LowCabinTemp | HighCabinTemp | TurnOnHeating | TurnOnCooling
  (* reasons listed after an isolation-forest anomaly *)
  | ForestAnomaly
  | HotCabinACOff | HotCabinFanOff | ACOnFanOff
  | EngineOverheated | EngineOverRevved | BatteryCritical
  | ExcessiveSpeed | LowGearAtSpeed | AbnormalVoltage
  (* _train_models_if_needed, _save_models *)
  | TrainingStarted
  | ModelSaved (message_type : string)
  | ModelSaveFailed (message_type : string).

Inductive event : Type :=
  | Sink (a : Anomaly)
  | Print (d : diagnostic).

(** The [AnomalyDetector] object together with the part of the world its
    methods touch: the model files on disk ([read_only] are the paths on
    which [dump] fails) and the heap of snapshot dicts. *)
Record AnomalyDetector : Type := mkAnomalyDetector {
  vehicle_states : gmap string VehicleState;
  min_samples_for_training : nat;
  isolation_forests : gmap string IsolationForest;
  collected_data : gmap string (list (list Q));
  training_progress : gmap string nat;
  is_model_trained : bool;
  disk : gmap string artifact;
  read_only : gset string;
  heap : gmap loc (gmap string Q)
}.

Definition set_vehicle_states (f : gmap string VehicleState -> gmap string VehicleState)
    (d : AnomalyDetector) : AnomalyDetector :=
  mkAnomalyDetector (f (vehicle_states d)) (min_samples_for_training d)
    (isolation_forests d) (collected_data d) (training_progress d)
    (is_model_trained d) (disk d) (read_only d) (heap d).

Definition set_min_samples_for_training (n : nat) (d : AnomalyDetector) : AnomalyDetector :=
  mkAnomalyDetector (vehicle_states d) n
    (isolation_forests d) (collected_data d) (training_progress d)
    (is_model_trained d) (disk d) (read_only d) (heap d).

Definition set_isolation_forests
    (f : gmap string IsolationForest -> gmap string IsolationForest)
    (d : AnomalyDetector) : AnomalyDetector :=
  mkAnomalyDetector (vehicle_states d) (min_samples_for_training d)
    (f (isolation_forests d)) (collected_data d) (training_progress d)
    (is_model_trained d) (disk d) (read_only d) (heap d).

Definition set_collected_data
    (f : gmap string (list (list Q)) -> gmap string (list (list Q)))
    (d : AnomalyDetector) : AnomalyDetector :=
  mkAnomalyDetector (vehicle_states d) (min_samples_for_training d)
    (isolation_forests d) (f (collected_data d)) (training_progress d)
    (is_model_trained d) (disk d) (read_only d) (heap d).

Definition set_training_progress (f : gmap string nat -> gmap string nat)
    (d : AnomalyDetector) : AnomalyDetector :=
  mkAnomalyDetector (vehicle_states d) (min_samples_for_training d)
    (isolation_forests d) (collected_data d) (f (training_progress d))
    (is_model_trained d) (disk d) (read_only d) (heap d).

Definition set_is_model_trained (b : bool) (d : AnomalyDetector) : AnomalyDetector :=
  mkAnomalyDetector (vehicle_states d) (min_samples_for_training d)
    (isolation_forests d) (collected_data d) (training_progress d)
    b (disk d) (read_only d) (heap d).

Definition set_disk (f : gmap string artifact -> gmap string artifact)
    (d : AnomalyDetector) : AnomalyDetector :=
  mkAnomalyDetector (vehicle_states d) (min_samples_for_training d)
    (isolation_forests d) (collected_data d) (training_progress d)
    (is_model_trained d) (f (disk d)) (read_only d) (heap d).

Definition set_heap (f : gmap loc (gmap string Q) -> gmap loc (gmap string Q))
    (d : AnomalyDetector) : AnomalyDetector :=
  mkAnomalyDetector (vehicle_states d) (min_samples_for_training d)
    (isolation_forests d) (collected_data d) (training_progress d)
    (is_model_trained d) (disk d) (read_only d) (f (heap d)).

(** ** Methods as computations *)

Inductive exn : Type :=
  | KeyError (key : string)
  | NotFittedError
  | ZeroDivisionError
  | IndexError
  | OverflowError
  | FileExistsError
  | PermissionError.

(** The outcome of running a method: the detector and world it leaves
    behind, what it sent to the sink or printed, and either the exception
    that ended it or its return value.  State and output are kept when an
    exception is raised: Python does not roll mutations back. *)
Record Res (A : Type) : Type := mkRes {
  r_state : AnomalyDetector;
  r_out : list event;
  r_val : exn + A
}.
Arguments mkRes {A} _ _ _.
Arguments r_state {A} _.
Arguments r_out {A} _.
Arguments r_val {A} _.

Definition M (A : Type) : Type := AnomalyDetector -> Res A.

Definition ret {A : Type} (a : A) : M A := fun d => mkRes d [] (inr a).

Definition raise {A : Type} (e : exn) : M A := fun d => mkRes d [] (inl e).

(** The outcome [r], after [out] was output. *)
Definition prepend {A : Type} (out : list event) (r : Res A) : Res A :=
  match r with
  | mkRes d out' v => mkRes d (out ++ out') v
  end.

Definition bind {A B : Type} (c : M A) (k : A -> M B) : M B := fun d =>
  match c d with
  | mkRes d1 out1 (inl e) => mkRes d1 out1 (inl e)
  | mkRes d1 out1 (inr a) => prepend out1 (k a d1)
  end.

Notation "'let*' x ':=' c 'in' k" := (bind c (fun x => k))
  (at level 10, x pattern, c at level 100, k at level 200).

Definition emit (e : event) : M unit := fun d => mkRes d [e] (inr tt).

Definition gets {A : Type} (f : AnomalyDetector -> A) : M A :=
  fun d => mkRes d [] (inr (f d)).

Definition modify (f : AnomalyDetector -> AnomalyDetector) : M unit :=
  fun d => mkRes (f d) [] (inr tt).

(** [if b: c] with no [else]. *)
Definition when (b : bool) (c : M unit) : M unit := if b then c else ret tt.

(** [b and c], where evaluating [c] may raise. *)
Definition andM (b : bool) (c : M bool) : M bool := if b then c else ret false.

(** [for x in xs: body]. *)
Fixpoint for_each {A : Type} (xs : list A) (body : A -> M unit) : M unit :=
  match xs with
  | [] => ret tt
  | x :: xs' => let* _ := body x in for_each xs' body
  end.

(** [dct[k]] for a dict with option-valued lookup: [KeyError] when absent. *)
Definition getitem {V : Type} (dct : gmap string V) (k : string) : M V :=
  match dct !! k with
  | Some v => ret v
  | None => raise (KeyError k)
  end.

(** [signals.get(k, dflt)]. *)
Definition get (signals : gmap string Q) (k : string) (dflt : Q) : Q :=
  default dflt (signals !! k).

(** The dict object behind a reference. *)
Definition deref (d : AnomalyDetector) (l : loc) : gmap string Q :=
  default ∅ (heap d !! l).

Definition load (l : loc) : M (gmap string Q) := gets (fun d => deref d l).

(** [signals[k] = v]: in-place update of the dict object. *)
Definition setitem (signals : loc) (k : string) (v : Q) : M unit :=
  modify (set_heap (fun h => <[signals := <[k := v]> (default ∅ (h !! signals))]> h)).

(** *** The anomaly sink *)

(** [_save_anomaly_to_influxdb]: builds the point from the arguments and
    the numeric entries of the snapshot and writes it; the method catches
    every exception of the write itself, so it always returns. *)
Definition _save_anomaly_to_influxdb (vehicle_id anomaly_type message_type : string)
    (signals : loc) (geography : Geography) (severity : string)
    (details : option Q) : M unit :=
  let* s := load signals in
  emit (Sink (mkAnomaly vehicle_id anomaly_type message_type s geography
                severity details)).

(** *** Rule evaluators *)

(** [_check_geography_based_anomalies].  The [details] f-string of each
    call indexes the snapshot directly, so it is evaluated (and may raise)
    before the call. *)
Definition _check_geography_based_anomalies (state : VehicleState)
    (message_name : string) (signals : loc) : M unit :=
  let* s := load signals in
  match geography state with
  | RAINY =>
      when (String.eqb message_name "VehicleData" && Qgtb (get s "Speed" 0) 70)
        (let* v := getitem s "Speed" in
         _save_anomaly_to_influxdb (vehicle_id state) "high_speed_in_rain"
           message_name signals (geography state) "warning" (Some v))
  | MOUNTAINOUS =>
      let* _ :=
        when (String.eqb message_name "EngineData" && Qgtb (get s "EngineTemp" 0) 95)
          (let* v := getitem s "EngineTemp" in
           _save_anomaly_to_influxdb (vehicle_id state) "high_temperature_in_mountainous"
             message_name signals (geography state) "warning" (Some v)) in
      when (String.eqb message_name "VehicleData" && Qgtb (get s "Speed" 0) 70)
        (let* v := getitem s "Speed" in
         _save_anomaly_to_influxdb (vehicle_id state) "high_speed_in_mountainous"
           message_name signals (geography state) "warning" (Some v))
  | HOT =>
      let* _ :=
        when (String.eqb message_name "EngineData" && Qgtb (get s "EngineTemp" 0) 100)
          (let* v := getitem s "EngineTemp" in
           _save_anomaly_to_influxdb (vehicle_id state) "high_temperature_in_hot"
             message_name signals (geography state) "warning" (Some v)) in
      when (String.eqb message_name "ClimateControl")
        (let* _ :=
           when (Qgtb (get s "CabinTemp" 20) 28)
             (let* v := getitem s "CabinTemp" in
              _save_anomaly_to_influxdb (vehicle_id state) "high_cabin_temperature"
                message_name signals (geography state) "warning" (Some v)) in
         when (Qeq_bool (get s "ACStatus" 1) 0)
           (_save_anomaly_to_influxdb (vehicle_id state) "ac_off_in_hot"
              message_name signals (geography state) "warning" None))
  | SNOWY =>
      let* _ :=
        when (String.eqb message_name "VehicleData" && Qgtb (get s "Speed" 0) 50)
          (let* v := getitem s "Speed" in
           _save_anomaly_to_influxdb (vehicle_id state) "high_speed_in_snow"
             message_name signals (geography state) "warning" (Some v)) in
      when (String.eqb message_name "ClimateControl" && Qltb (get s "CabinTemp" 20) 18)
        (let* v := getitem s "CabinTemp" in
         _save_anomaly_to_influxdb (vehicle_id state) "low_cabin_temperature"
           message_name signals (geography state) "warning" (Some v))
  | URBAN =>
      let* _ :=
        when (String.eqb message_name "VehicleData" && Qgtb (get s "Speed" 0) 60)
          (let* v := getitem s "Speed" in
           _save_anomaly_to_influxdb (vehicle_id state) "high_speed_in_urban"
             message_name signals (geography state) "warning" (Some v)) in
      when (String.eqb message_name "EngineData" && Qgtb (get s "EngineSpeed" 0) 4000)
        (let* v := getitem s "EngineSpeed" in
         _save_anomaly_to_influxdb (vehicle_id state) "high_engine_speed"
           message_name signals (geography state) "warning" (Some v))
  | HIGHWAY =>
      when (String.eqb message_name "VehicleData" && Qltb (get s "Speed" 0) 60)
        (let* v := getitem s "Speed" in
         _save_anomaly_to_influxdb (vehicle_id state) "low_speed_in_highway"
           message_name signals (geography state) "warning" (Some v))
  end.

(** [_check_temporal_anomalies].  [time_diff] is computed and never used;
    it is left out. *)
Definition _check_temporal_anomalies (state : VehicleState)
    (message_name : string) (signals : loc) : M unit :=
  let* last := getitem (last_values state) message_name in
  let* last_signals := load last in
  let* s := load signals in
  let* _ := emit (Print (TemporalAnalysis (vehicle_id state))) in
  if String.eqb message_name "VehicleData" then
    let* a := getitem s "Speed" in
    let* b := getitem last_signals "Speed" in
    let speed_diff := Qabs (a - b) in
    let* _ :=
      when (Qgtb speed_diff 20)
        (_save_anomaly_to_influxdb (vehicle_id state) "sudden_speed_change"
           message_name signals (geography state) "warning" (Some speed_diff)) in
    let* a := getitem s "GearPosition" in
    let* b := getitem last_signals "GearPosition" in
    let gear_diff := Qabs (a - b) in
    when (Qgtb gear_diff 1) (emit (Print GearJump))
  else if String.eqb message_name "EngineData" then
    let* a := getitem s "EngineTemp" in
    let* b := getitem last_signals "EngineTemp" in
    let temp_diff := Qabs (a - b) in
    let* _ :=
      when (Qgtb temp_diff 15)
        (_save_anomaly_to_influxdb (vehicle_id state) "sudden_temperature_change"
           message_name signals (geography state) "warning" (Some temp_diff)) in
    let* a := getitem s "EngineSpeed" in
    let* b := getitem last_signals "EngineSpeed" in
    let engine_speed_diff := Qabs (a - b) in
    let* _ := when (Qgtb engine_speed_diff 2000) (emit (Print EngineSpeedJump)) in
    let* b := getitem last_signals "BatteryLevel" in
    let* a := getitem s "BatteryLevel" in
    let battery_diff := (b - a)%Q in
    when (Qgtb battery_diff 10) (emit (Print BatteryDrop))
  else if String.eqb message_name "ClimateControl" then
    let* a := getitem s "CabinTemp" in
    let* b := getitem last_signals "CabinTemp" in
    let cabin_temp_diff := Qabs (a - b) in
    when (Qgtb cabin_temp_diff 5) (emit (Print CabinTempJump))
  else ret tt.

(** [_check_signal_based_anomalies]. *)
Definition _check_signal_based_anomalies (signals : loc) (message_name : string)
    : M unit :=
  let* s := load signals in
  if String.eqb message_name "EngineData" then
    let* _ :=
      when (Qgtb (get s "EngineTemp" 0) 120)
        (let* _ := getitem s "EngineTemp" in emit (Print CriticalEngineTemp)) in
    let battery_level := get s "BatteryLevel" 0 in
    if Qltb battery_level 20 then emit (Print CriticalBattery)
    else if Qltb battery_level 30 then emit (Print LowBattery)
    else ret tt
  else if String.eqb message_name "VehicleData" then
    let speed := get s "Speed" 0 in
    let gear := get s "GearPosition" 1 in
    if Qgtb speed 0 then
      let expected_gear := _get_expected_gear speed in
      let current_gear := py_int gear in
      let* _ :=
        when (Z.abs (expected_gear - current_gear) >? 1)%Z
          (emit (Print GearSpeedMismatch)) in
      if Qgtb speed 100 && (current_gear <=? 2)%Z then
        emit (Print CriticalGearTooLow)
      else if Qltb speed 20 && (current_gear >=? 3)%Z then
        emit (Print CriticalGearTooHigh)
      else ret tt
    else ret tt
  else if String.eqb message_name "ClimateControl" then
    let cabin_temp := get s "CabinTemp" 20 in
    let ac_status := get s "ACStatus" 0 in
    if Qltb cabin_temp 10 then
      let* _ := emit (Print LowCabinTemp) in
      when (Qeq_bool ac_status 0) (emit (Print TurnOnHeating))
    else if Qgtb cabin_temp 30 then
      let* _ := emit (Print HighCabinTemp) in
      when (Qeq_bool ac_status 0) (emit (Print TurnOnCooling))
    else ret tt
  else ret tt.

(** *** Outlier-model manager *)

(** [self.model_paths], in the order the dict literal lists its items. *)
Definition model_paths : list (string * string) :=
  [ ("EngineData", "trained_models/engine_model.joblib");
    ("VehicleData", "trained_models/vehicle_model.joblib");
    ("ClimateControl", "trained_models/climate_model.joblib") ].

Definition model_paths_dict : gmap string string := list_to_map model_paths.

(** [_create_new_model]. *)
Definition _create_new_model (message_type : string) : M unit :=
  modify (set_isolation_forests
            (insert message_type (mkIsolationForest (5 # 100) 42 100 None))).

(** [self.models_dir]. *)
Definition models_dir : string := "trained_models".

(** [os.makedirs(path, exist_ok=True)].  The disk lists files by their
    full path, so a directory is there when a file is listed under it, and
    an empty directory leaves no trace.  When the directory is not there,
    making it fails with [FileExistsError] if a file of that name is in the
    way, and with [PermissionError] if the place cannot be written. *)
Definition makedirs (path : string) : M unit :=
  let* files := gets disk in
  let* locked := gets (fun d => bool_decide (path ∈ read_only d)) in
  if existsb (fun '(file, _) => String.prefix (path ++ "/")%string file) (map_to_list files)
  then ret tt
  else if bool_decide (is_Some (files !! path)) then raise FileExistsError
  else if locked then raise PermissionError
  else ret tt.

(** [_initialize_models]: the call of [os.makedirs] is outside any [try];
    [load] raises on a corrupt file and the [except] branch creates a new
    model. *)
Definition _initialize_models : M unit :=
  let* _ := makedirs models_dir in
  let* _ := modify (set_isolation_forests (fun _ => ∅)) in
  for_each model_paths (fun '(message_type, model_path) =>
    let* file := gets (fun d => disk d !! model_path) in
    match file with
    | Some (Pickled model) =>
        modify (set_isolation_forests (insert message_type model))
    | Some Corrupt => _create_new_model message_type
    | None => _create_new_model message_type
    end).

(** [_check_trained_models]: [os.path.exists] on every model path. *)
Definition _check_trained_models : M bool :=
  gets (fun d =>
    forallb (fun '(_, model_path) => bool_decide (is_Some (disk d !! model_path)))
      model_paths).

(** [_save_models]: a failing [dump] is caught and reported.  Each round of
    the loop writes one file of its own, so the order of the rounds does
    not matter. *)
Definition _save_models : M unit :=
  let* forests := gets isolation_forests in
  for_each (map_to_list forests) (fun '(message_type, model) =>
    let* model_path := getitem model_paths_dict message_type in
    let* fails := gets (fun d => bool_decide (model_path ∈ read_only d)) in
    if fails then emit (Print (ModelSaveFailed message_type))
    else
      let* _ := modify (set_disk (insert model_path (Pickled model))) in
      emit (Print (ModelSaved message_type))).

(** [_prepare_data_for_isolation_forest]: a one-row array, or the empty
    array for any other message name. *)
Definition _prepare_data_for_isolation_forest (message_name : string)
    (signals : gmap string Q) : list (list Q) :=
  if String.eqb message_name "EngineData" then
    [[ get signals "EngineSpeed" 0; get signals "EngineTemp" 0;
       get signals "BatteryLevel" 0 ]]
  else if String.eqb message_name "VehicleData" then
    [[ get signals "Speed" 0; get signals "GearPosition" 0;
       get signals "BatteryVoltage" 0 ]]
  else if String.eqb message_name "ClimateControl" then
    [[ get signals "CabinTemp" 0; get signals "FanSpeed" 0;
       get signals "ACStatus" 0 ]]
  else [].

(** [IsolationForest.fit]. *)
Definition fit (model : IsolationForest) (data : list (list Q)) : IsolationForest :=
  mkIsolationForest (contamination model) (random_state model)
    (n_estimators model) (Some data).

(** [_train_models_if_needed].  [collected_data] is a [defaultdict]: the
    loops and the [all(...)] range over the message types that have a
    buffer, which are those seen so far.  Each round of the progress loop
    updates the entry of one type and each round of the fitting loop the
    forest of one type, so the order of the rounds matters only for which
    entries were written before a round raises.  The progress line divides
    the length of the buffer by the minimum of samples, which raises on a
    minimum of 0; the line itself is left out. *)
Definition _train_models_if_needed : M unit :=
  let* trained := gets is_model_trained in
  if trained then ret tt
  else
    let* collected := gets collected_data in
    let* _ :=
      for_each (map_to_list collected) (fun '(message_name, data) =>
        let current_samples := length data in
        let* _ := modify (set_training_progress (insert message_name current_samples)) in
        let* minimum := gets min_samples_for_training in
        if (minimum =? 0)%nat then raise ZeroDivisionError else ret tt) in
    let* can_train := gets (fun d =>
      forallb (fun '(_, data) => (min_samples_for_training d <=? length data)%nat)
        (map_to_list (collected_data d))) in
    if can_train then
      let* _ := emit (Print TrainingStarted) in
      let* collected := gets collected_data in
      let* _ :=
        for_each (map_to_list collected) (fun '(message_name, data) =>
          let* forests := gets isolation_forests in
          let* model := getitem forests message_name in
          modify (set_isolation_forests (insert message_name (fit model data)))) in
      let* _ := _save_models in
      modify (set_is_model_trained true)
    else ret tt.

(** A message as the subscriber hands it over: [message_data["name"]] and a
    reference to the dict [message_data["signals"]]. *)
Record Message : Type := mkMessage {
  msg_name : string;
  msg_signals : loc
}.

Section Detector.

(** [IsolationForest.predict] of a fitted forest on one row: [1] or [-1].
    The library is outside the repository; its decision is a parameter. *)
Variable decision_function : IsolationForest -> list Q -> Z.

(** [model.predict(data)[0]]; sklearn raises [NotFittedError] on a forest
    that was never fitted. *)
Definition predict (model : IsolationForest) (row : list Q) : M Z :=
  match fitted_on model with
  | Some _ => ret (decision_function model row)
  | None => raise NotFittedError
  end.

(** The reasons printed after an isolation-forest anomaly; every signal is
    read by direct indexing. *)
Definition explain_anomaly (message_name : string) (signals : loc) : M unit :=
  let* s := load signals in
  if String.eqb message_name "ClimateControl" then
    let* c := getitem s "CabinTemp" in
    let* b := andM (Qgtb c 30) (let* a := getitem s "ACStatus" in ret (Qeq_bool a 0)) in
    let* _ := when b (emit (Print HotCabinACOff)) in
    let* b := andM (Qgtb c 30) (let* f := getitem s "FanSpeed" in ret (Qeq_bool f 0)) in
    let* _ := when b (emit (Print HotCabinFanOff)) in
    let* a := getitem s "ACStatus" in
    let* b := andM (Qeq_bool a 1) (let* f := getitem s "FanSpeed" in ret (Qeq_bool f 0)) in
    when b (emit (Print ACOnFanOff))
  else if String.eqb message_name "EngineData" then
    let* t := getitem s "EngineTemp" in
    let* _ := when (Qgtb t 100) (emit (Print EngineOverheated)) in
    let* r := getitem s "EngineSpeed" in
    let* _ := when (Qgtb r 5000) (emit (Print EngineOverRevved)) in
    let* b := getitem s "BatteryLevel" in
    when (Qltb b 20) (emit (Print BatteryCritical))
  else if String.eqb message_name "VehicleData" then
    let* v := getitem s "Speed" in
    let* _ := when (Qgtb v 120) (emit (Print ExcessiveSpeed)) in
    let* b := andM (Qgtb v 60)
                (let* g := getitem s "GearPosition" in ret (Qle_bool g 2)) in
    let* _ := when b (emit (Print LowGearAtSpeed)) in
    let* u := getitem s "BatteryVoltage" in
    when (Qltb u 370 || Qgtb u 410) (emit (Print AbnormalVoltage))
  else ret tt.

(** [_check_isolation_forest_anomalies]. *)
Definition _check_isolation_forest_anomalies (message_name : string)
    (signals : loc) (vehicle_id : string) : M unit :=
  let* _ :=
    when (String.eqb message_name "ClimateControl")
      (let* s := load signals in
       let* a := getitem s "ACStatus" in
       let* _ := setitem signals "ACStatus" (inject_Z (py_int a)) in
       let* s := load signals in
       let* f := getitem s "FanSpeed" in
       setitem signals "FanSpeed" (inject_Z (py_int f))) in
  let* s := load signals in
  match _prepare_data_for_isolation_forest message_name s with
  | [] => ret tt
  | row :: _ =>
      let* _ := modify (set_collected_data (fun collected =>
        <[message_name := default [] (collected !! message_name) ++ [row]]> collected)) in
      let* _ := _train_models_if_needed in
      let* trained := gets is_model_trained in
      if trained then
        let* forests := gets isolation_forests in
        let* model := getitem forests message_name in
        let* prediction := predict model row in
        if (prediction =? -1)%Z then
          let* states := gets vehicle_states in
          let* state := getitem states vehicle_id in
          let* _ := _save_anomaly_to_influxdb vehicle_id "isolation_forest"
                      message_name signals (geography state) "warning" None in
          let* _ := emit (Print ForestAnomaly) in
          explain_anomaly message_name signals
        else ret tt
      else ret tt
  end.

(** [update_vehicle_state].  [current_time] is what [time.time()] returned.
    The parameters [vehicle_id] and [geography] of the source are called
    [vid] and [geo] here, the names being those of the record fields.  The
    [VehicleState] object is reachable only through [vehicle_states], so its
    in-place updates are written back there. *)
Definition update_vehicle_state (vid : string) (message_data : Message)
    (geo : Geography) (current_time : Q) : M unit :=
  let message_name := msg_name message_data in
  let signals := msg_signals message_data in
  let* known := gets (fun d => bool_decide (is_Some (vehicle_states d !! vid))) in
  let* _ :=
    when (negb known)
      (modify (set_vehicle_states (insert vid (mkVehicleState vid current_time ∅ geo)))) in
  let* _ := _check_isolation_forest_anomalies message_name signals vid in
  let* states := gets vehicle_states in
  let* state := getitem states vid in
  let state := mkVehicleState (vehicle_id state) (last_update state)
                 (last_values state) geo in
  let* _ := modify (set_vehicle_states (insert vid state)) in
  match last_values state !! message_name with
  | None =>
      modify (set_vehicle_states (insert vid
        (mkVehicleState (vehicle_id state) (last_update state)
           (<[message_name := signals]> (last_values state)) (geography state))))
  | Some _ =>
      let* _ := _check_temporal_anomalies state message_name signals in
      let* _ := _check_geography_based_anomalies state message_name signals in
      let* _ := _check_signal_based_anomalies signals message_name in
      modify (set_vehicle_states (insert vid
        (mkVehicleState (vehicle_id state) current_time
           (<[message_name := signals]> (last_values state)) (geography state))))
  end.

End Detector.

(** [AnomalyDetector.__init__], run in a world that has the given model
    files and heap; the InfluxDB client is the sink of the outcomes. *)
Definition __init__ : M unit :=
  let* _ := modify (set_vehicle_states (fun _ => ∅)) in
  let* _ := modify (set_min_samples_for_training 500) in
  let* _ := _initialize_models in
  let* _ := modify (set_collected_data (fun _ => ∅)) in
  let* _ := modify (set_training_progress (fun _ =>
              {[ "EngineData" := 0%nat; "VehicleData" := 0%nat;
                 "ClimateControl" := 0%nat ]})) in
  let* trained := _check_trained_models in
  modify (set_is_model_trained trained).

Definition world (files : gmap string artifact) (failing : gset string)
    (objects : gmap loc (gmap string Q)) : AnomalyDetector :=
  mkAnomalyDetector ∅ 0 ∅ ∅ ∅ false files failing objects.

Definition new_detector (files : gmap string artifact) (failing : gset string)
    (objects : gmap loc (gmap string Q)) : AnomalyDetector :=
  r_state (__init__ (world files failing objects)).

(** ** The generators of the publisher ([publisher.py] beside the detector) *)

(** [get_appropriate_gear]. *)
Definition get_appropriate_gear (speed : Q) : Z :=
  if Qeq_bool speed 0 then 1
  else if Qle_bool speed 20 then 1
  else if Qle_bool speed 40 then 2
  else if Qle_bool speed 70 then 3
  else if Qle_bool speed 100 then 4
  else if Qle_bool speed 150 then 5
  else 6.

(** [generate_vehicle_data]; [speed] and [battery_voltage] are the two
    rounded random draws. *)
Definition generate_vehicle_data (speed battery_voltage : Q) : gmap string Q :=
  let gear := get_appropriate_gear speed in
  {[ "Speed" := speed; "GearPosition" := inject_Z gear;
     "BatteryVoltage" := battery_voltage ]}.

Section Publisher.

(** [random.choices(population, weights)[0]] and [random.randint(a, b)]. *)
Variable choices : list Z -> list Z -> Z.
Variable randint : Z -> Z -> Z.

(** [generate_climate_control_data]; [cabin_temp] is the rounded random
    draw. *)
Definition generate_climate_control_data (cabin_temp : Q) : gmap string Q :=
  let ac_status :=
    if Qgtb cabin_temp 25 then choices [1; 0]%Z [90; 10]%Z
    else if Qltb cabin_temp 15 then choices [1; 0]%Z [80; 20]%Z
    else choices [1; 0]%Z [70; 30]%Z in
  let fan_speed :=
    if (ac_status =? 1)%Z then
      if Qgtb cabin_temp 30 then randint 4 5
      else if Qgtb cabin_temp 25 then randint 3 4
      else randint 1 3
    else 0%Z in
  {[ "CabinTemp" := cabin_temp; "FanSpeed" := inject_Z fan_speed;
     "ACStatus" := inject_Z ac_status ]}.

End Publisher.

(** ** The packing of CAN frames ([publisher.py] at the root of the sources) *)

(** A signal of a DBC message; [min] and [max] are optional keys. *)
Record Signal : Type := mkSignal {
  sig_name : string;
  start_bit : nat;
  bit_length : nat;
  factor : Q;
  offset : Q;
  sig_min : option Q;
  sig_max : option Q
}.

Record DbcMessage : Type := mkDbcMessage {
  dbc_id : string;
  dbc_name : string;
  dbc_length : nat;
  dbc_signals : list Signal
}.


(** [DBC_DATA["messages"]]. *)
Definition DBC_DATA : list DbcMessage :=
  [ mkDbcMessage "0x123" "EngineData" 8
      [ mkSignal "EngineSpeed" 0 16 1 0 (Some 800%Q) (Some 6000%Q);
        mkSignal "EngineTemp" 16 8 1 0 (Some 60%Q) (Some 120%Q);
        mkSignal "BatteryLevel" 24 8 1 0 (Some 0%Q) (Some 100%Q) ];
    mkDbcMessage "0x124" "VehicleData" 8
      [ mkSignal "Speed" 0 16 1 0 (Some 0%Q) (Some 240%Q);
        mkSignal "GearPosition" 16 8 1 0 (Some 1%Q) (Some 6%Q);
        mkSignal "BatteryVoltage" 24 8 1 0 (Some 360%Q) (Some 420%Q) ];
    mkDbcMessage "0x125" "ClimateControl" 8
      [ mkSignal "CabinTemp" 0 8 1 0 (Some 10%Q) (Some 35%Q);
        mkSignal "FanSpeed" 8 8 1 0 (Some 0%Q) (Some 5%Q);
        mkSignal "ACStatus" 16 8 1 0 (Some 0%Q) (Some 1%Q) ] ].

Section Packing.

(** [random.uniform(a, b)] and [random.randint(a, b)]. *)
Variable uniform : Q -> Q -> Q.
Variable randint : Z -> Z -> Z.


(** One round of the inner loop of [pack_signals_to_message], for a signal
    that starts at bit [signal_start_bit]: bit [i] of [raw_value] is or-ed
    into [raw_data]; indexing past the end of [raw_data] raises. *)
Definition pack_bit (signal_start_bit : nat) (raw_value : Z)
    (acc : exn + list Z) (i : nat) : exn + list Z :=
  match acc with
  | inl e => inl e
  | inr raw_data =>
      let start_byte := signal_start_bit / 8 in
      let start_bit := signal_start_bit mod 8 in
      let bit_index := start_bit + i in
      let byte_index := start_byte + bit_index / 8 in
      let bit_position := bit_index mod 8 in
      match raw_data !! byte_index with
      | Some byte =>
          inr (<[byte_index :=
                   Z.lor byte
                     (Z.shiftl (Z.land (Z.shiftr raw_value (Z.of_nat i)) 1)
                        (Z.of_nat bit_position))]> raw_data)
      | None => inl IndexError
      end
  end.

(** The inner loop, [for i in range(signal["bit_length"])]. *)
Definition pack_bits (signal : Signal) (raw_value : Z) (raw_data : list Z)
    : exn + list Z :=
  foldl (pack_bit (start_bit signal) raw_value) (inr raw_data)
    (seq 0 (bit_length signal)).





End Packing.

(** Bit [n] of a frame: bit [n mod 8] of byte [n / 8]. *)
Definition frame_bit (data : list Z) (n : nat) : bool :=
  Z.testbit (default 0%Z (data !! (n / 8))) (Z.of_nat (n mod 8)).

(** Bit [n] of a frame lies in the field of the signal. *)
Definition in_field (signal : Signal) (n : nat) : bool :=
  (start_bit signal <=? n)%nat && (n <? start_bit signal + bit_length signal)%nat.

(** ** Vocabulary of the statements *)

(** The rule family, or the outlier model, an event comes from. *)
Inductive origin : Type := Outlier | Temporal | GeographyContext | Absolute.

Definition origin_of (e : event) : origin :=
  match e with
  | Sink a =>
      if String.eqb (anomaly_type a) "isolation_forest" then Outlier
      else if String.eqb (anomaly_type a) "sudden_speed_change" then Temporal
      else if String.eqb (anomaly_type a) "sudden_temperature_change" then Temporal
      else GeographyContext
  | Print (TemporalAnalysis _) | Print GearJump | Print EngineSpeedJump
  | Print BatteryDrop | Print CabinTempJump => Temporal
  | Print CriticalEngineTemp | Print CriticalBattery | Print LowBattery
  | Print GearSpeedMismatch | Print CriticalGearTooLow | Print CriticalGearTooHigh
  | Print LowCabinTemp | Print HighCabinTemp | Print TurnOnHeating
  | Print TurnOnCooling => Absolute
  | Print _ => Outlier
  end.

Definition is_critical_gear (e : event) : bool :=
  match e with
  | Print CriticalGearTooLow | Print CriticalGearTooHigh => true
  | _ => false
  end.

(** The anomaly types written to the sink, in order. *)
Definition sink_types (out : list event) : list string :=
  omap (fun e => match e with Sink a => Some (anomaly_type a) | Print _ => None end) out.

Definition count_type (t : string) (out : list event) : nat :=
  length (filter (fun t' => t' = t) (sink_types out)).

(** *** The table of geography-context rules, as the specification lists it *)

Inductive trigger : Type := Exceeds | FallsBelow | Equals.

Record geography_rule : Type := mkRule {
  rule_geography : Geography;
  rule_message : string;
  rule_signal : string;
  rule_trigger : trigger;
  rule_threshold : Q;
  rule_anomaly_type : string
}.

Definition crosses (t : trigger) (threshold v : Q) : bool :=
  match t with
  | Exceeds => Qgtb v threshold
  | FallsBelow => Qltb v threshold
  | Equals => Qeq_bool v threshold
  end.

Definition geography_table : list geography_rule :=
  [ mkRule RAINY "VehicleData" "Speed" Exceeds 70 "high_speed_in_rain";
    mkRule MOUNTAINOUS "EngineData" "EngineTemp" Exceeds 95 "high_temperature_in_mountainous";
    mkRule MOUNTAINOUS "VehicleData" "Speed" Exceeds 70 "high_speed_in_mountainous";
    mkRule HOT "EngineData" "EngineTemp" Exceeds 100 "high_temperature_in_hot";
    mkRule HOT "ClimateControl" "CabinTemp" Exceeds 28 "high_cabin_temperature";
    mkRule HOT "ClimateControl" "ACStatus" Equals 0 "ac_off_in_hot";
    mkRule SNOWY "VehicleData" "Speed" Exceeds 50 "high_speed_in_snow";
    mkRule SNOWY "ClimateControl" "CabinTemp" FallsBelow 18 "low_cabin_temperature";
    mkRule URBAN "VehicleData" "Speed" Exceeds 60 "high_speed_in_urban";
    mkRule URBAN "EngineData" "EngineSpeed" Exceeds 4000 "high_engine_speed";
    mkRule HIGHWAY "VehicleData" "Speed" FallsBelow 60 "low_speed_in_highway" ].

(** *** The critical gear rule, as the specification words it *)

Definition critical_gear_as_specified (d : AnomalyDetector) (signals : loc) : Prop :=
  let s := deref d signals in
  let speed := get s "Speed" 0 in
  let gear := py_int (get s "GearPosition" 1) in
  existsb is_critical_gear
    (r_out (_check_signal_based_anomalies signals "VehicleData" d)) = true <->
  ((100 < speed)%Q /\ (gear <= 2)%Z) \/ ((speed < 20)%Q /\ (3 <= gear)%Z).

(** *** Missing signals *)

(** What an event is, without the snapshot it carries. *)
Definition event_tag (e : event) : string + diagnostic :=
  match e with
  | Sink a => inl (anomaly_type a)
  | Print p => inr p
  end.

(** The signals each message type is expected to carry. *)
Definition expected_signals (message_name : string) : list string :=
  if String.eqb message_name "EngineData" then
    ["EngineSpeed"; "EngineTemp"; "BatteryLevel"]
  else if String.eqb message_name "VehicleData" then
    ["Speed"; "GearPosition"; "BatteryVoltage"]
  else if String.eqb message_name "ClimateControl" then
    ["CabinTemp"; "FanSpeed"; "ACStatus"]
  else [].



(** The defaults the geography-context rules read missing signals with,
    and those of the absolute rules. *)
Definition geography_defaults : gmap string Q :=
  {[ "Speed" := 0%Q; "EngineTemp" := 0%Q; "EngineSpeed" := 0%Q;
     "CabinTemp" := 20%Q; "ACStatus" := 1%Q ]}.

Definition absolute_defaults : gmap string Q :=
  {[ "EngineTemp" := 0%Q; "BatteryLevel" := 0%Q; "Speed" := 0%Q;
     "GearPosition" := 1%Q; "CabinTemp" := 20%Q; "ACStatus" := 0%Q ]}.

(** *** Frames of the outlier check *)

(** The stores the outlier-model manager does not own are unchanged. *)
Definition same_stores (d0 d : AnomalyDetector) : Prop :=
  vehicle_states d = vehicle_states d0 /\ heap d = heap d0 /\
  collected_data d = collected_data d0.

(** The snapshot after the integer coercion at the head of the outlier
    check, when that step does not raise. *)
Definition coerced (message_name : string) (s : gmap string Q) : option (gmap string Q) :=
  if String.eqb message_name "ClimateControl" then
    match s !! "ACStatus", s !! "FanSpeed" with
    | Some a, Some f =>
        Some (<["FanSpeed" := inject_Z (py_int f)]>
                (<["ACStatus" := inject_Z (py_int a)]> s))
    | _, _ => None
    end
  else Some s.

(** "Appends exactly one projected feature vector to that type's buffer,
    on every call and unconditionally", as the specification words it, for
    one call of the outlier check: after it the buffer of the type is the
    buffer before it with one row added. *)
Definition appends_on_every_call (df : IsolationForest -> list Q -> Z)
    (message_name : string) (signals : loc) (vehicle_id : string)
    (d : AnomalyDetector) : Prop :=
  let r := _check_isolation_forest_anomalies df message_name signals vehicle_id d in
  exists row,
    collected_data (r_state r) !! message_name =
      Some (default [] (collected_data d !! message_name) ++ [row]).

(** An event of the outlier check on a snapshot with content [s]. *)
Definition outlier_event (s : gmap string Q) (e : event) : Prop :=
  origin_of e = Outlier /\
  match e with Sink a => a_signals a = s | Print _ => True end.

(** What the outlier check on the snapshot at [l] may change from [d0]:
    the object at [l], and the sample buffers, by appending. *)
Definition outside (d0 : AnomalyDetector) (l : loc) (d : AnomalyDetector) : Prop :=
  vehicle_states d = vehicle_states d0 /\
  (forall l', l' <> l -> heap d !! l' = heap d0 !! l') /\
  (forall k, default [] (collected_data d0 !! k) `prefix_of`
             default [] (collected_data d !! k)).

(** The detector after the vehicle was registered (the head of
    [update_vehicle_state]). *)
Definition registered (vid : string) (geo : Geography) (now : Q)
    (d : AnomalyDetector) : AnomalyDetector :=
  if bool_decide (is_Some (vehicle_states d !! vid)) then d
  else set_vehicle_states (insert vid (mkVehicleState vid now ∅ geo)) d.

(** [state.last_values.get(message_name)] of a vehicle, if it is known. *)
Definition previous_snapshot (d : AnomalyDetector) (vid message_name : string)
    : option loc :=
  vehicle_states d !! vid ≫= fun st => last_values st !! message_name.

(** An event that, if it is a record sent to the sink, carries the
    snapshot content [s]. *)
Definition carries (s : gmap string Q) (e : event) : Prop :=
  match e with Sink a => a_signals a = s | Print _ => True end.

(** Families (b) and (c) evaluated on every message, as the specification
    words it: whatever they report on the message, for the vehicle as the
    handler leaves it, is among what the handler reported. *)
Definition rules_b_c_on_every_message (df : IsolationForest -> list Q -> Z)
    (vid : string) (msg : Message) (geo : Geography) (now : Q)
    (d : AnomalyDetector) : Prop :=
  let r := update_vehicle_state df vid msg geo now d in
  forall st', vehicle_states (r_state r) !! vid = Some st' ->
  forall e,
    In e (r_out (_check_geography_based_anomalies st' (msg_name msg)
                   (msg_signals msg) (r_state r)) ++
          r_out (_check_signal_based_anomalies (msg_signals msg) (msg_name msg)
                   (r_state r))) ->
    In e (r_out r).

(** *** A program logic for the methods *)

(** [triple I E c V]: started in a state that satisfies the invariant [I],
    the computation [c] leaves a state that satisfies [I] and outputs only
    events that satisfy [E], whether it returns or raises; a value it
    returns satisfies [V]. *)
Definition triple (I : AnomalyDetector -> Prop) (E : event -> Prop) {A : Type}
    (c : M A) (V : A -> Prop) : Prop :=
  forall d, I d ->
    I (r_state (c d)) /\ Forall E (r_out (c d)) /\
    (forall a, r_val (c d) = inr a -> V a).

(** *** Further vocabulary *)

(** An event that is printed, not sent to the sink. *)
Definition is_print (e : event) : Prop :=
  match e with Print _ => True | Sink _ => False end.

(** The models directory is there, or it can be made: a file is listed
    under it, or no file of its name is in the way and the place can be
    written. *)
Definition models_dir_ready (files : gmap string artifact) (failing : gset string)
    : bool :=
  existsb (fun '(file, _) => String.prefix (models_dir ++ "/")%string file)
    (map_to_list files)
  || negb (bool_decide (is_Some (files !! models_dir)))
     && negb (bool_decide (models_dir ∈ failing)).

(** The forest [__init__] holds for a type: the one in the file if it
    loads, a new unfitted one otherwise. *)
Definition loaded_or_new (file : option artifact) : IsolationForest :=
  match file with
  | Some (Pickled model) => model
  | Some Corrupt | None => mkIsolationForest (5 # 100) 42 100 None
  end.

(** What the outlier check may write of the heap: on a climate message the
    two coerced entries of the snapshot, otherwise nothing. *)
Definition heap_frame (m : string) (l : loc) (d0 d : AnomalyDetector) : Prop :=
  (m <> "ClimateControl" -> heap d = heap d0) /\
  (forall l', l' <> l -> heap d !! l' = heap d0 !! l') /\
  (forall k, k <> "ACStatus" -> k <> "FanSpeed" -> deref d l !! k = deref d0 l !! k).

(** ** Sample inputs *)

(** A forest whose [predict] calls every row normal. *)
Definition all_normal : IsolationForest -> list Q -> Z := fun _ _ => 1%Z.

(** A forest whose [predict] calls every row an anomaly. *)
Definition all_anomalous : IsolationForest -> list Q -> Z := fun _ _ => (-1)%Z.

Definition snapshot_stopped_in_third : gmap string Q :=
  {[ "Speed" := 0%Q; "GearPosition" := 3%Q; "BatteryVoltage" := 400%Q ]}.

Definition snapshot_fast : gmap string Q :=
  {[ "Speed" := 90%Q; "GearPosition" := 1%Q; "BatteryVoltage" := 400%Q ]}.


Definition snapshot_climate_no_ac : gmap string Q :=
  {[ "CabinTemp" := 22%Q; "FanSpeed" := 2%Q ]}.

Definition snapshot_gear_only : gmap string Q :=
  {[ "GearPosition" := 1%Q; "BatteryVoltage" := 400%Q ]}.

Definition rainy_rule : geography_rule :=
  mkRule RAINY "VehicleData" "Speed" Exceeds 70 "high_speed_in_rain".

Definition vehicle_in (geo : Geography) : VehicleState :=
  mkVehicleState "V1" 0 ∅ geo.

(** A vehicle whose last [VehicleData] snapshot is the object at [2]. *)
Definition vehicle_seen (geo : Geography) : VehicleState :=
  mkVehicleState "V1" 0 {[ "VehicleData" := 2%positive ]} geo.

(** A freshly started detector with no model files, and one snapshot
    object at address [1]. *)
Definition fresh_with (s : gmap string Q) : AnomalyDetector :=
  new_detector ∅ ∅ {[ 1%positive := s ]}.

Definition snapshot_slow : gmap string Q :=
  {[ "Speed" := 30%Q; "GearPosition" := 1%Q; "BatteryVoltage" := 400%Q ]}.

(** A freshly started detector and the snapshot objects of two messages. *)
Definition two_snapshots : AnomalyDetector :=
  new_detector ∅ ∅ {[ 1%positive := snapshot_slow; 2%positive := snapshot_fast ]}.

(** The detector after vehicle V1 sent the first of them, in the rain. *)
Definition after_first_message : AnomalyDetector :=
  r_state (update_vehicle_state all_normal "V1" (mkMessage "VehicleData" 1%positive)
             RAINY 0 two_snapshots).

(** The detector after the subscriber handled the given deliveries one
    after the other; [on_message] catches whatever the handler raises and
    goes on with the next message. *)
Definition run_messages (df : IsolationForest -> list Q -> Z)
    (calls : list (string * Message * Geography * Q)) (d : AnomalyDetector)
    : AnomalyDetector :=
  foldl (fun d '(vid, msg, geo, now) => r_state (update_vehicle_state df vid msg geo now d))
    d calls.

Definition snapshot_engine : gmap string Q :=
  {[ "EngineSpeed" := 3000%Q; "EngineTemp" := 90%Q; "BatteryLevel" := 80%Q ]}.

Definition snapshot_climate_raw : gmap string Q :=
  {[ "CabinTemp" := 32%Q; "FanSpeed" := (27 # 10)%Q; "ACStatus" := 0%Q ]}.

(** A fresh start with no model files; the objects are an engine snapshot
    and a vehicle snapshot. *)
Definition engine_and_vehicle : AnomalyDetector :=
  new_detector ∅ ∅ {[ 1%positive := snapshot_engine; 2%positive := snapshot_slow ]}.

(** [n] deliveries of the engine snapshot for vehicle V1.  An
    [EngineData] snapshot is never written to, so handing over the same
    object stands for [n] messages with equal content. *)
Definition engine_messages (n : nat) : list (string * Message * Geography * Q) :=
  replicate n ("V1", mkMessage "EngineData" 1%positive, URBAN, 0%Q).

Definition fitted_forest : IsolationForest :=
  mkIsolationForest (5 # 100) 42 100 (Some [[3000%Q; 90%Q; 80%Q]]).

(** All three model files exist and load. *)
Definition disk_with_fitted_models : gmap string artifact :=
  {[ "trained_models/engine_model.joblib" := Pickled fitted_forest;
     "trained_models/vehicle_model.joblib" := Pickled fitted_forest;
     "trained_models/climate_model.joblib" := Pickled fitted_forest ]}.

(** All three model files exist; the engine one does not load. *)
Definition disk_with_corrupt_engine_model : gmap string artifact :=
  {[ "trained_models/engine_model.joblib" := Corrupt;
     "trained_models/vehicle_model.joblib" := Pickled fitted_forest;
     "trained_models/climate_model.joblib" := Pickled fitted_forest ]}.

(** A detector started on that disk. *)
Definition restarted_on_corrupt_model : AnomalyDetector :=
  new_detector disk_with_corrupt_engine_model ∅ {[ 1%positive := snapshot_engine ]}.

(** A vehicle whose last [EngineData] snapshot is the object at [1]. *)
Definition vehicle_seen_engine : VehicleState :=
  mkVehicleState "V1" 0 {[ "EngineData" := 1%positive ]} URBAN.

(** A detector started on three fitted model files, and the same after
    vehicle V1 sent an engine message in town. *)
Definition trained_with_engine_and_vehicle : AnomalyDetector :=
  new_detector disk_with_fitted_models ∅
    {[ 1%positive := snapshot_engine; 2%positive := snapshot_slow ]}.

Definition trained_after_engine_message : AnomalyDetector :=
  r_state (update_vehicle_state all_normal "V1" (mkMessage "EngineData" 1%positive)
             URBAN 0 trained_with_engine_and_vehicle).


(** A [choices] that picks the head of the population, and a [randint]
    and a [uniform] that draw the lower bound. *)
Definition first_choice : list Z -> list Z -> Z :=
  fun population _ => hd 0%Z population.

Definition lower_draw : Z -> Z -> Z := fun a _ => a.



(** * Properties *)

Local Open Scope Q_scope.

(** ** Comparisons *)

Lemma Qgtb_true (a b : Q) : Qgtb a b = true <-> b < a.
Proof.
  unfold Qgtb. rewrite negb_true_iff. split.
  - intros H. apply Qnot_le_lt. intros Hle. apply Qle_bool_iff in Hle. congruence.
  - intros H. destruct (Qle_bool a b) eqn:E; [|reflexivity].
    apply Qle_bool_iff in E. exfalso. apply (Qlt_not_le _ _ H E).
Qed.

Lemma Qgtb_false (a b : Q) : Qgtb a b = false <-> a <= b.
Proof.
  unfold Qgtb. rewrite negb_false_iff. apply Qle_bool_iff.
Qed.

Lemma Qltb_true (a b : Q) : Qltb a b = true <-> a < b.
Proof. apply Qgtb_true. Qed.

Lemma Qltb_false (a b : Q) : Qltb a b = false <-> b <= a.
Proof. apply Qgtb_false. Qed.

Lemma Qle_bool_false (a b : Q) : Qle_bool a b = false <-> b < a.
Proof.
  rewrite <- Qgtb_true. unfold Qgtb. by rewrite negb_true_iff.
Qed.

Lemma Qeq_bool_false (a b : Q) : Qeq_bool a b = false <-> ~ a == b.
Proof.
  split.
  - intros H Heq. apply Qeq_bool_iff in Heq. congruence.
  - intros H. destruct (Qeq_bool a b) eqn:E; [|reflexivity].
    apply Qeq_bool_iff in E. contradiction.
Qed.

(** Case analysis on every comparison of the goal, each case with the
    order fact it stands for among the hypotheses. *)
Ltac compare_cases :=
  repeat match goal with
  | |- context [Qgtb ?a ?b] =>
      let E := fresh "E" in
      destruct (Qgtb a b) eqn:E;
      [apply Qgtb_true in E | apply Qgtb_false in E]
  | |- context [Qltb ?a ?b] =>
      let E := fresh "E" in
      destruct (Qltb a b) eqn:E;
      [apply Qltb_true in E | apply Qltb_false in E]
  | |- context [Qle_bool ?a ?b] =>
      let E := fresh "E" in
      destruct (Qle_bool a b) eqn:E;
      [apply Qle_bool_iff in E | apply Qle_bool_false in E]
  | |- context [Qeq_bool ?a ?b] =>
      let E := fresh "E" in
      destruct (Qeq_bool a b) eqn:E;
      [apply Qeq_bool_iff in E | apply Qeq_bool_false in E]
  end.

(** ** Expected gear *)

Lemma expected_gear_monotone (speed speed' : Q) :
  speed <= speed' -> (_get_expected_gear speed <= _get_expected_gear speed')%Z.
Proof.
  intros Hle. unfold _get_expected_gear.
  compare_cases; try lia; exfalso; lra.
Qed.

(** C7. [_get_expected_gear] is the step function 1 on [0,20], 2 on
    (20,40], 3 on (40,70], 4 on (70,100], 5 on (100,150] and 6 above 150,
    and it never decreases when the speed grows. *)
Theorem expected_gear_step_function (speed : Q) :
  (0 <= speed <= 20 -> _get_expected_gear speed = 1%Z) /\
  (20 < speed <= 40 -> _get_expected_gear speed = 2%Z) /\
  (40 < speed <= 70 -> _get_expected_gear speed = 3%Z) /\
  (70 < speed <= 100 -> _get_expected_gear speed = 4%Z) /\
  (100 < speed <= 150 -> _get_expected_gear speed = 5%Z) /\
  (150 < speed -> _get_expected_gear speed = 6%Z) /\
  (forall speed' : Q, speed <= speed' ->
     (_get_expected_gear speed <= _get_expected_gear speed')%Z).
Proof.
  repeat split; try apply expected_gear_monotone;
    intros H; unfold _get_expected_gear;
    compare_cases; try reflexivity; exfalso; lra.
Qed.

Lemma expected_gear_step_function_witness :
  _get_expected_gear 10 = 1%Z /\ _get_expected_gear 30 = 2%Z /\
  _get_expected_gear 55 = 3%Z /\ _get_expected_gear 85 = 4%Z /\
  _get_expected_gear 125 = 5%Z /\ _get_expected_gear 200 = 6%Z /\
  (_get_expected_gear 10 <= _get_expected_gear 200)%Z.
Proof.
  refine (conj _ (conj _ (conj _ (conj _ (conj _ (conj _ _)))))).
  - apply (expected_gear_step_function 10). split; [by vm_compute | by vm_compute].
  - apply (expected_gear_step_function 30). split; [reflexivity | by vm_compute].
  - apply (expected_gear_step_function 55). split; [reflexivity | by vm_compute].
  - apply (expected_gear_step_function 85). split; [reflexivity | by vm_compute].
  - apply (expected_gear_step_function 125). split; [reflexivity | by vm_compute].
  - apply (expected_gear_step_function 200). reflexivity.
  - apply (expected_gear_step_function 10). by vm_compute.
Defined.

(** ** Running computations *)

(** Equations that run a computation one step at a time. *)
Lemma prepend_nil {A : Type} (r : Res A) : prepend [] r = r.
Proof. by destruct r. Qed.

Lemma bind_step {A B : Type} (c : M A) (k : A -> M B) (d d1 : AnomalyDetector)
    (out1 : list event) (a : A) :
  c d = mkRes d1 out1 (inr a) -> bind c k d = prepend out1 (k a d1).
Proof. intros H. unfold bind. by rewrite H. Qed.

Lemma bind_stop {A B : Type} (c : M A) (k : A -> M B) (d d1 : AnomalyDetector)
    (out1 : list event) (e : exn) :
  c d = mkRes d1 out1 (inl e) -> bind c k d = mkRes d1 out1 (inl e).
Proof. intros H. unfold bind. by rewrite H. Qed.

Lemma res_eta {A : Type} (r : Res A) : r = mkRes (r_state r) (r_out r) (r_val r).
Proof. by destruct r. Qed.

Lemma setitem_run (l : loc) (k : string) (v : Q) (d : AnomalyDetector) :
  setitem l k v d = mkRes (set_heap (insert l (<[k := v]> (deref d l))) d) [] (inr tt).
Proof. reflexivity. Qed.

Lemma deref_insert (d : AnomalyDetector) (l : loc) (s : gmap string Q) :
  deref (set_heap (insert l s) d) l = s.
Proof. unfold deref. cbn. by rewrite lookup_insert_eq. Qed.

Lemma set_heap_insert_insert (l : loc) (x y : gmap string Q) (d : AnomalyDetector) :
  set_heap (insert l x) (set_heap (insert l y) d) = set_heap (insert l x) d.
Proof. unfold set_heap. cbn. by rewrite insert_insert_eq. Qed.

(** Runs the first step of a [bind] when its outcome is known by
    computation. *)
Ltac run_step :=
  erewrite bind_step by reflexivity; rewrite ?prepend_nil.

(** ** Rules of the program logic *)

Section Triples.

Context (I : AnomalyDetector -> Prop) (E : event -> Prop).

Lemma triple_ret {A : Type} (a : A) (V : A -> Prop) : V a -> triple I E (ret a) V.
Proof.
  intros HV d Hd. cbn. split; [done | split; [constructor |]].
  by intros a' [= <-].
Qed.

Lemma triple_raise {A : Type} (e : exn) (V : A -> Prop) : triple I E (raise e) V.
Proof. intros d Hd. cbn. split; [done | split; [constructor | done]]. Qed.

Lemma triple_gets {A : Type} (f : AnomalyDetector -> A) (V : A -> Prop) :
  (forall d, I d -> V (f d)) -> triple I E (gets f) V.
Proof.
  intros HV d Hd. cbn. split; [done | split; [constructor |]].
  intros a [= <-]. by apply HV.
Qed.

Lemma triple_emit (e : event) (V : unit -> Prop) : E e -> V tt -> triple I E (emit e) V.
Proof.
  intros He HV d Hd. cbn. split; [done | split; [by repeat constructor |]].
  by intros [] _.
Qed.

Lemma triple_modify (f : AnomalyDetector -> AnomalyDetector) (V : unit -> Prop) :
  (forall d, I d -> I (f d)) -> V tt -> triple I E (modify f) V.
Proof.
  intros Hf HV d Hd. cbn. split; [by apply Hf | split; [constructor |]].
  by intros [] _.
Qed.

Lemma triple_bind {A B : Type} (c : M A) (k : A -> M B)
    (V : A -> Prop) (W : B -> Prop) :
  triple I E c V -> (forall a, V a -> triple I E (k a) W) -> triple I E (bind c k) W.
Proof.
  intros Hc Hk d Hd. unfold bind. destruct (Hc d Hd) as (HI & HQ & HV).
  destruct (c d) as [d1 out1 [e|a]]; cbn in *; [done |].
  destruct (Hk a (HV a eq_refl) d1 HI) as (HI' & HQ' & HW).
  destruct (k a d1) as [d2 out2 v]; cbn in *.
  split; [done | split; [by apply Forall_app | done]].
Qed.

Lemma triple_when (b : bool) (c : M unit) (V : unit -> Prop) :
  triple I E c V -> V tt -> triple I E (when b c) V.
Proof. destruct b; cbn; [done | intros _ HV; by apply triple_ret]. Qed.

Lemma triple_andM (b : bool) (c : M bool) (V : bool -> Prop) :
  triple I E c V -> V false -> triple I E (andM b c) V.
Proof. destruct b; cbn; [done | intros _ HV; by apply triple_ret]. Qed.

Lemma triple_getitem {X : Type} (dct : gmap string X) (k : string) (V : X -> Prop) :
  (forall x, dct !! k = Some x -> V x) -> triple I E (getitem dct k) V.
Proof.
  intros HV. unfold getitem. destruct (dct !! k) as [x|];
    [apply triple_ret; by apply HV | apply triple_raise].
Qed.

Lemma triple_for_each {A : Type} (xs : list A) (body : A -> M unit) :
  (forall x, triple I E (body x) (fun _ => True)) ->
  triple I E (for_each xs body) (fun _ => True).
Proof.
  intros H. induction xs as [|x xs IH]; cbn.
  - by apply triple_ret.
  - eapply triple_bind; [apply H | intros _ _; apply IH].
Qed.

End Triples.

(** The events may be described more loosely, and a computation that
    leaves the stores alone keeps every invariant that only speaks of
    them. *)
Lemma triple_events {A : Type} (I : AnomalyDetector -> Prop) (E E' : event -> Prop)
    (c : M A) (V : A -> Prop) :
  (forall e, E e -> E' e) -> triple I E c V -> triple I E' c V.
Proof.
  intros HE Hc d Hd. destruct (Hc d Hd) as (HI & Hout & HV).
  split; [done | split; [| done]]. eapply Forall_impl; eauto.
Qed.

Lemma triple_same_stores {A : Type} (I : AnomalyDetector -> Prop) (E : event -> Prop)
    (c : M A) (V : A -> Prop) :
  (forall d d', I d -> same_stores d d' -> I d') ->
  (forall d0, triple (same_stores d0) E c V) -> triple I E c V.
Proof.
  intros HI Hc d Hd. destruct (Hc d d) as (Hs & Hout & HV); [done |].
  split; [by eapply HI | done].
Qed.

(** Breaks a goal [triple I E c V] with a trivial [V] down along the
    structure of [c]. *)
Ltac triple_step :=
  lazymatch goal with
  | |- triple _ _ (bind _ _) _ =>
      eapply triple_bind with (V := fun _ => True); [| intros ? _]
  | |- triple _ _ (ret _) _ => by apply triple_ret
  | |- triple _ _ (raise _) _ => apply triple_raise
  | |- triple _ _ (gets _) _ => by apply triple_gets
  | |- triple _ _ (load _) _ => by apply triple_gets
  | |- triple _ _ (getitem _ _) _ => by apply triple_getitem
  | |- triple _ _ (when _ _) _ => apply triple_when; [| done]
  | |- triple _ _ (andM _ _) _ => apply triple_andM; [| done]
  | |- triple _ _ (for_each _ _) _ => apply triple_for_each; intros ?
  | |- triple _ _ (emit _) _ => apply triple_emit; [| done]
  | |- triple _ _ (modify _) _ => apply triple_modify; [| done]
  | |- triple _ _ (if ?b then _ else _) _ => destruct b
  | |- triple _ _ (match ?x with _ => _ end) _ => destruct x
  end.

(** ** The absolute rules on vehicle data *)

(** C8, as the code has it.  On a [VehicleData] snapshot the absolute
    rules print a critical gear mismatch exactly when the speed is above 0
    and either the speed is above 100 with gear at most 2, or the speed is
    below 20 with gear at least 3; the gear is [int(GearPosition)], 1 when
    the signal is missing, and the speed is 0 when missing. *)
Theorem critical_gear_mismatch_iff (d : AnomalyDetector) (signals : loc) :
  let s := deref d signals in
  let speed := get s "Speed" 0 in
  let gear := py_int (get s "GearPosition" 1) in
  existsb is_critical_gear
    (r_out (_check_signal_based_anomalies signals "VehicleData" d)) = true <->
  0 < speed /\
  ((100 < speed /\ (gear <= 2)%Z) \/ (speed < 20 /\ (3 <= gear)%Z)).
Proof.
  intros s speed gear.
  unfold _check_signal_based_anomalies, bind, load, gets, when. cbn.
  fold s. fold speed. fold gear.
  compare_cases; cbn;
    repeat match goal with
    | |- context [(?a >? ?b)%Z] => destruct (Z.gtb_spec a b)
    | |- context [(?a <=? ?b)%Z] => destruct (Z.leb_spec a b)
    | |- context [(?a >=? ?b)%Z] => destruct (Z.geb_spec a b)
    end; cbn; split; try done; try (intros; exfalso; lra);
    try (intros [? [[? ?]|[? ?]]]; exfalso; (lra || lia)).
  all: try (intros _; split; [lra|]; (left; split; [lra | lia]) || (right; split; [lra | lia])).
Qed.

(** C8, as the specification words it, fails at standstill: speed 0 in
    third gear is "speed < 20 with gear >= 3", and nothing is printed,
    the whole gear check being guarded by [if speed > 0]. *)
Lemma critical_gear_at_standstill :
  ~ critical_gear_as_specified (fresh_with snapshot_stopped_in_third) 1%positive.
Proof.
  unfold critical_gear_as_specified. intros [_ H].
  assert (Hout : existsb is_critical_gear
            (r_out (_check_signal_based_anomalies 1%positive "VehicleData"
                      (fresh_with snapshot_stopped_in_third))) = false)
    by (by vm_compute).
  rewrite Hout in H. enough (false = true) by discriminate.
  apply H. right. split; by vm_compute.
Qed.

(** ** The geography-context rules *)

(** Decides the remaining lookups and comparisons of a rule evaluation. *)
Ltac rule_cases :=
  repeat (cbn;
    match goal with
    | H : ?s !! ?k = Some _ |- context [?s !! ?k] => rewrite H
    | |- context [default _ (?s !! ?k)] =>
        let E := fresh "E" in destruct (s !! k) eqn:E
    | |- context [Qgtb ?a ?b] =>
        let E := fresh "E" in destruct (Qgtb a b) eqn:E
    | |- context [Qltb ?a ?b] =>
        let E := fresh "E" in destruct (Qltb a b) eqn:E
    | |- context [Qeq_bool ?a ?b] =>
        let E := fresh "E" in destruct (Qeq_bool a b) eqn:E
    | H : Qgtb _ _ = true |- _ => by vm_compute in H
    | H : Qltb _ _ = true |- _ => by vm_compute in H
    end).

(** C6. For every row of the table of geography-context rules: when the
    rules are evaluated in the row's geography on a message of the row's
    type whose snapshot carries the row's signal, the evaluation returns,
    and it writes the row's anomaly type exactly once if the signal
    crosses the threshold and not at all otherwise; a record of that type
    carries the vehicle, message type, geography and snapshot. *)
Theorem geography_table_sound (rule : geography_rule) (d : AnomalyDetector)
    (state : VehicleState) (signals : loc) (v : Q) :
  In rule geography_table ->
  geography state = rule_geography rule ->
  deref d signals !! rule_signal rule = Some v ->
  let r := _check_geography_based_anomalies state (rule_message rule) signals d in
  r_val r = inr tt /\
  r_state r = d /\
  count_type (rule_anomaly_type rule) (r_out r) =
    (if crosses (rule_trigger rule) (rule_threshold rule) v then 1 else 0)%nat /\
  (forall a, In (Sink a) (r_out r) ->
     anomaly_type a = rule_anomaly_type rule ->
     a_vehicle_id a = vehicle_id state /\ message_type a = rule_message rule /\
     a_geography a = rule_geography rule /\ a_signals a = deref d signals /\
     severity a = "warning").
Proof.
  intros Hin Hgeo Hv r. subst r.
  destruct state as [vid upd lasts geo]. cbn in Hgeo. subst geo.
  set (s := deref d signals) in *.
  unfold geography_table in Hin. cbn -[deref] in Hin.
  repeat (destruct Hin as [<- | Hin]); try contradiction;
    cbn in Hv |- *;
    unfold _check_geography_based_anomalies, _save_anomaly_to_influxdb,
      bind, load, gets, when, emit, getitem, get; cbn; fold s;
    rule_cases;
    (split; [reflexivity |]); (split; [reflexivity |]); (split; [reflexivity |]);
    intros a Ha Hty; cbn in Ha;
    repeat (destruct Ha as [Ha | Ha]; [inversion Ha; subst a; clear Ha | ]);
    try contradiction; cbn in Hty; try discriminate; cbn; done.
Qed.

Lemma geography_table_sound_witness :
  count_type "high_speed_in_rain"
    (r_out (_check_geography_based_anomalies (vehicle_in RAINY) "VehicleData"
              1%positive (fresh_with snapshot_fast))) = 1%nat.
Proof.
  apply (geography_table_sound rainy_rule (fresh_with snapshot_fast)
           (vehicle_in RAINY) 1%positive 90).
  - left. reflexivity.
  - reflexivity.
  - by vm_compute.
Defined.

(** ** Snapshots with missing signals *)


Lemma get_union_default (s defaults : gmap string Q) (k : string) (v : Q) :
  defaults !! k = Some v -> get (s ∪ defaults) k v = get s k v.
Proof.
  intros H. unfold get. rewrite lookup_union, H.
  destruct (s !! k); reflexivity.
Qed.


(** Rewrites the lookups in a snapshot completed with defaults. *)
Ltac default_lookups :=
  repeat match goal with
  | |- context [(?s ∪ ?dflt) !! ?k] =>
      rewrite (lookup_union s dflt k);
      let v := eval vm_compute in (dflt !! k) in
      change (dflt !! k) with v
  end.

(** Case analysis on whether each signal read is present. *)
Ltac lookup_cases :=
  repeat match goal with
  | |- context [?s !! ?k] =>
      is_var s; let E := fresh "E" in destruct (s !! k) eqn:E
  end.

(** Case analysis on every test, evaluating the closed ones. *)
Ltac test_cases :=
  repeat (cbn; match goal with
  | |- context [if ?b then _ else _] =>
      first [ let v := eval vm_compute in b in
              (lazymatch v with true => idtac | false => idtac end);
              change b with v
            | destruct b ]
  end).


Lemma absolute_rules_read_defaults (d : AnomalyDetector) (signals : loc)
    (message_name : string) :
  let r := _check_signal_based_anomalies signals message_name d in
  r_val r = inr tt /\ r_state r = d /\
  event_tag <$> r_out r =
    event_tag <$> r_out (_check_signal_based_anomalies signals message_name
                           (set_heap (insert signals (deref d signals ∪ absolute_defaults)) d)).
Proof.
  set (s := deref d signals).
  unfold _check_signal_based_anomalies, bind, load, gets.
  cbn -[deref get]. rewrite deref_insert. fold s. clearbody s.
  destruct (String.eqb message_name "EngineData");
    [| destruct (String.eqb message_name "VehicleData");
       [| destruct (String.eqb message_name "ClimateControl")]].
  all: unfold get, getitem, when, emit, ret; default_lookups.
  all: lookup_cases; test_cases.
  all: cbn; repeat split; reflexivity.
Qed.

Lemma geography_rules_read_defaults (d : AnomalyDetector) (state : VehicleState)
    (signals : loc) (message_name : string) :
  ~ (geography state = HIGHWAY /\ message_name = "VehicleData" /\
     deref d signals !! "Speed" = None) ->
  let r := _check_geography_based_anomalies state message_name signals d in
  r_val r = inr tt /\ r_state r = d /\
  event_tag <$> r_out r =
    event_tag <$> r_out (_check_geography_based_anomalies state message_name signals
                           (set_heap (insert signals (deref d signals ∪ geography_defaults)) d)).
Proof.
  set (s := deref d signals). intros Hnot.
  unfold _check_geography_based_anomalies, _save_anomaly_to_influxdb, bind, load, gets.
  cbn -[deref get]. rewrite deref_insert. fold s.
  destruct state as [vid upd lasts geo]. cbn in Hnot. cbn [geography].
  clearbody s.
  destruct (String.eqb_spec message_name "VehicleData") as [->|];
    [| destruct (String.eqb_spec message_name "EngineData") as [->|];
       [| destruct (String.eqb_spec message_name "ClimateControl") as [->|]]].
  all: destruct geo; unfold get, getitem, when, emit, ret; default_lookups.
  all: lookup_cases; test_cases.
  all: cbn; try (repeat split; reflexivity).
  exfalso. by apply Hnot.
Qed.




(** ** The rule evaluators only read *)

(** The evaluators never write to the detector, so they keep any invariant;
    a record they send carries the snapshot as it is when they run. *)
Section Evaluators.

Context (I : AnomalyDetector -> Prop) (E : event -> Prop) (signals : loc).
Hypothesis E_print : forall p, E (Print p).
Hypothesis E_sink : forall d a, I d -> a_signals a = deref d signals -> E (Sink a).

Lemma save_anomaly_triple vid ty m geo sev det :
  triple I E (_save_anomaly_to_influxdb vid ty m signals geo sev det) (fun _ => True).
Proof.
  unfold _save_anomaly_to_influxdb.
  eapply triple_bind with (V := fun s => forall a, a_signals a = s -> E (Sink a)).
  - apply triple_gets. intros d Hd a Ha. by eapply E_sink.
  - intros s Hs. apply triple_emit; [by apply Hs | done].
Qed.

Lemma temporal_triple st m :
  triple I E (_check_temporal_anomalies st m signals) (fun _ => True).
Proof.
  unfold _check_temporal_anomalies.
  repeat triple_step; try apply E_print; apply save_anomaly_triple.
Qed.

Lemma geography_triple st m :
  triple I E (_check_geography_based_anomalies st m signals) (fun _ => True).
Proof.
  unfold _check_geography_based_anomalies.
  repeat triple_step; try apply E_print; apply save_anomaly_triple.
Qed.

Lemma absolute_triple m :
  triple I E (_check_signal_based_anomalies signals m) (fun _ => True).
Proof.
  unfold _check_signal_based_anomalies.
  repeat triple_step; apply E_print.
Qed.

End Evaluators.

Section Readonly.

Context (d : AnomalyDetector) (l : loc).

Lemma carries_sink (d' : AnomalyDetector) (a : Anomaly) :
  d = d' -> a_signals a = deref d' l -> carries (deref d l) (Sink a).
Proof. by intros <-. Qed.

Lemma temporal_facts (st : VehicleState) (m : string) :
  r_state (_check_temporal_anomalies st m l d) = d /\
  Forall (carries (deref d l)) (r_out (_check_temporal_anomalies st m l d)).
Proof.
  destruct (temporal_triple (eq d) (carries (deref d l)) l (fun _ => I) carries_sink
              st m d) as (H & H' & _); done.
Qed.

Lemma geography_facts (st : VehicleState) (m : string) :
  r_state (_check_geography_based_anomalies st m l d) = d /\
  Forall (carries (deref d l)) (r_out (_check_geography_based_anomalies st m l d)).
Proof.
  destruct (geography_triple (eq d) (carries (deref d l)) l carries_sink st m d)
    as (H & H' & _); done.
Qed.

Lemma absolute_facts (m : string) :
  r_state (_check_signal_based_anomalies l m d) = d /\
  Forall (carries (deref d l)) (r_out (_check_signal_based_anomalies l m d)).
Proof.
  destruct (absolute_triple (eq d) (carries (deref d l)) l (fun _ => I) m d)
    as (H & H' & _); done.
Qed.

(** The three evaluators in a row, followed by the update [F] of the
    vehicle state. *)
Lemma rules_run (st : VehicleState) (m : string)
    (F : AnomalyDetector -> AnomalyDetector) :
  let T := (let* _ := _check_temporal_anomalies st m l in
            let* _ := _check_geography_based_anomalies st m l in
            let* _ := _check_signal_based_anomalies l m in
            modify F) d in
  Forall (carries (deref d l)) (r_out T) /\
  (r_val T = inr tt -> r_state T = F d) /\
  (r_state T = d \/ r_state T = F d).
Proof.
  destruct (temporal_facts st m) as (Ht & Et).
  destruct (geography_facts st m) as (Hg & Eg).
  destruct (absolute_facts m) as (Ha & Ea).
  destruct (_check_temporal_anomalies st m l d) as [dt outt [et|[]]] eqn:Rt;
    cbn in Ht, Et; subst dt.
  { erewrite bind_stop by exact Rt. cbn. repeat split; auto; discriminate. }
  erewrite bind_step by exact Rt.
  destruct (_check_geography_based_anomalies st m l d) as [dg outg [eg|[]]] eqn:Rg;
    cbn in Hg, Eg; subst dg.
  { erewrite bind_stop by exact Rg. cbn. rewrite Forall_app. repeat split; auto; discriminate. }
  erewrite bind_step by exact Rg.
  destruct (_check_signal_based_anomalies l m d) as [da outa [ea|[]]] eqn:Ra;
    cbn in Ha, Ea; subst da.
  { erewrite bind_stop by exact Ra. cbn. rewrite !Forall_app. repeat split; auto; discriminate. }
  erewrite bind_step by exact Ra. cbn. rewrite !Forall_app. 
  repeat split; auto.
Qed.

End Readonly.

(** The temporal rules on vehicle data return only if the snapshot has a
    speed. *)
Lemma temporal_needs_speed (st : VehicleState) (l : loc) (d : AnomalyDetector) :
  r_val (_check_temporal_anomalies st "VehicleData" l d) = inr tt ->
  deref d l !! "Speed" <> None.
Proof.
  intros Hval Hnone. revert Hval.
  unfold _check_temporal_anomalies.
  unfold getitem at 1. destruct (last_values st !! "VehicleData") as [last|]; [| done].
  run_step. run_step. run_step.
  erewrite bind_step by reflexivity.
  cbn [String.eqb Ascii.eqb Bool.eqb]. unfold getitem at 1. rewrite Hnone.
  erewrite bind_stop by reflexivity. done.
Qed.

(** ** The outlier check *)

Lemma save_models_stores (d0 : AnomalyDetector) (s : gmap string Q) :
  triple (same_stores d0) (outlier_event s) _save_models (fun _ => True).
Proof.
  unfold _save_models.
  repeat triple_step; try (by split); by intros d [].
Qed.

Lemma train_stores (d0 : AnomalyDetector) (s : gmap string Q) :
  triple (same_stores d0) (outlier_event s) _train_models_if_needed (fun _ => True).
Proof.
  unfold _train_models_if_needed.
  repeat triple_step; try (by split); try (by intros d []).
  apply save_models_stores.
Qed.

Lemma explain_stores (d0 : AnomalyDetector) (s : gmap string Q) m l :
  triple (same_stores d0) (outlier_event s) (explain_anomaly m l) (fun _ => True).
Proof.
  unfold explain_anomaly.
  repeat triple_step; by split.
Qed.

Lemma save_anomaly_stores (d0 : AnomalyDetector) (l : loc) vid m geo sev det :
  triple (same_stores d0) (outlier_event (deref d0 l))
    (_save_anomaly_to_influxdb vid "isolation_forest" m l geo sev det)
    (fun _ => True).
Proof.
  unfold _save_anomaly_to_influxdb.
  eapply triple_bind with (V := fun s => s = deref d0 l).
  - apply triple_gets. intros d (_ & Hh & _). unfold deref. by rewrite Hh.
  - intros s ->. apply triple_emit; [by split | done].
Qed.

(** The integer coercion at the head of the check. *)
Lemma coercion_step (m : string) (l : loc) (d : AnomalyDetector) (s' : gmap string Q) :
  coerced m (deref d l) = Some s' ->
  when (String.eqb m "ClimateControl")
    (let* s := load l in
     let* a := getitem s "ACStatus" in
     let* _ := setitem l "ACStatus" (inject_Z (py_int a)) in
     let* s := load l in
     let* f := getitem s "FanSpeed" in
     setitem l "FanSpeed" (inject_Z (py_int f))) d =
  mkRes (if String.eqb m "ClimateControl" then set_heap (insert l s') d else d) [] (inr tt).
Proof.
  unfold coerced. destruct (String.eqb m "ClimateControl"); cbn [when]; [| by intros [= <-]].
  destruct (deref d l !! "ACStatus") as [a|] eqn:Ea; [| done].
  destruct (deref d l !! "FanSpeed") as [f|] eqn:Ef; [| done].
  intros [= <-].
  run_step. unfold getitem at 1. rewrite Ea. run_step.
  erewrite bind_step by apply setitem_run. rewrite prepend_nil. run_step.
  rewrite deref_insert. unfold getitem.
  rewrite lookup_insert_ne by done. rewrite Ef. run_step.
  rewrite setitem_run, deref_insert, set_heap_insert_insert. reflexivity.
Qed.

(** What the check does once the coercion went through on a message of a
    known type: the object is coerced, one row is appended to the buffer
    of the type, and the records sent carry the coerced snapshot; this
    holds also when a later step raises. *)
Lemma iforest_effect (df : IsolationForest -> list Q -> Z)
    (m : string) (l : loc) (vid : string) (d : AnomalyDetector)
    (s' : gmap string Q) (row : list Q) (rest : list (list Q)) :
  coerced m (deref d l) = Some s' ->
  _prepare_data_for_isolation_forest m s' = row :: rest ->
  let r := _check_isolation_forest_anomalies df m l vid d in
  vehicle_states (r_state r) = vehicle_states d /\
  heap (r_state r) =
    (if String.eqb m "ClimateControl" then <[l := s']> (heap d) else heap d) /\
  collected_data (r_state r) =
    <[m := default [] (collected_data d !! m) ++ [row]]> (collected_data d) /\
  Forall (outlier_event s') (r_out r).
Proof.
  intros Hco Hprep. unfold _check_isolation_forest_anomalies.
  erewrite bind_step by (apply coercion_step; eassumption). rewrite prepend_nil.
  set (d1 := if String.eqb m "ClimateControl" then set_heap (insert l s') d else d).
  assert (Hd1 : deref d1 l = s').
  { subst d1. unfold coerced in Hco. destruct (String.eqb m "ClimateControl").
    - apply deref_insert.
    - by injection Hco. }
  run_step. rewrite Hd1, Hprep. run_step.
  match goal with
  | |- context [r_state (?c ?d2)] =>
      assert (H : triple (same_stores d2) (outlier_event (deref d2 l)) c (fun _ => True));
      [| destruct (H d2) as ((Hvs & Hh & Hcd) & Hout & _); [done |]]
  end.
  - repeat (triple_step || unfold predict); try (by split).
    + apply train_stores.
    + apply save_anomaly_stores.
    + apply explain_stores.
  - cbv zeta. rewrite Hvs, Hh, Hcd. change (deref _ l) with (deref d1 l) in Hout.
    rewrite Hd1 in Hout. subst d1. cbn.
    destruct (String.eqb m "ClimateControl"); done.
Qed.

Lemma outside_refl d l : outside d l d.
Proof. by repeat split. Qed.

Lemma outside_same_stores d0 l d d' : outside d0 l d -> same_stores d d' -> outside d0 l d'.
Proof.
  intros (Hvs & Hh & Hcd) (Hvs' & Hh' & Hcd').
  unfold outside. by rewrite Hvs', Hh', Hcd'.
Qed.

(** Whatever the message, the check leaves the vehicle states alone,
    writes to no other object than the snapshot, only appends to the
    buffers, and outputs only events of its own. *)
Lemma iforest_frame (df : IsolationForest -> list Q -> Z)
    (m : string) (l : loc) (vid : string) (d0 : AnomalyDetector) :
  triple (outside d0 l) (fun e => origin_of e = Outlier)
    (_check_isolation_forest_anomalies df m l vid) (fun _ => True).
Proof.
  unfold _check_isolation_forest_anomalies.
  assert (Hheap : forall f, (forall h, forall l', l' <> l -> f h !! l' = h !! l') ->
            forall d, outside d0 l d -> outside d0 l (set_heap f d)).
  { intros f Hf d (Hvs & Hh & Hcd). split; [done | split; [| done]].
    intros l' Hl'. cbn. rewrite Hf by done. by apply Hh. }
  assert (Hweak : forall (c : M unit),
            (forall d1 s, triple (same_stores d1) (outlier_event s) c (fun _ => True)) ->
            triple (outside d0 l) (fun e => origin_of e = Outlier) c (fun _ => True)).
  { intros c Hc. apply triple_same_stores; [apply outside_same_stores |].
    intros d1. eapply triple_events; [| apply (Hc d1 ∅)]. by intros e []. }
  repeat (triple_step || unfold predict || unfold setitem); try done.
  - apply Hheap. intros h l' Hl'. by rewrite lookup_insert_ne.
  - apply Hheap. intros h l' Hl'. by rewrite lookup_insert_ne.
  - intros d (Hvs & Hh & Hcd). split; [done | split; [done |]].
    intros k. cbn. etransitivity; [apply Hcd |].
    destruct (decide (k = m)) as [->|Hk].
    + rewrite lookup_insert_eq. cbn. by apply prefix_app_r.
    + by rewrite lookup_insert_ne.
  - apply Hweak. intros; apply train_stores.
  - apply triple_same_stores; [apply outside_same_stores |].
    intros d1. eapply triple_events; [| apply save_anomaly_stores]. by intros e [].
  - apply Hweak. intros; apply explain_stores.
Qed.

(** ** The handler *)

Lemma registered_state (vid : string) (geo : Geography) (now : Q) (d : AnomalyDetector) :
  exists st, vehicle_states (registered vid geo now d) !! vid = Some st /\
    forall m, last_values st !! m = previous_snapshot d vid m.
Proof.
  unfold registered, previous_snapshot.
  destruct (vehicle_states d !! vid) as [st|] eqn:E.
  - rewrite bool_decide_eq_true_2 by eauto. rewrite E. by exists st.
  - rewrite bool_decide_eq_false_2 by (by intros [? ?]).
    eexists. cbn. rewrite lookup_insert_eq. split; [done |]. intros m. by cbn.
Qed.

Lemma registered_heap vid geo now d :
  heap (registered vid geo now d) = heap d /\
  collected_data (registered vid geo now d) = collected_data d.
Proof. unfold registered. by destruct (bool_decide _). Qed.

(** The handler, in terms of the outlier check it starts with. *)
Lemma update_run (df : IsolationForest -> list Q -> Z)
    (vid : string) (msg : Message) (geo : Geography) (now : Q)
    (d : AnomalyDetector) (st : VehicleState) :
  vehicle_states (registered vid geo now d) !! vid = Some st ->
  let m := msg_name msg in
  let l := msg_signals msg in
  let r1 := _check_isolation_forest_anomalies df m l vid (registered vid geo now d) in
  let st' := mkVehicleState (vehicle_id st) (last_update st) (last_values st) geo in
  let d2 := set_vehicle_states (insert vid st') (r_state r1) in
  update_vehicle_state df vid msg geo now d =
    match r_val r1 with
    | inl e => mkRes (r_state r1) (r_out r1) (inl e)
    | inr _ =>
        prepend (r_out r1)
          match last_values st !! m with
          | None =>
              mkRes (set_vehicle_states (insert vid
                       (mkVehicleState (vehicle_id st) (last_update st)
                          (<[m := l]> (last_values st)) geo)) d2) [] (inr tt)
          | Some _ =>
              (let* _ := _check_temporal_anomalies st' m l in
               let* _ := _check_geography_based_anomalies st' m l in
               let* _ := _check_signal_based_anomalies l m in
               modify (set_vehicle_states (insert vid
                 (mkVehicleState (vehicle_id st) now
                    (<[m := l]> (last_values st)) geo)))) d2
          end
    end.
Proof.
  intros Hst m l r1 st' d2.
  unfold update_vehicle_state. cbv zeta. fold m. fold l.
  run_step.
  erewrite bind_step with (d1 := registered vid geo now d) (out1 := []) (a := tt);
    [| unfold registered; by destruct (bool_decide _)].
  rewrite prepend_nil.
  destruct (iforest_frame df m l vid (registered vid geo now d) _
              (outside_refl _ _)) as ((Hvs & _) & _).
  subst d2. fold r1 in Hvs |- *.
  destruct r1 as [d1 out1 [e|[]]] eqn:E1; cbn [r_val r_state r_out] in *.
  - by erewrite bind_stop by exact E1.
  - erewrite bind_step by exact E1. f_equal.
    run_step. unfold getitem at 1. rewrite Hvs, Hst. run_step. run_step.
    cbn [last_values]. by destruct (last_values st !! m).
Qed.

Lemma first_message_run (df : IsolationForest -> list Q -> Z)
    (vid : string) (msg : Message) (geo : Geography) (now : Q)
    (d : AnomalyDetector) :
  previous_snapshot d vid (msg_name msg) = None ->
  let r := update_vehicle_state df vid msg geo now d in
  let r1 := _check_isolation_forest_anomalies df (msg_name msg) (msg_signals msg) vid
              (registered vid geo now d) in
  r_out r = r_out r1 /\ r_val r = r_val r1 /\
  heap (r_state r) = heap (r_state r1) /\
  collected_data (r_state r) = collected_data (r_state r1) /\
  (r_val r1 = inr tt -> exists st',
     vehicle_states (r_state r) !! vid = Some st' /\
     last_values st' !! msg_name msg = Some (msg_signals msg) /\
     geography st' = geo).
Proof.
  intros Hprev r r1. subst r.
  destruct (registered_state vid geo now d) as (st & Hst & Hlast).
  rewrite (update_run df vid msg geo now d st Hst). fold r1.
  rewrite Hlast, Hprev.
  destruct (r_val r1) as [e|[]] eqn:Ev; cbn.
  - by repeat split.
  - rewrite app_nil_r. repeat split.
    intros _. eexists. rewrite lookup_insert_eq. split; [done |].
    cbn. by rewrite lookup_insert_eq.
Qed.

Lemma later_message_run (df : IsolationForest -> list Q -> Z)
    (vid : string) (msg : Message) (geo : Geography) (now : Q)
    (d : AnomalyDetector) (st : VehicleState) (prev : loc) :
  vehicle_states d !! vid = Some st ->
  last_values st !! msg_name msg = Some prev ->
  let m := msg_name msg in
  let l := msg_signals msg in
  let r := update_vehicle_state df vid msg geo now d in
  let r1 := _check_isolation_forest_anomalies df m l vid d in
  let st' := mkVehicleState (vehicle_id st) (last_update st) (last_values st) geo in
  let d2 := set_vehicle_states (insert vid st') (r_state r1) in
  r_val r1 = inr tt ->
  r_val (_check_temporal_anomalies st' m l d2) = inr tt ->
  r_val r = inr tt /\
  r_out r = r_out r1 ++ r_out (_check_temporal_anomalies st' m l d2)
                     ++ r_out (_check_geography_based_anomalies st' m l d2)
                     ++ r_out (_check_signal_based_anomalies l m d2) /\
  r_state r = set_vehicle_states (insert vid
                (mkVehicleState (vehicle_id st) now (<[m := l]> (last_values st)) geo)) d2.
Proof.
  intros Hst Hprev m l r r1 st' d2 Hr1 Ht.
  assert (Hreg : registered vid geo now d = d).
  { unfold registered. rewrite bool_decide_eq_true_2; [done | by rewrite Hst]. }
  subst r. rewrite (update_run df vid msg geo now d st) by (by rewrite Hreg).
  rewrite Hreg. fold m l r1. rewrite Hr1. fold st' d2.
  change (msg_name msg) with m in Hprev. rewrite Hprev.
  destruct (geography_rules_read_defaults d2 st' l m) as (Hgv & Hgs & _).
  { intros (_ & Hm & Hnone). rewrite Hm in Ht.
    by apply temporal_needs_speed in Ht. }
  destruct (absolute_rules_read_defaults d2 l m) as (Hav & Has & _).
  destruct (temporal_facts d2 l st' m) as (Hts & _).
  erewrite bind_step; [| rewrite (res_eta (_check_temporal_anomalies _ _ _ _)), Hts, Ht; done].
  erewrite bind_step; [| rewrite (res_eta (_check_geography_based_anomalies _ _ _ _)), Hgs, Hgv; done].
  erewrite bind_step; [| rewrite (res_eta (_check_signal_based_anomalies _ _ _)), Has, Hav; done].
  cbn. rewrite app_nil_r. done.
Qed.

Lemma update_effect (df : IsolationForest -> list Q -> Z)
    (vid : string) (msg : Message) (geo : Geography) (now : Q)
    (d : AnomalyDetector) :
  let m := msg_name msg in
  let l := msg_signals msg in
  let r := update_vehicle_state df vid msg geo now d in
  let r1 := _check_isolation_forest_anomalies df m l vid (registered vid geo now d) in
  heap (r_state r) = heap (r_state r1) /\
  collected_data (r_state r) = collected_data (r_state r1) /\
  (exists out, r_out r = r_out r1 ++ out /\
               Forall (carries (deref (r_state r1) l)) out) /\
  (r_val r = inr tt -> exists st',
     vehicle_states (r_state r) !! vid = Some st' /\
     last_values st' !! m = Some l).
Proof.
  intros m l r r1. subst r.
  destruct (registered_state vid geo now d) as (st & Hst & _).
  rewrite (update_run df vid msg geo now d st Hst). fold m l r1.
  destruct (r_val r1) as [e|[]].
  { cbn. repeat split; [| done]. exists []. by rewrite app_nil_r. }
  destruct (last_values st !! m) as [prev|].
  - set (st' := mkVehicleState _ _ _ geo).
    set (d2 := set_vehicle_states _ (r_state r1)).
    match goal with
    | |- context [modify ?F] =>
        destruct (rules_run d2 l st' m F) as (HE & Hval & Hstate)
    end.
    cbv zeta in HE, Hval, Hstate.
    match type of HE with
    | Forall _ (r_out ?T) => destruct T as [dT outT vT]
    end.
    cbn in *. repeat split.
    + by destruct Hstate as [-> | ->].
    + by destruct Hstate as [-> | ->].
    + by exists outT.
    + intros ->. rewrite Hval by done. cbn. eexists.
      rewrite lookup_insert_eq. split; [done |]. cbn. by rewrite lookup_insert_eq.
  - cbn. repeat split.
    + exists []. by rewrite app_nil_r.
    + intros _. eexists. rewrite lookup_insert_eq. split; [done |].
      cbn. by rewrite lookup_insert_eq.
Qed.

(** C4. On the first message of a type for a vehicle (no snapshot of that
    type is recorded for it, or the vehicle is new) the handler outputs no
    temporal-delta event.  It returns exactly when the outlier check
    returns, and then the vehicle's [last_values] of that type is the
    reference to the snapshot of the message: the snapshot is recorded and
    compared with nothing. *)
Theorem first_message_not_diffed (df : IsolationForest -> list Q -> Z)
    (vid : string) (msg : Message) (geo : Geography)
    (now : Q) (d : AnomalyDetector) :
  previous_snapshot d vid (msg_name msg) = None ->
  let r := update_vehicle_state df vid msg geo now d in
  Forall (fun e => origin_of e <> Temporal) (r_out r) /\
  r_val r = r_val (_check_isolation_forest_anomalies df (msg_name msg)
                     (msg_signals msg) vid (registered vid geo now d)) /\
  (r_val r = inr tt -> exists st',
     vehicle_states (r_state r) !! vid = Some st' /\
     last_values st' !! msg_name msg = Some (msg_signals msg)).
Proof.
  intros Hprev r.
  destruct (first_message_run df vid msg geo now d Hprev)
    as (Hout & Hval & _ & _ & Hst).
  fold r in Hout, Hval, Hst. split; [| split; [done |]].
  - rewrite Hout.
    destruct (iforest_frame df (msg_name msg) (msg_signals msg) vid
                (registered vid geo now d) _ (outside_refl _ _)) as (_ & HE & _).
    eapply Forall_impl; [exact HE |]. cbn. intros e He. by rewrite He.
  - intros Hr. rewrite Hval in Hr. destruct (Hst Hr) as (st' & ? & ? & _). eauto.
Qed.

Lemma first_message_not_diffed_witness :
  Forall (fun e => origin_of e <> Temporal)
    (r_out (update_vehicle_state all_normal "V1" (mkMessage "VehicleData" 1%positive)
              RAINY 0 (fresh_with snapshot_fast))).
Proof.
  apply (first_message_not_diffed all_normal "V1" (mkMessage "VehicleData" 1%positive)
           RAINY 0 (fresh_with snapshot_fast)).
  by vm_compute.
Defined.

(** C1 as the specification words it fails on a first message: a vehicle
    new to the detector reports 90 km/h in the rain, family (b) would
    report a high speed in rain, and the handler reports nothing. *)
Lemma first_message_skips_context_rules :
  ~ rules_b_c_on_every_message all_normal "V1" (mkMessage "VehicleData" 1%positive)
      RAINY 0 (fresh_with snapshot_fast).
Proof.
  unfold rules_b_c_on_every_message. intros H.
  specialize (H (mkVehicleState "V1" 0 {[ "VehicleData" := 1%positive ]} RAINY)
                ltac:(by vm_compute)
                (Sink (mkAnomaly "V1" "high_speed_in_rain" "VehicleData" snapshot_fast
                         RAINY "warning" (Some 90)))).
  cbn [msg_name msg_signals] in H.
  assert (Hout : r_out (update_vehicle_state all_normal "V1"
                          (mkMessage "VehicleData" 1%positive) RAINY 0
                          (fresh_with snapshot_fast)) = []) by (by vm_compute).
  rewrite Hout in H. apply H. apply in_or_app. left.
  vm_compute. by left.
Qed.

(** C1, as the code has it.  On the first message of a type for a vehicle
    no rule family is evaluated: all the handler outputs comes from the
    outlier check.  On a later message, when the outlier check and the
    temporal rules return, the handler returns and its output is that of
    the outlier check followed by what families (a), (b) and (c) report on
    the message, evaluated with the vehicle in the geography of the
    message. *)
Theorem rule_families_by_message (df : IsolationForest -> list Q -> Z)
    (vid : string) (msg : Message) (geo : Geography)
    (now : Q) (d : AnomalyDetector) :
  let m := msg_name msg in
  let l := msg_signals msg in
  let r := update_vehicle_state df vid msg geo now d in
  (previous_snapshot d vid m = None ->
   Forall (fun e => origin_of e = Outlier) (r_out r)) /\
  (forall st prev,
     vehicle_states d !! vid = Some st ->
     last_values st !! m = Some prev ->
     let r1 := _check_isolation_forest_anomalies df m l vid d in
     let st' := mkVehicleState (vehicle_id st) (last_update st) (last_values st) geo in
     let d2 := set_vehicle_states (insert vid st') (r_state r1) in
     r_val r1 = inr tt ->
     r_val (_check_temporal_anomalies st' m l d2) = inr tt ->
     r_val r = inr tt /\
     r_out r = r_out r1 ++ r_out (_check_temporal_anomalies st' m l d2)
                        ++ r_out (_check_geography_based_anomalies st' m l d2)
                        ++ r_out (_check_signal_based_anomalies l m d2)).
Proof.
  intros m l r. split.
  - intros Hprev.
    destruct (first_message_run df vid msg geo now d Hprev) as (Hout & _).
    fold r in Hout. rewrite Hout.
    by destruct (iforest_frame df m l vid (registered vid geo now d) _
                   (outside_refl _ _)) as (_ & HE & _).
  - intros st prev Hst Hprev r1 st' d2 Hr1 Ht.
    destruct (later_message_run df vid msg geo now d st prev Hst Hprev Hr1 Ht)
      as (Hv & Ho & _).
    by split.
Qed.

Lemma rule_families_by_message_witness :
  count_type "high_speed_in_rain"
    (r_out (update_vehicle_state all_normal "V1" (mkMessage "VehicleData" 2%positive)
              RAINY 1 after_first_message)) = 1%nat.
Proof.
  destruct (rule_families_by_message all_normal "V1" (mkMessage "VehicleData" 2%positive)
              RAINY 1 after_first_message) as [_ H].
  destruct (H (mkVehicleState "V1" 0 {[ "VehicleData" := 1%positive ]} RAINY) 1%positive)
    as [_ Hout].
  - by vm_compute.
  - by vm_compute.
  - by vm_compute.
  - by vm_compute.
  - rewrite Hout. by vm_compute.
Defined.

(** C9. On a climate-control message whose snapshot has [ACStatus] and
    [FanSpeed], the handler leaves the caller's snapshot object with both
    entries overwritten by their integer coercion, whether it returns or
    raises; the row appended to the sample buffer is projected from the
    coerced snapshot; every record sent to the sink carries the coerced
    snapshot; and when the handler returns, the vehicle's [last_values]
    refers to that same object. *)
Theorem climate_snapshot_coerced_in_place (df : IsolationForest -> list Q -> Z)
    (vid : string) (l : loc) (geo : Geography)
    (now : Q) (d : AnomalyDetector) (s : gmap string Q) (a f : Q) :
  heap d !! l = Some s ->
  s !! "ACStatus" = Some a ->
  s !! "FanSpeed" = Some f ->
  let s' := <["FanSpeed" := inject_Z (py_int f)]>
              (<["ACStatus" := inject_Z (py_int a)]> s) in
  let r := update_vehicle_state df vid (mkMessage "ClimateControl" l) geo now d in
  heap (r_state r) !! l = Some s' /\
  collected_data (r_state r) !! "ClimateControl" =
    Some (default [] (collected_data d !! "ClimateControl") ++
          [[get s "CabinTemp" 0; inject_Z (py_int f); inject_Z (py_int a)]]) /\
  (forall an, In (Sink an) (r_out r) -> a_signals an = s') /\
  (r_val r = inr tt -> exists st',
     vehicle_states (r_state r) !! vid = Some st' /\
     last_values st' !! "ClimateControl" = Some l /\
     deref (r_state r) l = s').
Proof.
  intros Hl Ha Hf s' r.
  destruct (registered_heap vid geo now d) as (Hrh & Hrc).
  assert (Hs : deref (registered vid geo now d) l = s).
  { unfold deref. by rewrite Hrh, Hl. }
  destruct (iforest_effect df "ClimateControl" l vid (registered vid geo now d) s'
              [get s "CabinTemp" 0; inject_Z (py_int f); inject_Z (py_int a)] [])
    as (_ & Hh1 & Hc1 & He1).
  { rewrite Hs. unfold coerced. cbn. by rewrite Ha, Hf. }
  { unfold _prepare_data_for_isolation_forest, get. cbn. subst s'.
    rewrite lookup_insert_ne by done. rewrite lookup_insert_ne by done.
    rewrite lookup_insert_eq. rewrite lookup_insert_ne by done.
    by rewrite lookup_insert_eq. }
  cbv zeta in Hh1, Hc1, He1. cbn [String.eqb Ascii.eqb Bool.eqb] in Hh1.
  destruct (update_effect df vid (mkMessage "ClimateControl" l) geo now d)
    as (Hh & Hc & (out & Hout & Hcar) & Hst).
  cbn [msg_name msg_signals] in Hh, Hc, Hout, Hcar, Hst. fold r in Hh, Hc, Hout, Hst.
  assert (Hd : heap (r_state r) !! l = Some s').
  { by rewrite Hh, Hh1, lookup_insert_eq. }
  assert (Hd1 : deref (_check_isolation_forest_anomalies df "ClimateControl" l vid
                        (registered vid geo now d)).(r_state) l = s').
  { unfold deref. by rewrite Hh1, lookup_insert_eq. }
  split; [done |]. split; [| split].
  - by rewrite Hc, Hc1, lookup_insert_eq, Hrc.
  - intros an Han. rewrite Hout in Han. apply in_app_or in Han as [Han | Han].
    + rewrite Forall_forall in He1. apply list_elem_of_In, He1 in Han. apply Han.
    + rewrite Forall_forall in Hcar. apply list_elem_of_In, Hcar in Han.
      cbn in Han. by rewrite Hd1 in Han.
  - intros Hr. destruct (Hst Hr) as (st' & ? & ?). exists st'.
    repeat split; try done. unfold deref. by rewrite Hd.
Qed.

Lemma climate_snapshot_coerced_in_place_witness :
  heap (r_state (update_vehicle_state all_normal "V1"
                   (mkMessage "ClimateControl" 1%positive) HOT 0
                   (fresh_with snapshot_climate_raw))) !! 1%positive =
  Some {[ "CabinTemp" := 32%Q; "FanSpeed" := 2%Q; "ACStatus" := 0%Q ]}.
Proof.
  pose proof (climate_snapshot_coerced_in_place all_normal "V1" 1%positive HOT 0
                (fresh_with snapshot_climate_raw) snapshot_climate_raw 0 (27 # 10)
                eq_refl eq_refl eq_refl) as H.
  cbv zeta in H. destruct H as (H & _).
  etransitivity; [exact H | reflexivity].
Defined.

(** With all three forests loaded from disk and a forest that calls the
    row an anomaly, the record sent to the sink shows fan speed 2 where 2.7
    was received. *)
Example anomaly_record_has_coerced_fan_speed :
  let r := update_vehicle_state all_anomalous "V1"
             (mkMessage "ClimateControl" 1%positive) HOT 0
             (new_detector disk_with_fitted_models ∅
                {[ 1%positive := snapshot_climate_raw ]}) in
  omap (fun e => match e with
                 | Sink a => Some (anomaly_type a, a_signals a !! "FanSpeed")
                 | Print _ => None
                 end) (r_out r) = [("isolation_forest", Some 2)].
Proof. vm_compute. reflexivity. Qed.


(** C10, as the specification words it, fails.  On a climate-control
    snapshot without [ACStatus] the integer coercion at the head of the
    outlier check raises [KeyError] before the append: the check, and the
    handler that calls it, end in the error and the buffer of the type is
    as it was. *)
Lemma append_is_not_unconditional :
  ~ appends_on_every_call all_normal "ClimateControl" 1%positive "V1"
      (fresh_with snapshot_climate_no_ac) /\
  r_val (_check_isolation_forest_anomalies all_normal "ClimateControl" 1%positive "V1"
           (fresh_with snapshot_climate_no_ac)) = inl (KeyError "ACStatus") /\
  r_val (update_vehicle_state all_normal "V1" (mkMessage "ClimateControl" 1%positive)
           HOT 0 (fresh_with snapshot_climate_no_ac)) = inl (KeyError "ACStatus") /\
  collected_data
    (r_state (update_vehicle_state all_normal "V1"
                (mkMessage "ClimateControl" 1%positive) HOT 0
                (fresh_with snapshot_climate_no_ac))) !! "ClimateControl" = None.
Proof.
  split; [| split; [| split]].
  - intros [row Hrow]. vm_compute in Hrow. discriminate.
  - vm_compute. reflexivity.
  - vm_compute. reflexivity.
  - vm_compute. reflexivity.
Qed.



(** ** Training and reloading *)

(** Once trained, the manager stays trained: [_train_models_if_needed]
    returns at once, and no call of the handler resets the flag.  The
    transition to trained therefore happens at most once. *)
Lemma train_when_trained (d : AnomalyDetector) :
  is_model_trained d = true -> _train_models_if_needed d = mkRes d [] (inr tt).
Proof.
  intros H. unfold _train_models_if_needed. run_step. by rewrite H.
Qed.

Lemma trained_is_final (df : IsolationForest -> list Q -> Z) (vid : string)
    (msg : Message) (geo : Geography) (now : Q) :
  triple (fun d => is_model_trained d = true) (fun _ => True)
    (update_vehicle_state df vid msg geo now) (fun _ => True).
Proof.
  assert (Htrain : triple (fun d => is_model_trained d = true) (fun _ => True)
                     _train_models_if_needed (fun _ => True)).
  { intros d Hd. by rewrite (train_when_trained d Hd). }
  unfold update_vehicle_state, _check_isolation_forest_anomalies; cbv zeta.
  repeat (triple_step || unfold predict || unfold setitem); try done.
  - by apply save_anomaly_triple.
  - unfold explain_anomaly. repeat triple_step; done.
  - by apply temporal_triple.
  - by apply geography_triple.
  - by apply absolute_triple.
Qed.

(** C2, where the code departs from it.  After a fresh start, 500 engine
    messages and no message of the two other types: the 499th leaves the
    manager collecting, the 500th makes it trained, although the vehicle
    and climate buffers do not exist; their forests stay unfitted and are
    saved unfitted, and the first vehicle message after that ends in
    [NotFittedError]. *)
Theorem trains_when_seen_types_are_full :
  let d499 := run_messages all_normal (engine_messages 499) engine_and_vehicle in
  let d500 := run_messages all_normal (engine_messages 500) engine_and_vehicle in
  is_model_trained d499 = false /\
  is_model_trained d500 = true /\
  length <$> collected_data d500 !! "EngineData" = Some 500%nat /\
  collected_data d500 !! "VehicleData" = None /\
  collected_data d500 !! "ClimateControl" = None /\
  fitted_on <$> isolation_forests d500 !! "VehicleData" = Some None /\
  fitted_on <$> isolation_forests d500 !! "ClimateControl" = Some None /\
  disk d500 !! "trained_models/vehicle_model.joblib" =
    Some (Pickled (mkIsolationForest (5 # 100) 42 100 None)) /\
  r_val (update_vehicle_state all_normal "V1" (mkMessage "VehicleData" 2%positive)
           URBAN 0 d500) = inl NotFittedError.
Proof. vm_compute. repeat split. Qed.

(** C3, where the code departs from it.  All three model files exist and
    the engine one does not load: start-up returns and the engine forest is
    a fresh unfitted one, yet the manager starts as trained; the first
    engine message calls [predict] on the unfitted forest and ends in
    [NotFittedError], and the manager stays trained with the forest
    unfitted, so no training will follow. *)
Theorem corrupt_model_is_served_untrained :
  let d := restarted_on_corrupt_model in
  let r := update_vehicle_state all_normal "V1" (mkMessage "EngineData" 1%positive)
             URBAN 0 d in
  r_val (__init__ (world disk_with_corrupt_engine_model ∅
                     {[ 1%positive := snapshot_engine ]})) = inr tt /\
  fitted_on <$> isolation_forests d !! "EngineData" = Some None /\
  is_model_trained d = true /\
  r_val r = inl NotFittedError /\
  is_model_trained (r_state r) = true /\
  fitted_on <$> isolation_forests (r_state r) !! "EngineData" = Some None.
Proof. vm_compute. repeat split. Qed.

(** * Further properties of the code *)

(** ** The temporal and the absolute rules *)

(** Unfolds a rule evaluator down to its tests, which stay folded. *)
Ltac unfold_rules :=
  unfold _check_temporal_anomalies, _check_geography_based_anomalies,
    _check_signal_based_anomalies, _save_anomaly_to_influxdb,
    bind, load, gets, getitem, get, when, emit, ret, raise;
  cbn -[deref Qgtb Qltb Qabs Qminus Qeq_bool Qle_bool py_int _get_expected_gear
        Z.abs Z.gtb Z.leb Z.geb Z.sub].


Ltac rules_cbn :=
  cbn -[deref Qgtb Qltb Qabs Qminus Qeq_bool Qle_bool py_int _get_expected_gear
        Z.abs Z.gtb Z.leb Z.geb Z.sub].

(** Runs an unfolded rule evaluator: rewrites the lookups that are known and
    splits on the tests. *)
Ltac run_rules :=
  repeat (rules_cbn;
    match goal with
    | H : ?m !! ?k = Some _ |- context [?m !! ?k] => rewrite H
    | H : ?m !! ?k = None |- context [?m !! ?k] => rewrite H
    | |- context [if ?b then _ else _] => destruct b eqn:?
    end).

(** Turns the boolean tests among the hypotheses into order facts. *)
Ltac tests_to_facts :=
  repeat match goal with
  | H : Qgtb _ _ = true |- _ => apply Qgtb_true in H
  | H : Qgtb _ _ = false |- _ => apply Qgtb_false in H
  | H : Qltb _ _ = true |- _ => apply Qltb_true in H
  | H : Qltb _ _ = false |- _ => apply Qltb_false in H
  | H : Qle_bool _ _ = true |- _ => apply Qle_bool_iff in H
  | H : Qle_bool _ _ = false |- _ => apply Qle_bool_false in H
  | H : Qeq_bool _ _ = true |- _ => apply Qeq_bool_iff in H
  | H : Qeq_bool _ _ = false |- _ => apply Qeq_bool_false in H
  | H : (_ >? _)%Z = true |- _ => apply Z.gtb_lt in H
  | H : (_ >? _)%Z = false |- _ => rewrite Z.gtb_ltb, Z.ltb_ge in H
  | H : (_ <=? _)%Z = true |- _ => apply Z.leb_le in H
  | H : (_ <=? _)%Z = false |- _ => apply Z.leb_gt in H
  | H : (_ >=? _)%Z = true |- _ => rewrite Z.geb_leb, Z.leb_le in H
  | H : (_ >=? _)%Z = false |- _ => rewrite Z.geb_leb, Z.leb_gt in H
  | H : (_ && _) = true |- _ => apply andb_true_iff in H as [? ?]
  | H : (_ && _) = false |- _ => apply andb_false_iff in H
  end.





Lemma Qabs_diag (a : Q) : Qabs (a - a) == 0.
Proof.
  assert (H : a - a == 0) by ring. rewrite H. reflexivity.
Qed.

Lemma Qgtb_diag (a c : Q) : 0 <= c -> Qgtb (Qabs (a - a)) c = false.
Proof. intros Hc. apply Qgtb_false. by rewrite Qabs_diag. Qed.

Lemma Qgtb_minus_diag (a c : Q) : 0 <= c -> Qgtb (a - a) c = false.
Proof.
  intros Hc. apply Qgtb_false. assert (H : a - a == 0) by ring. by rewrite H.
Qed.

(** X3. A snapshot compared with a previous one of equal content (the same
    message delivered again, or the same object) is never a temporal
    anomaly: whatever the message type and whichever signals are present,
    the output is the header alone. *)
Theorem temporal_repeated_snapshot_is_quiet (d : AnomalyDetector) (st : VehicleState)
    (m : string) (l last : loc) :
  last_values st !! m = Some last ->
  deref d last = deref d l ->
  r_out (_check_temporal_anomalies st m l d) = [Print (TemporalAnalysis (vehicle_id st))].
Proof.
  intros Hlast Heq. unfold_rules. rewrite Hlast. rules_cbn. rewrite Heq.
  repeat match goal with
  | |- context [String.eqb m ?x] => destruct (String.eqb m x)
  end; rules_cbn; try done.
  all: repeat (rules_cbn;
    match goal with
    | |- context [?s !! ?k] =>
        let E := fresh "E" in destruct (s !! k) eqn:E
    | |- context [Qgtb (Qabs (?a - ?a)) ?c] =>
        rewrite (Qgtb_diag a c) by done
    | |- context [Qgtb (?a - ?a) ?c] =>
        rewrite (Qgtb_minus_diag a c) by done
    end); done.
Qed.

Lemma temporal_repeated_snapshot_is_quiet_witness :
  r_out (_check_temporal_anomalies vehicle_seen_engine "EngineData" 1%positive
           engine_and_vehicle) = [Print (TemporalAnalysis "V1")].
Proof.
  apply (temporal_repeated_snapshot_is_quiet engine_and_vehicle vehicle_seen_engine
           "EngineData" 1%positive 1%positive); reflexivity.
Defined.

(** X4. The temporal rules index the snapshot directly.  When the first
    signal they compare ([Speed] on vehicle data, [EngineTemp] on engine
    data, [CabinTemp] on climate control) is missing from the new
    snapshot, the evaluation ends in [KeyError] on that signal, after the
    header and before any comparison; the detector is unchanged. *)
Theorem temporal_missing_signal_raises (d : AnomalyDetector) (st : VehicleState)
    (m k : string) (l last : loc) :
  In (m, k) [("VehicleData", "Speed"); ("EngineData", "EngineTemp");
             ("ClimateControl", "CabinTemp")] ->
  last_values st !! m = Some last ->
  deref d l !! k = None ->
  let r := _check_temporal_anomalies st m l d in
  r_val r = inl (KeyError k) /\ r_state r = d /\
  r_out r = [Print (TemporalAnalysis (vehicle_id st))].
Proof.
  intros Hin Hlast Hk. cbn in Hin.
  destruct Hin as [[= <- <-] | [[= <- <-] | [[= <- <-] | []]]];
    unfold_rules; run_rules; done.
Qed.

Lemma temporal_missing_signal_raises_witness :
  r_val (_check_temporal_anomalies (vehicle_seen RAINY) "VehicleData" 1%positive
           (fresh_with snapshot_gear_only)) = inl (KeyError "Speed").
Proof.
  apply (temporal_missing_signal_raises (fresh_with snapshot_gear_only)
           (vehicle_seen RAINY) "VehicleData" "Speed" 1%positive 2%positive);
    [left; reflexivity | reflexivity | reflexivity].
Defined.

(** X5. The absolute rules, on any message, and the temporal rules on
    climate control report on the console only: they never write a record
    to the anomaly sink. *)
Theorem console_only_rules (d : AnomalyDetector) (st : VehicleState)
    (m : string) (l : loc) :
  Forall is_print (r_out (_check_signal_based_anomalies l m d)) /\
  Forall is_print (r_out (_check_temporal_anomalies st "ClimateControl" l d)).
Proof.
  split.
  - by destruct (absolute_triple (fun _ => True) is_print l (fun _ => I) m d I)
      as (_ & H & _).
  - unfold_rules.
    repeat (rules_cbn; match goal with
      | |- context [?s !! ?k] => destruct (s !! k)
      | |- context [if ?b then _ else _] => destruct b
      end); repeat constructor.
Qed.

(** Settles [In e out <-> P] for an explicit list [out], the facts on the
    tests being among the hypotheses. *)
Ltac arith := first [ lra | lia | (split; lra) | (split; [lra | lia]) ].

Ltac in_iff :=
  split;
  [ let Hin := fresh "Hin" in
    intros Hin; cbn in Hin;
    repeat (destruct Hin as [Hin | Hin]; [try discriminate Hin |]);
    try contradiction; try arith; try tauto
  | let HP := fresh "HP" in
    intros HP; first [ exfalso; (lra || lia || tauto) | cbn; auto 10 ] ].

(** X6. The absolute rules on engine data.  The critical engine
    temperature is printed exactly when [EngineTemp] is above 120; the
    critical battery level exactly when [BatteryLevel] is below 20, and the
    low battery level exactly when it is at least 20 and below 30, so the
    two battery reports exclude each other.  A missing signal reads as 0:
    a snapshot without [BatteryLevel] is a critical battery. *)
Theorem engine_data_thresholds (d : AnomalyDetector) (l : loc) :
  let s := deref d l in
  let out := r_out (_check_signal_based_anomalies l "EngineData" d) in
  (In (Print CriticalEngineTemp) out <-> 120 < get s "EngineTemp" 0) /\
  (In (Print CriticalBattery) out <-> get s "BatteryLevel" 0 < 20) /\
  (In (Print LowBattery) out <->
     20 <= get s "BatteryLevel" 0 /\ get s "BatteryLevel" 0 < 30).
Proof.
  intros s out. subst out. unfold_rules. fold s.
  destruct (s !! "EngineTemp") as [t|] eqn:Et;
    destruct (s !! "BatteryLevel") as [b|] eqn:Eb;
    run_rules; tests_to_facts; cbn [default];
    (split; [| split]); in_iff.
Qed.

(** X7. The absolute rules on climate control.  A low cabin temperature is
    printed exactly when [CabinTemp] (20 when missing) is below 10, a high
    one exactly when it is above 30; the advice to turn the heating,
    respectively the cooling, on is printed exactly when in addition
    [ACStatus] (0 when missing) equals 0. *)
Theorem climate_control_thresholds (d : AnomalyDetector) (l : loc) :
  let s := deref d l in
  let out := r_out (_check_signal_based_anomalies l "ClimateControl" d) in
  (In (Print LowCabinTemp) out <-> get s "CabinTemp" 20 < 10) /\
  (In (Print HighCabinTemp) out <-> 30 < get s "CabinTemp" 20) /\
  (In (Print TurnOnHeating) out <->
     get s "CabinTemp" 20 < 10 /\ get s "ACStatus" 0 == 0) /\
  (In (Print TurnOnCooling) out <->
     30 < get s "CabinTemp" 20 /\ get s "ACStatus" 0 == 0).
Proof.
  intros s out. subst out. unfold_rules. fold s.
  destruct (s !! "CabinTemp") as [t|] eqn:Et;
    destruct (s !! "ACStatus") as [b|] eqn:Eb;
    run_rules; tests_to_facts; cbn [default] in *;
    (split; [| split; [| split]]); in_iff.
Qed.

Lemma expected_gear_fast (speed : Q) :
  100 < speed -> (5 <= _get_expected_gear speed)%Z.
Proof.
  intros H. unfold _get_expected_gear. compare_cases; try lia; exfalso; lra.
Qed.

Lemma expected_gear_slow (speed : Q) :
  speed < 20 -> _get_expected_gear speed = 1%Z.
Proof.
  intros H. unfold _get_expected_gear. compare_cases; try reflexivity; exfalso; lra.
Qed.

(** X8. The absolute rules on vehicle data.  The gear-speed mismatch is
    printed exactly when the speed is above 0 and the gear differs from the
    expected gear by more than 1; and whenever a critical gear mismatch is
    printed, the gear-speed mismatch is printed with it. *)
Theorem gear_mismatch_iff (d : AnomalyDetector) (l : loc) :
  let s := deref d l in
  let speed := get s "Speed" 0 in
  let gear := py_int (get s "GearPosition" 1) in
  let out := r_out (_check_signal_based_anomalies l "VehicleData" d) in
  (In (Print GearSpeedMismatch) out <->
     0 < speed /\ (1 < Z.abs (_get_expected_gear speed - gear))%Z) /\
  (existsb is_critical_gear out = true -> In (Print GearSpeedMismatch) out).
Proof.
  intros s speed gear out. subst out. unfold_rules. fold s.
  change (default 0 (s !! "Speed")) with speed.
  change (py_int (default 1 (s !! "GearPosition"))) with gear.
  destruct (Qgtb speed 0) eqn:Hmoving; rules_cbn.
  2: { tests_to_facts. split; [in_iff | done]. }
  destruct (Z.abs (_get_expected_gear speed - gear) >? 1)%Z eqn:Hmis; rules_cbn.
  - destruct (Qgtb speed 100 && (gear <=? 2)%Z);
      [| destruct (Qltb speed 20 && (gear >=? 3)%Z)];
      tests_to_facts; cbn; (split; [in_iff | auto]).
  - destruct (Qgtb speed 100 && (gear <=? 2)%Z) eqn:Hlow;
      [| destruct (Qltb speed 20 && (gear >=? 3)%Z) eqn:Hhigh];
      tests_to_facts; cbn.
    + exfalso. pose proof (expected_gear_fast speed ltac:(done)). lia.
    + exfalso. pose proof (expected_gear_slow speed ltac:(done)). lia.
    + split; [in_iff | done].
Qed.

(** ** The geography-context rules *)

(** Picks the [n]-th element of a list in a goal [In x xs]. *)
Ltac nth_in n :=
  lazymatch n with
  | O => left; reflexivity
  | S ?k => right; nth_in k
  end.

Ltac table_row n :=
  solve [ eexists _, _, _; split; [reflexivity |];
          split; [cbn; nth_in n |];
          cbn; repeat split; (eassumption || reflexivity) ].

Ltac some_table_row :=
  first [ table_row 0%nat | table_row 1%nat | table_row 2%nat | table_row 3%nat
        | table_row 4%nat | table_row 5%nat | table_row 6%nat | table_row 7%nat
        | table_row 8%nat | table_row 9%nat | table_row 10%nat ].

(** X9. The table of geography-context rules is complete.  Every event of
    [_check_geography_based_anomalies] is a record of a row of the table,
    for the geography of the vehicle and the type of the message, whose
    signal is present in the snapshot and crosses the threshold of the row:
    no record is written on the strength of a default value.  The record
    carries the vehicle, the message type, the geography and the snapshot.
    At most two records are written and the detector is unchanged. *)
Theorem geography_reports_only_table_rows (d : AnomalyDetector) (state : VehicleState)
    (m : string) (l : loc) :
  let s := deref d l in
  let r := _check_geography_based_anomalies state m l d in
  r_state r = d /\
  (length (r_out r) <= 2)%nat /\
  forall e, In e (r_out r) ->
    exists a rule v,
      e = Sink a /\ In rule geography_table /\
      rule_geography rule = geography state /\ rule_message rule = m /\
      rule_anomaly_type rule = anomaly_type a /\
      s !! rule_signal rule = Some v /\
      crosses (rule_trigger rule) (rule_threshold rule) v = true /\
      a_vehicle_id a = vehicle_id state /\ message_type a = m /\
      a_geography a = geography state /\ a_signals a = s /\
      severity a = "warning".
Proof.
  intros s r. subst r. destruct state as [vid upd lasts geo].
  unfold_rules. fold s.
  destruct (String.eqb_spec m "VehicleData") as [->|];
    [| destruct (String.eqb_spec m "EngineData") as [->|];
       [| destruct (String.eqb_spec m "ClimateControl") as [->|]]].
  all: destruct geo; rules_cbn.
  all: repeat match goal with
       | |- context [?s0 !! ?k] => let E := fresh "E" in destruct (s0 !! k) eqn:E; rules_cbn
       end.
  all: repeat match goal with
       | |- context [if ?b then _ else _] => let E := fresh "T" in destruct b eqn:E; rules_cbn
       end.
  all: (split; [reflexivity |]); (split; [cbn; lia |]).
  all: try match goal with
       | H : Qeq_bool 1 0 = true |- _ => discriminate H
       | H : Qgtb 0 _ = true |- _ => discriminate H
       | H : Qgtb 20 _ = true |- _ => discriminate H
       | H : Qltb 20 _ = true |- _ => discriminate H
       end.
  all: intros e Hin; cbn in Hin;
       repeat (destruct Hin as [<- | Hin]); try contradiction.
  all: some_table_row.
Qed.

(** X10. The geography-context rules raise in one case only: on the
    highway, on a vehicle-data snapshot without [Speed] (the missing speed
    reads as 0, which is below 60, and the message of the record then
    indexes the snapshot).  The exception is [KeyError] on [Speed] and no
    record is written. *)
Theorem geography_raises_only_on_highway (d : AnomalyDetector) (state : VehicleState)
    (m : string) (l : loc) (e : exn) :
  let r := _check_geography_based_anomalies state m l d in
  (r_val r = inl e <->
     geography state = HIGHWAY /\ m = "VehicleData" /\
     deref d l !! "Speed" = None /\ e = KeyError "Speed") /\
  (r_val r = inl e -> r_out r = []).
Proof.
  intros r. subst r. destruct state as [vid upd lasts geo].
  unfold_rules. set (s := deref d l).
  destruct (String.eqb_spec m "VehicleData") as [->|];
    [| destruct (String.eqb_spec m "EngineData") as [->|];
       [| destruct (String.eqb_spec m "ClimateControl") as [->|]]].
  all: destruct geo; rules_cbn.
  all: repeat match goal with
       | |- context [?s0 !! ?k] => let E := fresh "E" in destruct (s0 !! k) eqn:E; rules_cbn
       end.
  all: repeat match goal with
       | |- context [if ?b then _ else _] => let E := fresh "T" in destruct b eqn:E; rules_cbn
       end.
  all: try match goal with
       | H : Qltb 0 60 = false |- _ => discriminate H
       end.
  all: split; [split |]; try discriminate; try (intros (? & ? & ? & ?); congruence).
  all: try (intros [= <-]; done).
  all: try done.
Qed.

(** ** The vehicle table *)

(** The three evaluators in a row leave the detector alone when one of
    them raises, and apply the final update when all return. *)
Lemma rules_state (d : AnomalyDetector) (l : loc) (st : VehicleState) (m : string)
    (F : AnomalyDetector -> AnomalyDetector) :
  let T := (let* _ := _check_temporal_anomalies st m l in
            let* _ := _check_geography_based_anomalies st m l in
            let* _ := _check_signal_based_anomalies l m in
            modify F) d in
  r_state T = match r_val T with inr _ => F d | inl _ => d end.
Proof.
  destruct (temporal_facts d l st m) as (Ht & _).
  destruct (geography_facts d l st m) as (Hg & _).
  destruct (absolute_facts d l m) as (Ha & _).
  destruct (_check_temporal_anomalies st m l d) as [dt outt [et|[]]] eqn:Rt;
    cbn in Ht; subst dt.
  { erewrite bind_stop by exact Rt. done. }
  erewrite bind_step by exact Rt.
  destruct (_check_geography_based_anomalies st m l d) as [dg outg [eg|[]]] eqn:Rg;
    cbn in Hg; subst dg.
  { erewrite bind_stop by exact Rg. done. }
  erewrite bind_step by exact Rg.
  destruct (_check_signal_based_anomalies l m d) as [da outa [ea|[]]] eqn:Ra;
    cbn in Ha; subst da.
  { erewrite bind_stop by exact Ra. done. }
  erewrite bind_step by exact Ra. done.
Qed.

(** The vehicle table the handler leaves behind, by the outcome of the
    outlier check and of the handler itself. *)
Lemma update_vehicle_states (df : IsolationForest -> list Q -> Z)
    (vid : string) (msg : Message) (geo : Geography) (now : Q)
    (d : AnomalyDetector) (st : VehicleState) :
  vehicle_states (registered vid geo now d) !! vid = Some st ->
  let m := msg_name msg in
  let l := msg_signals msg in
  let r := update_vehicle_state df vid msg geo now d in
  let r1 := _check_isolation_forest_anomalies df m l vid (registered vid geo now d) in
  vehicle_states (r_state r) =
    match r_val r1, r_val r with
    | inl _, _ => vehicle_states (registered vid geo now d)
    | inr _, inl _ =>
        <[vid := mkVehicleState (vehicle_id st) (last_update st) (last_values st) geo]>
          (vehicle_states (registered vid geo now d))
    | inr _, inr _ =>
        <[vid := mkVehicleState (vehicle_id st)
                   (match last_values st !! m with Some _ => now | None => last_update st end)
                   (<[m := l]> (last_values st)) geo]>
          (vehicle_states (registered vid geo now d))
    end /\
  (forall e, r_val r1 = inl e -> r_val r = inl e) /\
  (last_values st !! m = None -> r_val r = r_val r1).
Proof.
  intros Hst m l r r1. subst r.
  rewrite (update_run df vid msg geo now d st Hst). fold m l r1.
  destruct (iforest_frame df m l vid (registered vid geo now d) _
              (outside_refl _ _)) as ((Hvs & _) & _).
  fold r1 in Hvs.
  destruct (r_val r1) as [e|[]] eqn:Ev; cbn.
  { split; [done | split; [by intros ? [= <-] | done]]. }
  destruct (last_values st !! m) as [prev|] eqn:Hprev.
  - match goal with
    | |- context [modify ?F] =>
        pose proof (rules_state
          (set_vehicle_states
             (insert vid (mkVehicleState (vehicle_id st) (last_update st)
                            (last_values st) geo)) (r_state r1))
          l (mkVehicleState (vehicle_id st) (last_update st) (last_values st) geo)
          m F) as Hstate
    end.
    cbv zeta in Hstate.
    match type of Hstate with
    | r_state ?T = _ => destruct T as [dT outT [eT|[]]]
    end; cbn in Hstate |- *; subst dT; cbn; rewrite Hvs.
    + split; [done | split; [discriminate | discriminate]].
    + rewrite insert_insert_eq. split; [done | split; [discriminate | discriminate]].
  - cbn. rewrite Hvs, insert_insert_eq. split; [done | split; [discriminate | done]].
Qed.

Lemma registered_other (vid vid' : string) (geo : Geography) (now : Q)
    (d : AnomalyDetector) :
  vid' <> vid ->
  vehicle_states (registered vid geo now d) !! vid' = vehicle_states d !! vid'.
Proof.
  intros Hne. unfold registered. destruct (bool_decide _); [done |].
  cbn. by rewrite lookup_insert_ne.
Qed.

Lemma registered_known (vid : string) (geo : Geography) (now : Q)
    (d : AnomalyDetector) (st : VehicleState) :
  vehicle_states d !! vid = Some st -> registered vid geo now d = d.
Proof.
  intros Hst. unfold registered. rewrite bool_decide_eq_true_2; [done | by rewrite Hst].
Qed.

(** X11. After a call of the handler for a vehicle, whether it returns or
    raises, that vehicle has an entry in the vehicle table, and the entry
    of every other vehicle is what it was. *)
Theorem handler_touches_one_vehicle (df : IsolationForest -> list Q -> Z)
    (vid : string) (msg : Message) (geo : Geography) (now : Q) (d : AnomalyDetector) :
  let r := update_vehicle_state df vid msg geo now d in
  is_Some (vehicle_states (r_state r) !! vid) /\
  forall vid', vid' <> vid ->
    vehicle_states (r_state r) !! vid' = vehicle_states d !! vid'.
Proof.
  intros r. subst r.
  destruct (registered_state vid geo now d) as (st & Hst & _).
  destruct (update_vehicle_states df vid msg geo now d st Hst) as (Hvs & _).
  cbv zeta in Hvs. rewrite Hvs.
  destruct (r_val (_check_isolation_forest_anomalies _ _ _ _ _)) as [?|?];
    [| destruct (r_val (update_vehicle_state _ _ _ _ _ _)) as [?|?]].
  all: split; [| intros vid' Hne; rewrite ?lookup_insert_ne by done;
                 by apply registered_other].
  all: rewrite ?lookup_insert_eq; eauto.
Qed.

(** X12. The handler keeps the vehicle table well keyed: if every entry
    holds the state of the vehicle it is filed under, this is so after the
    call, whether it returns or raises. *)
Theorem vehicle_keys_match_ids (df : IsolationForest -> list Q -> Z)
    (vid : string) (msg : Message) (geo : Geography) (now : Q) (d : AnomalyDetector) :
  (forall k st, vehicle_states d !! k = Some st -> vehicle_id st = k) ->
  forall k st,
    vehicle_states (r_state (update_vehicle_state df vid msg geo now d)) !! k = Some st ->
    vehicle_id st = k.
Proof.
  intros Hinv.
  assert (Hreg : forall k st, vehicle_states (registered vid geo now d) !! k = Some st ->
                   vehicle_id st = k).
  { intros k st. unfold registered. destruct (bool_decide _); [apply Hinv |].
    cbn. destruct (decide (k = vid)) as [->|Hne].
    - rewrite lookup_insert_eq. by intros [= <-].
    - rewrite lookup_insert_ne by done. apply Hinv. }
  destruct (registered_state vid geo now d) as (st0 & Hst0 & _).
  destruct (update_vehicle_states df vid msg geo now d st0 Hst0) as (Hvs & _).
  cbv zeta in Hvs. rewrite Hvs. intros k st.
  pose proof (Hreg vid st0 Hst0) as Hid.
  destruct (r_val (_check_isolation_forest_anomalies _ _ _ _ _)) as [?|?];
    [apply Hreg | destruct (r_val (update_vehicle_state _ _ _ _ _ _)) as [?|?]].
  all: destruct (decide (k = vid)) as [->|Hne];
    [rewrite lookup_insert_eq; by intros [= <-]
    | rewrite lookup_insert_ne by done; apply Hreg].
Qed.

Lemma vehicle_keys_match_ids_witness :
  match vehicle_states after_first_message !! "V1" with
  | Some st => vehicle_id st = "V1"
  | None => True
  end.
Proof.
  destruct (vehicle_states after_first_message !! "V1") as [st|] eqn:E; [| exact I].
  apply (vehicle_keys_match_ids all_normal "V1" (mkMessage "VehicleData" 1%positive)
           RAINY 0 two_snapshots); [| exact E].
  intros k st0 H.
  change (vehicle_states two_snapshots) with (∅ : gmap string VehicleState) in H.
  rewrite lookup_empty in H. discriminate H.
Defined.

(** X13. For a vehicle that is already known, [last_update] is set to the
    current time exactly when a previous snapshot of the message type
    existed and the handler returned.  On the first message of a type, and
    whenever the handler raises, [last_update] keeps its old value. *)
Theorem last_update_only_after_rules (df : IsolationForest -> list Q -> Z)
    (vid : string) (msg : Message) (geo : Geography) (now : Q)
    (d : AnomalyDetector) (st : VehicleState) :
  vehicle_states d !! vid = Some st ->
  let r := update_vehicle_state df vid msg geo now d in
  exists st', vehicle_states (r_state r) !! vid = Some st' /\
    last_update st' =
      match r_val r, last_values st !! msg_name msg with
      | inr _, Some _ => now
      | _, _ => last_update st
      end.
Proof.
  intros Hst r. subst r.
  pose proof (registered_known vid geo now d st Hst) as Hreg.
  destruct (update_vehicle_states df vid msg geo now d st) as (Hvs & Hraise & _);
    [by rewrite Hreg |].
  cbv zeta in Hvs, Hraise. rewrite Hreg in Hvs, Hraise. rewrite Hvs.
  destruct (r_val (_check_isolation_forest_anomalies _ _ _ _ _)) as [e|?] eqn:Ev.
  { rewrite (Hraise e eq_refl). by exists st. }
  destruct (r_val (update_vehicle_state _ _ _ _ _ _)) as [?|?];
    rewrite lookup_insert_eq; eexists; (split; [done |]); cbn; [done |].
  by destruct (last_values st !! msg_name msg).
Qed.

Lemma last_update_only_after_rules_witness :
  exists st',
    vehicle_states
      (r_state (update_vehicle_state all_normal "V1"
                  (mkMessage "VehicleData" 2%positive) RAINY 5 after_first_message))
      !! "V1" = Some st' /\
    last_update st' = 5.
Proof.
  destruct (last_update_only_after_rules all_normal "V1"
              (mkMessage "VehicleData" 2%positive) RAINY 5 after_first_message
              (mkVehicleState "V1" 0 {[ "VehicleData" := 1%positive ]} RAINY) eq_refl)
    as (st' & H1 & H2).
  exists st'. split; [exact H1 |]. etransitivity; [exact H2 | reflexivity].
Defined.

(** X14. The geography of the message is stored in the vehicle state as
    soon as the outlier check returns, also when a rule evaluated after it
    raises.  When the outlier check itself raises, the vehicle table is
    left as it was after the registration of the vehicle. *)
Theorem geography_recorded_once_check_returns (df : IsolationForest -> list Q -> Z)
    (vid : string) (msg : Message) (geo : Geography) (now : Q) (d : AnomalyDetector) :
  let r := update_vehicle_state df vid msg geo now d in
  let r1 := _check_isolation_forest_anomalies df (msg_name msg) (msg_signals msg) vid
              (registered vid geo now d) in
  match r_val r1 with
  | inr _ => geography <$> vehicle_states (r_state r) !! vid = Some geo
  | inl _ => vehicle_states (r_state r) = vehicle_states (registered vid geo now d)
  end.
Proof.
  intros r r1. subst r r1.
  destruct (registered_state vid geo now d) as (st & Hst & _).
  destruct (update_vehicle_states df vid msg geo now d st Hst) as (Hvs & _).
  cbv zeta in Hvs. rewrite Hvs.
  destruct (r_val (_check_isolation_forest_anomalies _ _ _ _ _)) as [?|?]; [done |].
  destruct (r_val (update_vehicle_state _ _ _ _ _ _)) as [?|?];
    by rewrite lookup_insert_eq.
Qed.

(** X15. Which snapshots a vehicle has on record after a call of the
    handler.  When the handler returns, the snapshot of the message is on
    record for the type of the message and the other types keep theirs.
    When it raises, nothing is recorded: every type keeps the snapshot it
    had, so the next message is compared with the older one. *)
Theorem recorded_snapshots_after_handler (df : IsolationForest -> list Q -> Z)
    (vid : string) (msg : Message) (geo : Geography) (now : Q) (d : AnomalyDetector)
    (m' : string) :
  let r := update_vehicle_state df vid msg geo now d in
  previous_snapshot (r_state r) vid m' =
    match r_val r with
    | inr _ => if decide (m' = msg_name msg) then Some (msg_signals msg)
               else previous_snapshot d vid m'
    | inl _ => previous_snapshot d vid m'
    end.
Proof.
  intros r. subst r.
  destruct (registered_state vid geo now d) as (st & Hst & Hlast).
  destruct (update_vehicle_states df vid msg geo now d st Hst) as (Hvs & Hraise & _).
  cbv zeta in Hvs, Hraise. unfold previous_snapshot at 1. rewrite Hvs.
  destruct (r_val (_check_isolation_forest_anomalies _ _ _ _ _)) as [e|?] eqn:Ev.
  { rewrite (Hraise e eq_refl), Hst. cbn. apply Hlast. }
  destruct (r_val (update_vehicle_state _ _ _ _ _ _)) as [?|?];
    rewrite lookup_insert_eq; cbn; [apply Hlast |].
  destruct (decide (m' = msg_name msg)) as [->|Hne].
  - by rewrite lookup_insert_eq.
  - rewrite lookup_insert_ne by done. apply Hlast.
Qed.

(** The check on a message whose type has no projection. *)
Lemma check_unknown_type (df : IsolationForest -> list Q -> Z) (m : string) (l : loc)
    (vid : string) (d : AnomalyDetector) :
  m <> "EngineData" -> m <> "VehicleData" -> m <> "ClimateControl" ->
  _check_isolation_forest_anomalies df m l vid d = mkRes d [] (inr tt).
Proof.
  intros He Hv Hc. apply String.eqb_neq in He, Hv, Hc.
  unfold _check_isolation_forest_anomalies, _prepare_data_for_isolation_forest.
  rewrite He, Hv, Hc. reflexivity.
Qed.

(** X16. A message of a type other than the three known ones is accepted:
    the handler returns, no sample is buffered, models, files and heap are
    untouched, and the snapshot is put on record.  Nothing is reported
    apart from the header of the temporal rules when a previous snapshot of
    that type exists. *)
Theorem unknown_message_type_is_recorded_silently (df : IsolationForest -> list Q -> Z)
    (vid : string) (msg : Message) (geo : Geography) (now : Q) (d : AnomalyDetector) :
  msg_name msg <> "EngineData" -> msg_name msg <> "VehicleData" ->
  msg_name msg <> "ClimateControl" ->
  let r := update_vehicle_state df vid msg geo now d in
  r_val r = inr tt /\
  r_out r = match vehicle_states d !! vid with
            | Some st =>
                match last_values st !! msg_name msg with
                | Some _ => [Print (TemporalAnalysis (vehicle_id st))]
                | None => []
                end
            | None => []
            end /\
  previous_snapshot (r_state r) vid (msg_name msg) = Some (msg_signals msg) /\
  heap (r_state r) = heap d /\ collected_data (r_state r) = collected_data d /\
  isolation_forests (r_state r) = isolation_forests d /\
  is_model_trained (r_state r) = is_model_trained d /\ disk (r_state r) = disk d.
Proof.
  intros He Hv Hc r. subst r.
  destruct (registered_state vid geo now d) as (st & Hst & Hlast).
  rewrite (update_run df vid msg geo now d st Hst).
  rewrite (check_unknown_type df _ _ _ _ He Hv Hc). cbn [r_val r_out r_state].
  assert (Hreg : heap (registered vid geo now d) = heap d /\
                 collected_data (registered vid geo now d) = collected_data d /\
                 isolation_forests (registered vid geo now d) = isolation_forests d /\
                 is_model_trained (registered vid geo now d) = is_model_trained d /\
                 disk (registered vid geo now d) = disk d).
  { unfold registered. by destruct (bool_decide _). }
  assert (Hout : forall prev, last_values st !! msg_name msg = Some prev ->
            match vehicle_states d !! vid with
            | Some st0 =>
                match last_values st0 !! msg_name msg with
                | Some _ => [Print (TemporalAnalysis (vehicle_id st0))]
                | None => []
                end
            | None => []
            end = [Print (TemporalAnalysis (vehicle_id st))]).
  { intros prev Hprev. revert Hst. unfold registered.
    destruct (vehicle_states d !! vid) as [st0|] eqn:E0.
    - rewrite bool_decide_eq_true_2 by eauto. rewrite E0. intros [= ->].
      by rewrite Hprev.
    - rewrite bool_decide_eq_false_2 by (by intros [? ?]). cbn.
      rewrite lookup_insert_eq. intros [= <-]. by cbn in Hprev. }
  assert (Hnone : last_values st !! msg_name msg = None ->
            match vehicle_states d !! vid with
            | Some st0 =>
                match last_values st0 !! msg_name msg with
                | Some _ => [Print (TemporalAnalysis (vehicle_id st0))]
                | None => []
                end
            | None => []
            end = []).
  { rewrite Hlast. unfold previous_snapshot.
    destruct (vehicle_states d !! vid) as [st0|]; [cbn | done].
    by intros ->. }
  apply String.eqb_neq in He, Hv, Hc.
  destruct (last_values st !! msg_name msg) as [prev|] eqn:Hprev.
  - rewrite (Hout prev eq_refl).
    unfold _check_temporal_anomalies, _check_geography_based_anomalies,
      _check_signal_based_anomalies, getitem. cbn [last_values geography vehicle_id].
    rewrite Hprev, He, Hv, Hc.
    destruct Hreg as (? & ? & ? & ? & ?).
    destruct geo; cbn; unfold previous_snapshot; cbn;
      rewrite lookup_insert_eq; cbn; rewrite lookup_insert_eq; done.
  - rewrite (Hnone eq_refl). destruct Hreg as (? & ? & ? & ? & ?).
    cbn. unfold previous_snapshot. cbn.
    rewrite lookup_insert_eq. cbn. rewrite lookup_insert_eq. done.
Qed.

Lemma unknown_message_type_is_recorded_silently_witness :
  r_val (update_vehicle_state all_normal "V1" (mkMessage "BrakeData" 1%positive)
           RAINY 0 two_snapshots) = inr tt.
Proof.
  apply (unknown_message_type_is_recorded_silently all_normal "V1"
           (mkMessage "BrakeData" 1%positive) RAINY 0 two_snapshots);
    intros H; discriminate H.
Defined.

Lemma heap_frame_same_stores m l d0 d d' :
  heap_frame m l d0 d -> same_stores d d' -> heap_frame m l d0 d'.
Proof.
  intros (H1 & H2 & H3) (_ & Hh & _). unfold heap_frame, deref. by rewrite Hh.
Qed.

Lemma iforest_heap_frame (df : IsolationForest -> list Q -> Z)
    (m : string) (l : loc) (vid : string) (d0 : AnomalyDetector) :
  triple (heap_frame m l d0) (fun _ => True)
    (_check_isolation_forest_anomalies df m l vid) (fun _ => True).
Proof.
  unfold _check_isolation_forest_anomalies.
  assert (Hweak : forall (c : M unit),
            (forall d1 s, triple (same_stores d1) (outlier_event s) c (fun _ => True)) ->
            triple (heap_frame m l d0) (fun _ => True) c (fun _ => True)).
  { intros c Hc. apply triple_same_stores; [apply heap_frame_same_stores |].
    intros d1. eapply triple_events; [| apply (Hc d1 ∅)]. done. }
  assert (Hset : forall k v, (k = "ACStatus" \/ k = "FanSpeed") ->
            m = "ClimateControl" ->
            forall d, heap_frame m l d0 d ->
              heap_frame m l d0
                (set_heap (fun h => <[l := <[k := v]> (default ∅ (h !! l))]> h) d)).
  { intros k v Hk Hm d (H1 & H2 & H3). split; [done | split].
    - intros l' Hl'. cbn. rewrite lookup_insert_ne by done. by apply H2.
    - intros k' Ha Hf. unfold deref at 1. cbn. rewrite lookup_insert_eq. cbn.
      rewrite lookup_insert_ne by (destruct Hk; congruence). apply H3; done. }
  eapply triple_bind with (V := fun _ => True).
  - destruct (String.eqb_spec m "ClimateControl") as [Hm|Hm]; cbn [when].
    + repeat (triple_step || unfold setitem); try done; apply Hset; auto.
    + by apply triple_ret.
  - intros _ _.
    repeat (triple_step || unfold predict); try done.
    + apply Hweak. intros; apply train_stores.
    + apply triple_same_stores; [apply heap_frame_same_stores |].
      intros d1. eapply triple_events; [| apply save_anomaly_stores]. done.
    + apply Hweak. intros; apply explain_stores.
Qed.

(** X17. What the handler writes of the snapshot objects, whether it
    returns or raises.  On a message that is not climate control the heap
    is unchanged.  On any message, every object other than the snapshot of
    the message is unchanged, and so is every entry of that snapshot other
    than [ACStatus] and [FanSpeed]. *)
Theorem handler_writes_only_climate_snapshot (df : IsolationForest -> list Q -> Z)
    (vid : string) (msg : Message) (geo : Geography) (now : Q) (d : AnomalyDetector) :
  let r := update_vehicle_state df vid msg geo now d in
  (msg_name msg <> "ClimateControl" -> heap (r_state r) = heap d) /\
  (forall l', l' <> msg_signals msg -> heap (r_state r) !! l' = heap d !! l') /\
  (forall k, k <> "ACStatus" -> k <> "FanSpeed" ->
     deref (r_state r) (msg_signals msg) !! k = deref d (msg_signals msg) !! k).
Proof.
  intros r. subst r.
  destruct (update_effect df vid msg geo now d) as (Hheap & _).
  cbv zeta in Hheap.
  destruct (registered_heap vid geo now d) as (Hreg & _).
  destruct (iforest_heap_frame df (msg_name msg) (msg_signals msg) vid
              (registered vid geo now d) (registered vid geo now d))
    as ((H1 & H2 & H3) & _).
  { by repeat split. }
  unfold deref in *. rewrite Hheap. rewrite Hreg in H1, H2, H3. done.
Qed.

(** ** Start-up, saving and training *)

Lemma model_paths_cases (k path : string) :
  model_paths_dict !! k = Some path <-> In (k, path) model_paths.
Proof.
  unfold model_paths_dict, model_paths. cbn [list_to_map foldr In fst snd uncurry].
  rewrite !lookup_insert_Some, lookup_empty. split.
  - intros [[<- <-] | [? [[<- <-] | [? [[<- <-] | [? ?]]]]]]; auto; done.
  - intros [[= <- <-] | [[= <- <-] | [[= <- <-] | []]]]; auto 10.
Qed.

Lemma load_model_run (message_type model_path : string) (d : AnomalyDetector) :
  (let* file := gets (fun d => disk d !! model_path) in
   match file with
   | Some (Pickled model) =>
       modify (set_isolation_forests (insert message_type model))
   | Some Corrupt => _create_new_model message_type
   | None => _create_new_model message_type
   end) d =
  mkRes (set_isolation_forests
           (insert message_type (loaded_or_new (disk d !! model_path))) d)
    [] (inr tt).
Proof.
  unfold bind, gets. cbn. by destruct (disk d !! model_path) as [[|model]|].
Qed.

Lemma makedirs_run (d : AnomalyDetector) :
  makedirs models_dir d =
  mkRes d []
    (if models_dir_ready (disk d) (read_only d) then inr tt
     else if bool_decide (is_Some (disk d !! models_dir)) then inl FileExistsError
          else inl PermissionError).
Proof.
  unfold makedirs, models_dir_ready. run_step. run_step.
  destruct (existsb _ _); [done |].
  destruct (bool_decide (is_Some _)); [done |].
  by destruct (bool_decide (models_dir ∈ _)).
Qed.

(** A model file on the disk shows that the models directory is there. *)
Lemma model_file_makes_ready (files : gmap string artifact) (failing : gset string)
    (k path : string) :
  model_paths_dict !! k = Some path -> is_Some (files !! path) ->
  models_dir_ready files failing = true.
Proof.
  intros Hk [file Hfile]. unfold models_dir_ready.
  apply orb_true_iff. left. apply existsb_exists. exists (path, file). split.
  - by apply list_elem_of_In, elem_of_map_to_list.
  - apply model_paths_cases in Hk.
    destruct Hk as [[= <- <-] | [[= <- <-] | [[= <- <-] | []]]]; reflexivity.
Qed.

Lemma initialize_models_run (d : AnomalyDetector) :
  models_dir_ready (disk d) (read_only d) = true ->
  _initialize_models d =
  mkRes
    (set_isolation_forests (fun _ =>
       <["ClimateControl" := loaded_or_new (disk d !! "trained_models/climate_model.joblib")]>
         (<["VehicleData" := loaded_or_new (disk d !! "trained_models/vehicle_model.joblib")]>
            (<["EngineData" := loaded_or_new (disk d !! "trained_models/engine_model.joblib")]>
               ∅))) d)
    [] (inr tt).
Proof.
  intros Hready. unfold _initialize_models, model_paths.
  erewrite bind_step by (rewrite makedirs_run, Hready; reflexivity).
  rewrite prepend_nil. run_step. cbn [for_each].
  erewrite bind_step by apply load_model_run. rewrite prepend_nil.
  erewrite bind_step by apply load_model_run. rewrite prepend_nil.
  erewrite bind_step by apply load_model_run. rewrite prepend_nil.
  by destruct d.
Qed.

Lemma init_run (files : gmap string artifact) (failing : gset string)
    (objects : gmap loc (gmap string Q)) :
  models_dir_ready files failing = true ->
  __init__ (world files failing objects) =
  mkRes
    (mkAnomalyDetector ∅ 500
       (<["ClimateControl" := loaded_or_new (files !! "trained_models/climate_model.joblib")]>
          (<["VehicleData" := loaded_or_new (files !! "trained_models/vehicle_model.joblib")]>
             (<["EngineData" := loaded_or_new (files !! "trained_models/engine_model.joblib")]>
                ∅)))
       ∅
       {[ "EngineData" := 0%nat; "VehicleData" := 0%nat; "ClimateControl" := 0%nat ]}
       (bool_decide (is_Some (files !! "trained_models/engine_model.joblib")) &&
        (bool_decide (is_Some (files !! "trained_models/vehicle_model.joblib")) &&
         (bool_decide (is_Some (files !! "trained_models/climate_model.joblib")) && true)))
       files failing objects)
    [] (inr tt).
Proof.
  intros Hready. unfold __init__. run_step. run_step.
  erewrite bind_step by (by apply initialize_models_run).
  rewrite prepend_nil. reflexivity.
Qed.


Lemma new_detector_forests (files : gmap string artifact) (failing : gset string)
    (objects : gmap loc (gmap string Q)) (k : string) :
  models_dir_ready files failing = true ->
  isolation_forests (new_detector files failing objects) !! k =
    (fun path => loaded_or_new (files !! path)) <$> model_paths_dict !! k.
Proof.
  intros Hready.
  unfold new_detector. rewrite init_run by done. cbn [r_state isolation_forests].
  unfold model_paths_dict, model_paths.
  cbn [list_to_map foldr fst snd uncurry].
  destruct (decide (k = "ClimateControl")) as [->|];
    [by rewrite lookup_insert_eq, !lookup_insert_ne, lookup_insert_eq by done |].
  destruct (decide (k = "VehicleData")) as [->|];
    [by rewrite lookup_insert_ne, lookup_insert_eq,
          (lookup_insert_ne _ "EngineData"), lookup_insert_eq by done |].
  destruct (decide (k = "EngineData")) as [->|];
    [by rewrite !lookup_insert_ne, !lookup_insert_eq by done |].
  by rewrite !lookup_insert_ne, !lookup_empty by done.
Qed.

Lemma new_detector_trained (files : gmap string artifact) (failing : gset string)
    (objects : gmap loc (gmap string Q)) :
  models_dir_ready files failing = true ->
  is_model_trained (new_detector files failing objects) = true <->
  forall k path, model_paths_dict !! k = Some path -> is_Some (files !! path).
Proof.
  intros Hready.
  unfold new_detector. rewrite init_run by done. cbn [r_state is_model_trained].
  rewrite !andb_true_iff, !bool_decide_eq_true. split.
  - intros (He & Hv & Hc & _) k path Hk. apply model_paths_cases in Hk.
    destruct Hk as [[= <- <-] | [[= <- <-] | [[= <- <-] | []]]]; done.
  - intros H. repeat split; eapply H; by apply model_paths_cases; cbn; auto.
Qed.


Lemma model_paths_inj (k1 k2 path : string) :
  model_paths_dict !! k1 = Some path -> model_paths_dict !! k2 = Some path -> k1 = k2.
Proof.
  rewrite !model_paths_cases. cbn.
  intros [[= <- <-] | [[= <- <-] | [[= <- <-] | []]]]
         [[= <-] | [[= <-] | [[= <-] | []]]]; done.
Qed.

Lemma model_path_dec (path : string) :
  (exists k, model_paths_dict !! k = Some path) \/
  (forall k, model_paths_dict !! k <> Some path).
Proof.
  destruct (decide (path = "trained_models/engine_model.joblib")) as [->|He];
    [left; by exists "EngineData" |].
  destruct (decide (path = "trained_models/vehicle_model.joblib")) as [->|Hv];
    [left; by exists "VehicleData" |].
  destruct (decide (path = "trained_models/climate_model.joblib")) as [->|Hc];
    [left; by exists "ClimateControl" |].
  right. intros k Hk. apply model_paths_cases in Hk.
  destruct Hk as [[= <- <-] | [[= <- <-] | [[= <- <-] | []]]]; done.
Qed.

(** The loop of [_save_models] over any list of forests with distinct,
    known types. *)
Lemma save_loop (xs : list (string * IsolationForest)) (d : AnomalyDetector) :
  NoDup xs.*1 ->
  (forall k model, (k, model) ∈ xs -> is_Some (model_paths_dict !! k)) ->
  let r := for_each xs (fun '(message_type, model) =>
             let* model_path := getitem model_paths_dict message_type in
             let* fails := gets (fun d => bool_decide (model_path ∈ read_only d)) in
             if fails then emit (Print (ModelSaveFailed message_type))
             else
               let* _ := modify (set_disk (insert model_path (Pickled model))) in
               emit (Print (ModelSaved message_type))) d in
  r_val r = inr tt /\
  r_state r = set_disk (fun _ => disk (r_state r)) d /\
  (forall k path, model_paths_dict !! k = Some path ->
     disk (r_state r) !! path =
       match (list_to_map xs : gmap string IsolationForest) !! k with
       | Some model =>
           if bool_decide (path ∈ read_only d) then disk d !! path
           else Some (Pickled model)
       | None => disk d !! path
       end) /\
  (forall path, (forall k, model_paths_dict !! k <> Some path) ->
     disk (r_state r) !! path = disk d !! path) /\
  r_out r =
    (fun x => Print (if bool_decide (default "" (model_paths_dict !! x.1) ∈ read_only d)
                     then ModelSaveFailed x.1 else ModelSaved x.1)) <$> xs.
Proof.
  revert d. induction xs as [|[k model] xs IH]; intros d Hnd Hknown r; subst r.
  { cbn. repeat split; try done. by destruct d. }
  rewrite fmap_cons in Hnd. apply NoDup_cons in Hnd as [Hk Hnd]. cbn [fst] in Hk.
  destruct (Hknown k model) as [path Hpath]; [left |].
  cbn [for_each].
  set (d1 := if bool_decide (path ∈ read_only d) then d
             else set_disk (insert path (Pickled model)) d).
  set (o1 := Print (if bool_decide (path ∈ read_only d)
                    then ModelSaveFailed k else ModelSaved k)).
  erewrite bind_step with (d1 := d1) (out1 := [o1]) (a := tt).
  2: { unfold getitem. rewrite Hpath. run_step. run_step. subst d1 o1.
       destruct (bool_decide (path ∈ read_only d)); [done |]. by run_step. }
  assert (Hro : read_only d1 = read_only d).
  { subst d1. by destruct (bool_decide _). }
  destruct (IH d1 Hnd) as (Hval & Hstate & Hdisk & Hother & Hout).
  { intros k' model' Hin. apply (Hknown k' model'). by right. }
  match type of Hval with r_val ?T = _ => destruct T as [d2 out2 v2] end.
  cbn [r_val r_state r_out] in Hval, Hstate, Hdisk, Hother, Hout.
  cbn [prepend r_val r_state r_out app]. subst v2.
  rewrite list_to_map_cons, fmap_cons.
  split; [done |]. split; [| split; [| split]].
  - rewrite Hstate at 1. subst d1. destruct (bool_decide _); by destruct d.
  - intros k0 path0 Hpath0. rewrite (Hdisk k0 path0 Hpath0), Hro.
    destruct (decide (k0 = k)) as [->|Hne].
    + assert (path0 = path) as -> by congruence.
      rewrite lookup_insert_eq.
      rewrite (not_elem_of_list_to_map_1 xs k Hk).
      subst d1. destruct (bool_decide (path ∈ read_only d)); [done |].
      cbn. by rewrite lookup_insert_eq.
    + rewrite lookup_insert_ne by done.
      assert (Hd1 : disk d1 !! path0 = disk d !! path0).
      { subst d1. destruct (bool_decide (path ∈ read_only d)); [done |].
        cbn. rewrite lookup_insert_ne; [done |].
        intros <-. apply Hne. by eapply model_paths_inj. }
      by rewrite Hd1.
  - intros path0 Hno. rewrite (Hother path0 Hno).
    subst d1. destruct (bool_decide (path ∈ read_only d)); [done |].
    cbn. rewrite lookup_insert_ne; [done |]. intros <-. by apply (Hno k).
  - rewrite Hout, Hro. cbn [fst]. rewrite Hpath. done.
Qed.

Lemma save_models_run (d : AnomalyDetector) :
  (forall k, is_Some (isolation_forests d !! k) -> is_Some (model_paths_dict !! k)) ->
  let r := _save_models d in
  r_val r = inr tt /\
  r_state r = set_disk (fun _ => disk (r_state r)) d /\
  (forall k path, model_paths_dict !! k = Some path ->
     disk (r_state r) !! path =
       match isolation_forests d !! k with
       | Some model =>
           if bool_decide (path ∈ read_only d) then disk d !! path
           else Some (Pickled model)
       | None => disk d !! path
       end) /\
  (forall path, (forall k, model_paths_dict !! k <> Some path) ->
     disk (r_state r) !! path = disk d !! path) /\
  r_out r =
    (fun x => Print (if bool_decide (default "" (model_paths_dict !! x.1) ∈ read_only d)
                     then ModelSaveFailed x.1 else ModelSaved x.1))
      <$> map_to_list (isolation_forests d).
Proof.
  intros Hknown r. subst r. unfold _save_models. run_step.
  pose proof (save_loop (map_to_list (isolation_forests d)) d
                (NoDup_fst_map_to_list _)) as H.
  cbv zeta in H. rewrite list_to_map_to_list in H. apply H.
  intros k model Hin. apply elem_of_map_to_list in Hin. apply Hknown. by exists model.
Qed.

(** X19. [_save_models], when every forest is of a type that has a model
    path.  It returns.  A forest whose path can be written is stored
    there and reported as saved; a forest whose path cannot be written is
    reported as failed and the file keeps its old content, the other
    forests being saved all the same.  No other path is written, there is
    one report per forest, and the rest of the detector is untouched. *)
Theorem save_models_effect (d : AnomalyDetector) :
  (forall k, is_Some (isolation_forests d !! k) -> is_Some (model_paths_dict !! k)) ->
  let r := _save_models d in
  r_val r = inr tt /\
  (forall k model path,
     isolation_forests d !! k = Some model -> model_paths_dict !! k = Some path ->
     if bool_decide (path ∈ read_only d)
     then disk (r_state r) !! path = disk d !! path /\
          In (Print (ModelSaveFailed k)) (r_out r)
     else disk (r_state r) !! path = Some (Pickled model) /\
          In (Print (ModelSaved k)) (r_out r)) /\
  (forall path,
     (forall k, is_Some (isolation_forests d !! k) -> model_paths_dict !! k <> Some path) ->
     disk (r_state r) !! path = disk d !! path) /\
  length (r_out r) = size (isolation_forests d) /\
  isolation_forests (r_state r) = isolation_forests d /\
  is_model_trained (r_state r) = is_model_trained d /\
  collected_data (r_state r) = collected_data d /\
  vehicle_states (r_state r) = vehicle_states d /\ heap (r_state r) = heap d.
Proof.
  intros Hknown r.
  destruct (save_models_run d Hknown) as (Hval & Hstate & Hdisk & Hother & Hout).
  fold r in Hval, Hstate, Hdisk, Hother, Hout.
  split; [done |]. split; [| split; [| split]].
  - intros k model path Hk Hpath. pose proof (Hdisk k path Hpath) as Hd.
    rewrite Hk in Hd. rewrite Hout.
    assert (Hin : (k, model) ∈ map_to_list (isolation_forests d))
      by by apply elem_of_map_to_list.
    assert (Hev : In (Print (if bool_decide (path ∈ read_only d)
                             then ModelSaveFailed k else ModelSaved k))
                    ((fun x => Print (if bool_decide (default "" (model_paths_dict !! x.1)
                                                      ∈ read_only d)
                                      then ModelSaveFailed x.1 else ModelSaved x.1))
                       <$> map_to_list (isolation_forests d))).
    { apply list_elem_of_In, list_elem_of_fmap. exists (k, model).
      split; [| done]. cbn [fst]. by rewrite Hpath. }
    by destruct (bool_decide (path ∈ read_only d)).
  - intros path Hno.
    destruct (model_path_dec path) as [[k Hk]|Hnone].
    + rewrite (Hdisk k path Hk).
      destruct (isolation_forests d !! k) as [model|] eqn:Hf; [| done].
      exfalso. apply (Hno k); [by rewrite Hf | done].
    + by apply Hother.
  - by rewrite Hout, length_fmap, length_map_to_list.
  - rewrite Hstate. by destruct d.
Qed.

Lemma save_models_effect_witness :
  r_val (_save_models engine_and_vehicle) = inr tt.
Proof.
  assert (Hknown : forall k, is_Some (isolation_forests engine_and_vehicle !! k) ->
                             is_Some (model_paths_dict !! k)).
  { intros k. unfold engine_and_vehicle. rewrite new_detector_forests by reflexivity.
    apply fmap_is_Some. }
  exact (proj1 (save_models_effect engine_and_vehicle Hknown)).
Defined.

(** X20. Saving and restarting is a round trip.  When the detector holds
    forests for exactly the three known types and every model path can be
    written, a detector started on the files that [_save_models] leaves
    holds the same forests, and it starts as trained. *)
Theorem saved_models_are_loaded_on_restart (d : AnomalyDetector)
    (objects : gmap loc (gmap string Q)) :
  (forall k, is_Some (isolation_forests d !! k) <-> is_Some (model_paths_dict !! k)) ->
  (forall k path, model_paths_dict !! k = Some path -> path ∉ read_only d) ->
  let d' := r_state (_save_models d) in
  let restarted := new_detector (disk d') (read_only d') objects in
  isolation_forests restarted = isolation_forests d /\
  is_model_trained restarted = true.
Proof.
  intros Hdom Hro d' restarted.
  destruct (save_models_run d) as (_ & _ & Hdisk & _); [intros k; apply Hdom |].
  fold d' in Hdisk.
  assert (Hfile : forall k path, model_paths_dict !! k = Some path ->
            exists model, isolation_forests d !! k = Some model /\
                          disk d' !! path = Some (Pickled model)).
  { intros k path Hk. destruct (proj2 (Hdom k)) as [model Hmodel]; [by rewrite Hk |].
    exists model. split; [done |]. rewrite (Hdisk k path Hk), Hmodel.
    rewrite bool_decide_eq_false_2; [done | by eapply Hro]. }
  assert (Hready : models_dir_ready (disk d') (read_only d') = true).
  { destruct (Hfile "EngineData"%string _ eq_refl) as (model & _ & Hmodel).
    eapply (model_file_makes_ready _ _ "EngineData"); [reflexivity |].
    by rewrite Hmodel. }
  pose proof (fun k => new_detector_forests (disk d') (read_only d') objects k Hready)
    as Hforests.
  pose proof (new_detector_trained (disk d') (read_only d') objects Hready) as Htrained.
  fold restarted in Hforests, Htrained.
  split.
  - apply map_eq. intros k. rewrite Hforests.
    destruct (model_paths_dict !! k) as [path|] eqn:Hk; cbn.
    + destruct (Hfile k path Hk) as (model & -> & ->). done.
    + symmetry. apply eq_None_not_Some. intros H. apply Hdom in H.
      rewrite Hk in H. by destruct H.
  - apply Htrained. intros k path Hk.
    destruct (Hfile k path Hk) as (model & _ & ->). done.
Qed.

Lemma saved_models_are_loaded_on_restart_witness :
  is_model_trained
    (new_detector (disk (r_state (_save_models engine_and_vehicle)))
       (read_only (r_state (_save_models engine_and_vehicle))) ∅) = true.
Proof.
  assert (Hdom : forall k, is_Some (isolation_forests engine_and_vehicle !! k) <->
                           is_Some (model_paths_dict !! k)).
  { intros k. unfold engine_and_vehicle. rewrite new_detector_forests by reflexivity.
    apply fmap_is_Some. }
  assert (Hro : forall k path, model_paths_dict !! k = Some path ->
                               path ∉ read_only engine_and_vehicle).
  { intros k path _. change (read_only engine_and_vehicle) with (∅ : gset string).
    apply not_elem_of_empty. }
  exact (proj2 (saved_models_are_loaded_on_restart engine_and_vehicle ∅ Hdom Hro)).
Defined.


Lemma can_train_spec (d : AnomalyDetector) :
  forallb (fun '(_, data) => (min_samples_for_training d <=? length data)%nat)
    (map_to_list (collected_data d)) = true <->
  forall k data, collected_data d !! k = Some data ->
    (min_samples_for_training d <= length data)%nat.
Proof.
  rewrite forallb_forall. split.
  - intros H k data Hk. apply Nat.leb_le.
    apply (H (k, data)). by apply list_elem_of_In, elem_of_map_to_list.
  - intros H [k data] Hin. apply Nat.leb_le. apply (H k).
    by apply elem_of_map_to_list, list_elem_of_In.
Qed.

(** The progress loop of [_train_models_if_needed] over any list of
    buffers, when the minimum is not zero: it records the length of every
    buffer in turn. *)
Lemma progress_loop (xs : list (string * list (list Q))) (d : AnomalyDetector) :
  (0 < min_samples_for_training d)%nat ->
  for_each xs (fun '(message_name, data) =>
    let current_samples := length data in
    let* _ := modify (set_training_progress (insert message_name current_samples)) in
    let* minimum := gets min_samples_for_training in
    if (minimum =? 0)%nat then raise ZeroDivisionError else ret tt) d =
  mkRes (set_training_progress (fun progress =>
           foldl (fun acc '(message_name, data) => <[message_name := length data]> acc)
             progress xs) d) [] (inr tt).
Proof.
  revert d. induction xs as [|[k data] xs IH]; intros d Hmin.
  { cbn. by destruct d. }
  cbn [for_each]. cbv zeta.
  erewrite bind_step with (d1 := set_training_progress (insert k (length data)) d)
    (out1 := []) (a := tt).
  2: { run_step. run_step. cbn [min_samples_for_training set_training_progress].
       destruct (Nat.eqb_spec (min_samples_for_training d) 0); [lia | done]. }
  rewrite prepend_nil, IH by done. by destruct d.
Qed.

Lemma progress_lookup (xs : list (string * list (list Q)))
    (progress : gmap string nat) (k : string) :
  NoDup xs.*1 ->
  foldl (fun acc '(message_name, data) => <[message_name := length data]> acc)
    progress xs !! k =
  match (list_to_map xs : gmap string (list (list Q))) !! k with
  | Some data => Some (length data)
  | None => progress !! k
  end.
Proof.
  revert progress. induction xs as [|[k' data'] xs IH]; intros progress Hnd; [done |].
  rewrite fmap_cons in Hnd. apply NoDup_cons in Hnd as [Hk' Hnd]. cbn [fst] in Hk'.
  cbn [foldl]. rewrite IH, list_to_map_cons by done.
  destruct (decide (k = k')) as [->|Hne].
  - by rewrite (not_elem_of_list_to_map_1 xs k' Hk'), !lookup_insert_eq.
  - rewrite !lookup_insert_ne by done. done.
Qed.

(** X21. While the detector is untrained and the buffer of some type seen
    so far is short of the minimum, [_train_models_if_needed] returns and
    announces nothing (its progress line apart, which is left out of the
    events): no forest is fitted, no file is written, the detector stays
    untrained, and the progress table shows the length of every buffer. *)
Theorem training_waits_for_every_seen_buffer (d : AnomalyDetector) (k : string)
    (data : list (list Q)) :
  is_model_trained d = false ->
  collected_data d !! k = Some data ->
  (length data < min_samples_for_training d)%nat ->
  let r := _train_models_if_needed d in
  r_val r = inr tt /\ r_out r = [] /\
  is_model_trained (r_state r) = false /\
  isolation_forests (r_state r) = isolation_forests d /\
  disk (r_state r) = disk d /\
  collected_data (r_state r) = collected_data d /\
  forall k' data', collected_data d !! k' = Some data' ->
    training_progress (r_state r) !! k' = Some (length data').
Proof.
  intros Htrained Hk Hshort r. subst r.
  unfold _train_models_if_needed. run_step. rewrite Htrained. run_step.
  erewrite bind_step by (apply progress_loop; lia). rewrite prepend_nil. run_step.
  set (d1 := set_training_progress _ d).
  destruct (forallb _ _) eqn:Hcan.
  { pose proof (proj1 (can_train_spec d1) Hcan k data Hk) as Hle.
    subst d1. cbn in Hle. lia. }
  subst d1. cbn. repeat split; try done.
  intros k' data' Hk'.
  rewrite progress_lookup by apply NoDup_fst_map_to_list.
  by rewrite list_to_map_to_list, Hk'.
Qed.

Lemma training_waits_for_every_seen_buffer_witness :
  is_model_trained (r_state (_train_models_if_needed after_first_message)) = false.
Proof.
  assert (Hshort : (length [[30; 1; 400]] <
                    min_samples_for_training after_first_message)%nat).
  { change (1 < 500)%nat. lia. }
  exact (proj1 (proj2 (proj2
           (training_waits_for_every_seen_buffer after_first_message "VehicleData"
              [[30; 1; 400]] eq_refl eq_refl Hshort)))).
Defined.



Lemma explain_prints (m : string) (l : loc) :
  triple (fun _ => True) is_print (explain_anomaly m l) (fun _ => True).
Proof. unfold explain_anomaly. repeat triple_step; done. Qed.

(** The outlier check of a trained detector whose forest for the type is
    fitted, once the coercion went through. *)
Lemma trained_check_run (df : IsolationForest -> list Q -> Z)
    (m : string) (l : loc) (vid : string) (d : AnomalyDetector) (st : VehicleState)
    (model : IsolationForest) (s' : gmap string Q) (row : list Q) (rest : list (list Q)) :
  is_model_trained d = true ->
  coerced m (deref d l) = Some s' ->
  _prepare_data_for_isolation_forest m s' = row :: rest ->
  isolation_forests d !! m = Some model ->
  is_Some (fitted_on model) ->
  vehicle_states d !! vid = Some st ->
  exists d2,
    isolation_forests d2 = isolation_forests d /\ disk d2 = disk d /\
    is_model_trained d2 = true /\
    _check_isolation_forest_anomalies df m l vid d =
      if (df model row =? -1)%Z then
        prepend [Sink (mkAnomaly vid "isolation_forest" m s' (geography st) "warning" None);
                 Print ForestAnomaly]
          (explain_anomaly m l d2)
      else mkRes d2 [] (inr tt).
Proof.
  intros Htrained Hco Hprep Hmodel [fitted Hfitted] Hst.
  unfold _check_isolation_forest_anomalies.
  erewrite bind_step by (apply coercion_step; eassumption). rewrite prepend_nil.
  set (d1 := if String.eqb m "ClimateControl" then set_heap (insert l s') d else d).
  assert (Hd1 : deref d1 l = s').
  { subst d1. unfold coerced in Hco. destruct (String.eqb m "ClimateControl").
    - apply deref_insert.
    - by injection Hco. }
  assert (Hsame : isolation_forests d1 = isolation_forests d /\ disk d1 = disk d /\
                  is_model_trained d1 = true /\ vehicle_states d1 = vehicle_states d).
  { subst d1. by destruct (String.eqb m "ClimateControl"). }
  destruct Hsame as (Hf1 & Hdisk1 & Ht1 & Hvs1). clearbody d1.
  run_step. rewrite Hd1, Hprep. run_step.
  set (d2 := set_collected_data _ d1).
  exists d2. split; [exact Hf1 |]. split; [exact Hdisk1 |]. split; [exact Ht1 |].
  erewrite bind_step by (apply train_when_trained; subst d2; exact Ht1).
  rewrite prepend_nil. run_step.
  change (is_model_trained d2) with (is_model_trained d1). rewrite Ht1.
  run_step. change (isolation_forests d2) with (isolation_forests d1). rewrite Hf1.
  unfold getitem at 1. rewrite Hmodel. run_step.
  unfold predict. rewrite Hfitted. run_step.
  destruct (df model row =? -1)%Z; [| done].
  run_step. change (vehicle_states d2) with (vehicle_states d1). rewrite Hvs1.
  unfold getitem at 1. rewrite Hst. run_step.
  unfold _save_anomaly_to_influxdb.
  erewrite bind_step with (d1 := d2) (out1 := [Sink _]) (a := tt); [| by run_step].
  change (deref d2 l) with (deref d1 l). rewrite Hd1.
  erewrite bind_step by reflexivity.
  by destruct (explain_anomaly m l d2).
Qed.

Lemma explain_frame (m : string) (l : loc) (d : AnomalyDetector) :
  r_state (explain_anomaly m l d) = d.
Proof.
  assert (H : triple (eq d) (fun _ => True) (explain_anomaly m l) (fun _ => True)).
  { unfold explain_anomaly. repeat triple_step; done. }
  by destruct (H d eq_refl) as (<- & _).
Qed.

(** X23. The outlier check of a trained detector, for a known vehicle, on a
    message whose coercion goes through and whose forest is fitted.  The
    forests, the model files and the trained flag are left as they are.
    When the forest calls the row an anomaly, the check first sends one
    [isolation_forest] record, which carries the vehicle, the message type,
    the coerced snapshot and the geography stored for the vehicle, then
    prints the anomaly block, and what follows is printed only.  When the
    forest calls the row normal, the check returns without output. *)
Theorem trained_check_reports_by_prediction (df : IsolationForest -> list Q -> Z)
    (m : string) (l : loc) (vid : string) (d : AnomalyDetector) (st : VehicleState)
    (model : IsolationForest) (s' : gmap string Q) (row : list Q) (rest : list (list Q)) :
  is_model_trained d = true ->
  coerced m (deref d l) = Some s' ->
  _prepare_data_for_isolation_forest m s' = row :: rest ->
  isolation_forests d !! m = Some model ->
  is_Some (fitted_on model) ->
  vehicle_states d !! vid = Some st ->
  let r := _check_isolation_forest_anomalies df m l vid d in
  isolation_forests (r_state r) = isolation_forests d /\
  disk (r_state r) = disk d /\
  is_model_trained (r_state r) = true /\
  if (df model row =? -1)%Z then
    exists out,
      r_out r = Sink (mkAnomaly vid "isolation_forest" m s' (geography st) "warning" None)
                  :: Print ForestAnomaly :: out /\
      Forall is_print out
  else r_out r = [] /\ r_val r = inr tt.
Proof.
  intros Htrained Hco Hprep Hmodel Hfitted Hst r. subst r.
  destruct (trained_check_run df m l vid d st model s' row rest
              Htrained Hco Hprep Hmodel Hfitted Hst) as (d2 & Hf & Hdisk & Ht & ->).
  destruct (df model row =? -1)%Z; [| done].
  destruct (explain_prints m l d2 I) as (_ & Hout & _).
  pose proof (explain_frame m l d2) as Hstate.
  destruct (explain_anomaly m l d2) as [d3 out3 v3].
  cbn in Hout, Hstate |- *. subst d3. repeat split; try done. by exists out3.
Qed.

Lemma trained_check_reports_by_prediction_witness :
  is_model_trained
    (r_state (_check_isolation_forest_anomalies all_anomalous "EngineData" 1%positive
                "V1" trained_after_engine_message)) = true.
Proof.
  assert (Hfitted : is_Some (fitted_on fitted_forest)) by (eexists; reflexivity).
  exact (proj1 (proj2 (proj2
           (trained_check_reports_by_prediction all_anomalous "EngineData" 1%positive
              "V1" trained_after_engine_message vehicle_seen_engine fitted_forest
              snapshot_engine [3000; 90; 80] []
              eq_refl eq_refl eq_refl eq_refl Hfitted eq_refl)))).
Defined.

(** X24. The handler runs the outlier check before it stores the geography
    of the message.  For a known vehicle of a trained detector, when the
    forest calls the row an anomaly, the first event of the handler is the
    [isolation_forest] record, and the geography it carries is the one
    stored for the vehicle by the previous message, not the geography
    handed over with this message. *)
Theorem outlier_record_carries_previous_geography (df : IsolationForest -> list Q -> Z)
    (vid : string) (msg : Message) (geo : Geography) (now : Q) (d : AnomalyDetector)
    (st : VehicleState) (model : IsolationForest) (s' : gmap string Q)
    (row : list Q) (rest : list (list Q)) :
  is_model_trained d = true ->
  coerced (msg_name msg) (deref d (msg_signals msg)) = Some s' ->
  _prepare_data_for_isolation_forest (msg_name msg) s' = row :: rest ->
  isolation_forests d !! msg_name msg = Some model ->
  is_Some (fitted_on model) ->
  vehicle_states d !! vid = Some st ->
  df model row = (-1)%Z ->
  exists out,
    r_out (update_vehicle_state df vid msg geo now d) =
      Sink (mkAnomaly vid "isolation_forest" (msg_name msg) s' (geography st)
              "warning" None) :: out.
Proof.
  intros Htrained Hco Hprep Hmodel Hfitted Hst Hpred.
  destruct (update_effect df vid msg geo now d) as (_ & _ & (out & Hout & _) & _).
  cbv zeta in Hout. rewrite (registered_known vid geo now d st Hst) in Hout.
  destruct (trained_check_run df (msg_name msg) (msg_signals msg)
              vid d st model s' row rest Htrained Hco Hprep Hmodel Hfitted Hst)
    as (d2 & _ & _ & _ & Hcheck).
  rewrite Hpred in Hcheck. cbn [Z.eqb Pos.eqb] in Hcheck.
  rewrite Hout, Hcheck. destruct (explain_anomaly _ _ d2) as [d3 out3 v3].
  cbn. eauto.
Qed.

Lemma outlier_record_carries_previous_geography_witness :
  exists out,
    r_out (update_vehicle_state all_anomalous "V1" (mkMessage "EngineData" 1%positive)
             RAINY 1 trained_after_engine_message) =
      Sink (mkAnomaly "V1" "isolation_forest" "EngineData" snapshot_engine URBAN
              "warning" None) :: out.
Proof.
  assert (Hfitted : is_Some (fitted_on fitted_forest)) by (eexists; reflexivity).
  exact (outlier_record_carries_previous_geography all_anomalous "V1"
           (mkMessage "EngineData" 1%positive) RAINY 1 trained_after_engine_message
           vehicle_seen_engine fitted_forest snapshot_engine [3000; 90; 80] []
           eq_refl eq_refl eq_refl eq_refl Hfitted eq_refl eq_refl).
Defined.

(** X25. A trained detector never trains again.  Whatever the message, and
    whether the handler returns or raises, the detector stays trained and
    its forests, its model files and its progress table are unchanged. *)
Theorem trained_detector_never_retrains (df : IsolationForest -> list Q -> Z)
    (vid : string) (msg : Message) (geo : Geography) (now : Q) (d : AnomalyDetector) :
  is_model_trained d = true ->
  let r := update_vehicle_state df vid msg geo now d in
  is_model_trained (r_state r) = true /\
  isolation_forests (r_state r) = isolation_forests d /\
  disk (r_state r) = disk d /\
  training_progress (r_state r) = training_progress d.
Proof.
  intros Htrained r. subst r.
  set (Inv := fun d' : AnomalyDetector =>
         is_model_trained d' = true /\ isolation_forests d' = isolation_forests d /\
         disk d' = disk d /\ training_progress d' = training_progress d).
  assert (H : triple Inv (fun _ => True) (update_vehicle_state df vid msg geo now)
                (fun _ => True)).
  { assert (Htrain : triple Inv (fun _ => True) _train_models_if_needed (fun _ => True)).
    { intros d' Hd'. rewrite (train_when_trained d' (proj1 Hd')).
      split; [exact Hd' | split; [constructor | done]]. }
    unfold update_vehicle_state, _check_isolation_forest_anomalies; cbv zeta.
    repeat (triple_step || unfold predict || unfold setitem); try done.
    - by apply save_anomaly_triple.
    - unfold explain_anomaly. repeat triple_step; done.
    - by apply temporal_triple.
    - by apply geography_triple.
    - by apply absolute_triple. }
  destruct (H d) as (Hinv & _); [by repeat split | done].
Qed.

Lemma trained_detector_never_retrains_witness :
  is_model_trained
    (r_state (update_vehicle_state all_normal "V1" (mkMessage "EngineData" 1%positive)
                URBAN 0 trained_with_engine_and_vehicle)) = true.
Proof.
  exact (proj1 (trained_detector_never_retrains all_normal "V1"
                  (mkMessage "EngineData" 1%positive) URBAN 0
                  trained_with_engine_and_vehicle eq_refl)).
Defined.

(** ** The reasons of an outlier *)

Ltac explain_cbn :=
  cbn -[deref Qgtb Qltb Qabs Qminus Qeq_bool Qle_bool py_int].

(** X26. The reasons listed after an isolation-forest anomaly.  Listing
    them changes nothing and only prints.  It returns whenever the snapshot
    carries the three signals of its type, and the only exception it ever
    raises is [KeyError] on a signal of the type that is missing from the
    snapshot. *)
Theorem explanation_needs_the_signals (m : string) (l : loc) (d : AnomalyDetector) :
  let s := deref d l in
  let r := explain_anomaly m l d in
  r_state r = d /\ Forall is_print (r_out r) /\
  ((forall k, In k (expected_signals m) -> is_Some (s !! k)) -> r_val r = inr tt) /\
  (forall e, r_val r = inl e ->
     exists k, e = KeyError k /\ In k (expected_signals m) /\ s !! k = None).
Proof.
  intros s r. subst r.
  unfold explain_anomaly, expected_signals, bind, load, gets, getitem, andM, when,
    emit, ret, raise.
  explain_cbn. fold s.
  destruct (String.eqb_spec m "ClimateControl") as [->|];
    [| destruct (String.eqb_spec m "EngineData") as [->|];
       [| destruct (String.eqb_spec m "VehicleData") as [->|]]].
  all: explain_cbn.
  all: repeat (explain_cbn;
         match goal with
         | |- context [?s0 !! ?k] =>
             let E := fresh "E" in destruct (s0 !! k) eqn:E
         | |- context [if ?b then _ else _] => destruct b
         end).
  all: explain_cbn.
  all: split; [reflexivity |]; split; [repeat constructor |]; split.
  all: try (intros _; reflexivity).
  all: try (intros e0 He0; discriminate He0).
  all: try (intros Hall; exfalso;
            first [ destruct (Hall "CabinTemp") as [? Hx]; [cbn; auto 10 | congruence]
                  | destruct (Hall "ACStatus") as [? Hx]; [cbn; auto 10 | congruence]
                  | destruct (Hall "FanSpeed") as [? Hx]; [cbn; auto 10 | congruence]
                  | destruct (Hall "EngineTemp") as [? Hx]; [cbn; auto 10 | congruence]
                  | destruct (Hall "EngineSpeed") as [? Hx]; [cbn; auto 10 | congruence]
                  | destruct (Hall "BatteryLevel") as [? Hx]; [cbn; auto 10 | congruence]
                  | destruct (Hall "Speed") as [? Hx]; [cbn; auto 10 | congruence]
                  | destruct (Hall "GearPosition") as [? Hx]; [cbn; auto 10 | congruence]
                  | destruct (Hall "BatteryVoltage") as [? Hx]; [cbn; auto 10 | congruence] ]).
  all: intros e0 [= <-]; eexists; split; [reflexivity |]; split; [cbn; tauto | assumption].
Qed.

(** ** Publisher and detector *)

Lemma py_int_inject_Z (z : Z) : py_int (inject_Z z) = z.
Proof. unfold py_int, inject_Z. cbn. apply Z.quot_1_r. Qed.

(** X27. Publisher and detector agree on gears.  On a vehicle-data
    snapshot produced by [generate_vehicle_data], whatever the speed and
    the voltage drawn, the absolute rules of the detector return and print
    nothing: neither a gear-speed mismatch nor a critical gear mismatch. *)
Theorem generated_vehicle_data_passes_gear_rules (speed battery_voltage : Q)
    (d : AnomalyDetector) (l : loc) :
  deref d l = generate_vehicle_data speed battery_voltage ->
  _check_signal_based_anomalies l "VehicleData" d = mkRes d [] (inr tt).
Proof.
  intros Hs.
  assert (Hspeed : deref d l !! "Speed" = Some speed) by (by rewrite Hs).
  assert (Hgear : deref d l !! "GearPosition" =
                  Some (inject_Z (get_appropriate_gear speed))) by (by rewrite Hs).
  unfold _check_signal_based_anomalies. run_step.
  cbn [String.eqb Ascii.eqb Bool.eqb]. cbv zeta. unfold get. rewrite Hspeed, Hgear.
  cbn [default from_option id]. rewrite py_int_inject_Z.
  change (get_appropriate_gear speed) with (_get_expected_gear speed).
  destruct (Qgtb speed 0) eqn:Hmoving; [| done].
  rewrite Z.sub_diag. cbn [Z.abs Z.gtb Z.compare when]. run_step.
  destruct (Qgtb speed 100) eqn:Hfast; cbn [andb].
  - apply Qgtb_true in Hfast.
    assert (5 <= _get_expected_gear speed)%Z.
    { unfold _get_expected_gear. compare_cases; try lia; exfalso; lra. }
    rewrite (proj2 (Z.leb_gt _ _)) by lia.
    assert (Hslow : Qltb speed 20 = false) by (apply Qltb_false; lra).
    by rewrite Hslow.
  - destruct (Qltb speed 20) eqn:Hslow; cbn [andb]; [| done].
    apply Qltb_true in Hslow.
    assert (Hg : _get_expected_gear speed = 1%Z).
    { unfold _get_expected_gear. compare_cases; try reflexivity; exfalso; lra. }
    by rewrite Hg.
Qed.

Lemma generated_vehicle_data_passes_gear_rules_witness :
  r_out (_check_signal_based_anomalies 1%positive "VehicleData"
           (fresh_with (generate_vehicle_data 90 400))) = [].
Proof.
  rewrite (generated_vehicle_data_passes_gear_rules 90 400
             (fresh_with (generate_vehicle_data 90 400)) 1%positive eq_refl).
  reflexivity.
Defined.

Lemma Qeq_bool_inject_Z (a b : Z) : Qeq_bool (inject_Z a) (inject_Z b) = (a =? b)%Z.
Proof. unfold Qeq_bool, inject_Z. cbn. by rewrite !Z.mul_1_r. Qed.

(** X28. A climate-control snapshot produced by
    [generate_climate_control_data], when [choices] picks from its
    population and [randint] draws within its bounds.  The integer
    coercion of the detector leaves it as it is; its fan is off exactly
    when its air conditioning is off; and the reasons listed for it after
    an isolation-forest anomaly are listed without an exception and never
    include an air conditioning that is on with the fan off. *)
Theorem generated_climate_data_is_consistent (choices : list Z -> list Z -> Z)
    (randint : Z -> Z -> Z) (cabin_temp : Q) (d : AnomalyDetector) (l : loc) :
  (forall weights, choices [1; 0]%Z weights = 1%Z \/ choices [1; 0]%Z weights = 0%Z) ->
  (forall a b, (a <= b)%Z -> (a <= randint a b <= b)%Z) ->
  deref d l = generate_climate_control_data choices randint cabin_temp ->
  let s := deref d l in
  let r := explain_anomaly "ClimateControl" l d in
  coerced "ClimateControl" s = Some s /\
  (get s "FanSpeed" 0 == 0 <-> get s "ACStatus" 0 == 0) /\
  r_val r = inr tt /\ ~ In (Print ACOnFanOff) (r_out r).
Proof.
  intros Hchoices Hrandint Hs s r. subst r s.
  unfold generate_climate_control_data in Hs.
  set (ac := if Qgtb cabin_temp 25 then _ else _) in Hs.
  set (fan := if (ac =? 1)%Z then _ else _) in Hs.
  assert (Hac : ac = 1%Z \/ ac = 0%Z).
  { subst ac. destruct (Qgtb cabin_temp 25); [| destruct (Qltb cabin_temp 15)];
      apply Hchoices. }
  assert (Hfan : (ac = 1%Z /\ 1 <= fan)%Z \/ (ac = 0%Z /\ fan = 0%Z)).
  { subst fan. destruct Hac as [Hac | Hac]; rewrite Hac; [left | right; done].
    split; [done |]. cbn [Z.eqb Pos.eqb].
    destruct (Qgtb cabin_temp 30); [| destruct (Qgtb cabin_temp 25)].
    - pose proof (Hrandint 4 5 ltac:(lia))%Z. lia.
    - pose proof (Hrandint 3 4 ltac:(lia))%Z. lia.
    - pose proof (Hrandint 1 3 ltac:(lia))%Z. lia. }
  clearbody fan ac.
  assert (Hc : deref d l !! "CabinTemp" = Some cabin_temp) by (by rewrite Hs).
  assert (Hf : deref d l !! "FanSpeed" = Some (inject_Z fan)) by (by rewrite Hs).
  assert (Ha : deref d l !! "ACStatus" = Some (inject_Z ac)) by (by rewrite Hs).
  split; [| split].
  - unfold coerced. cbn [String.eqb Ascii.eqb Bool.eqb]. rewrite Ha, Hf.
    rewrite !py_int_inject_Z. f_equal.
    rewrite (insert_id (deref d l) "ACStatus") by done. by apply insert_id.
  - unfold get. rewrite Hf, Ha. cbn [default from_option id].
    rewrite <- !Qeq_bool_iff. change 0 with (inject_Z 0). rewrite !Qeq_bool_inject_Z.
    rewrite !Z.eqb_eq. lia.
  - unfold explain_anomaly. run_step. cbn [String.eqb Ascii.eqb Bool.eqb].
    unfold getitem. rewrite Hc, Ha, Hf.
    unfold bind, andM, when, emit, ret. 
    change 1 with (inject_Z 1). change 0 with (inject_Z 0).
    rewrite !Qeq_bool_inject_Z.
    destruct (Qgtb cabin_temp 30);
      destruct Hfan as [[-> Hfan] | [-> ->]]; cbn [Z.eqb Pos.eqb].
    all: try (destruct (fan =? 0)%Z eqn:Hz; [apply Z.eqb_eq in Hz; lia |]).
    all: cbn; split; [reflexivity |]; intros Hin;
      repeat (destruct Hin as [Hin | Hin]; [discriminate Hin |]); exact Hin.
Qed.

Lemma generated_climate_data_is_consistent_witness :
  coerced "ClimateControl"
    (deref (fresh_with (generate_climate_control_data first_choice lower_draw 32))
       1%positive) =
  Some (deref (fresh_with (generate_climate_control_data first_choice lower_draw 32))
          1%positive).
Proof.
  apply (generated_climate_data_is_consistent first_choice lower_draw 32
           (fresh_with (generate_climate_control_data first_choice lower_draw 32))
           1%positive).
  - intros weights. left. reflexivity.
  - intros a b H. unfold lower_draw. lia.
  - reflexivity.
Defined.

(** ** The packing of CAN frames *)

Local Close Scope Q_scope.

Lemma bit_of_raw (raw_value : Z) (i : nat) (j : Z) :
  Z.testbit (Z.land (Z.shiftr raw_value (Z.of_nat i)) 1) j =
    (j =? 0)%Z && Z.testbit raw_value (Z.of_nat i).
Proof.
  rewrite Z.land_spec.
  destruct (Z.eqb_spec j 0) as [->|Hj].
  - rewrite Z.shiftr_spec by lia. cbn. by rewrite andb_true_r.
  - assert (Z.testbit 1 j = false) as ->.
    { destruct j; done. }
    by rewrite andb_false_r.
Qed.

(** One round of the inner loop, seen bit by bit. *)
Lemma frame_bit_insert (data : list Z) (byte_index bit_position : nat) (byte b : Z)
    (n : nat) :
  (bit_position < 8)%nat ->
  data !! byte_index = Some byte ->
  frame_bit (<[byte_index := Z.lor byte (Z.shiftl b (Z.of_nat bit_position))]> data) n =
    frame_bit data n ||
    ((n / 8 =? byte_index)%nat &&
     Z.testbit b (Z.of_nat (n mod 8) - Z.of_nat bit_position)).
Proof.
  intros Hpos Hbyte. unfold frame_bit.
  destruct (Nat.eqb_spec (n / 8) byte_index) as [->|Hne].
  - rewrite list_lookup_insert_eq by (by eapply lookup_lt_Some).
    rewrite Hbyte. cbn [default from_option id andb].
    rewrite Z.lor_spec, Z.shiftl_spec by lia. done.
  - rewrite list_lookup_insert_ne by done. by rewrite orb_false_r.
Qed.

Lemma round_position (start i : nat) :
  let bit_index := start mod 8 + i in
  let byte_index := start / 8 + bit_index / 8 in
  let bit_position := bit_index mod 8 in
  (bit_position < 8 /\ 8 * byte_index + bit_position = start + i)%nat.
Proof.
  cbv zeta. split; [apply Nat.mod_upper_bound; lia |].
  pose proof (Nat.div_mod_eq start 8). pose proof (Nat.div_mod_eq (start mod 8 + i) 8).
  lia.
Qed.

Lemma position_unique (n byte_index bit_position : nat) :
  (bit_position < 8)%nat ->
  (n / 8 = byte_index /\ n mod 8 = bit_position <-> n = 8 * byte_index + bit_position)%nat.
Proof.
  intros Hpos. pose proof (Nat.div_mod_eq n 8).
  pose proof (Nat.mod_upper_bound n 8 ltac:(lia)). split.
  - intros [<- <-]. lia.
  - intros ->. split.
    + rewrite Nat.mul_comm, Nat.div_add_l by lia. rewrite Nat.div_small by lia. lia.
    + rewrite Nat.add_comm, Nat.mul_comm, Nat.Div0.mod_add. by apply Nat.mod_small.
Qed.

Lemma pack_bits_fit (start : nat) (raw_value : Z) (len a : nat) (data : list Z) :
  (start + a + len <= 8 * length data)%nat ->
  exists data',
    foldl (pack_bit start raw_value) (inr data) (seq a len) = inr data' /\
    length data' = length data /\
    forall n, frame_bit data' n =
      frame_bit data n ||
      ((start + a <=? n)%nat && (n <? start + a + len)%nat &&
       Z.testbit raw_value (Z.of_nat (n - start))).
Proof.
  revert a data. induction len as [|len IH]; intros a data Hfit.
  { exists data. split; [reflexivity | split; [done |]]. intros n.
    destruct (Nat.leb_spec (start + a) n), (Nat.ltb_spec n (start + a + 0));
      cbn [andb]; rewrite ?orb_false_r; try done; lia. }
  cbn [seq foldl]. destruct (round_position start a) as [Hpos Hsum].
  cbv zeta in Hpos, Hsum. unfold pack_bit at 2. cbv zeta.
  set (byte_index := (start / 8 + (start mod 8 + a) / 8)%nat) in *.
  set (bit_position := ((start mod 8 + a) mod 8)%nat) in *.
  destruct (lookup_lt_is_Some_2 data byte_index) as [byte Hbyte]; [lia |].
  rewrite Hbyte.
  set (data1 := <[byte_index := _]> data).
  destruct (IH (S a) data1) as (data' & Hrun & Hlen & Hbits).
  { subst data1. rewrite length_insert. lia. }
  exists data'. split; [exact Hrun |]. split.
  { rewrite Hlen. subst data1. by rewrite length_insert. }
  intros n. rewrite Hbits. subst data1.
  rewrite (frame_bit_insert data byte_index bit_position byte _ n Hpos Hbyte).
  rewrite bit_of_raw.
  pose proof (position_unique n byte_index bit_position Hpos) as Huniq.
  destruct (Nat.eqb_spec (n / 8) byte_index) as [Hb|Hb];
    destruct (Z.eqb_spec (Z.of_nat (n mod 8) - Z.of_nat bit_position) 0) as [Hp|Hp];
    destruct (Nat.leb_spec (start + S a) n), (Nat.ltb_spec n (start + S a + len)),
      (Nat.leb_spec (start + a) n), (Nat.ltb_spec n (start + a + S len));
    cbn [andb orb]; rewrite ?orb_false_r, ?orb_true_r; try done; try lia.
  all: try (assert (n = start + a)%nat as -> by (apply proj1 in Huniq; lia);
            by replace (start + a - start)%nat with a by lia).
  all: try (exfalso; assert (n = start + a)%nat by lia;
            apply proj2 in Huniq; lia).
  all: try (destruct (frame_bit data n); cbn; try done).
  all: try (exfalso; apply proj1 in Huniq; lia).
Qed.

Lemma pack_bits_stop (start : nat) (raw_value : Z) (e : exn) (rounds : list nat) :
  foldl (pack_bit start raw_value) (inl e) rounds = inl e.
Proof. by induction rounds. Qed.

Lemma pack_bits_overflow (start : nat) (raw_value : Z) (len a : nat) (data : list Z) :
  (0 < len)%nat ->
  (8 * length data < start + a + len)%nat ->
  foldl (pack_bit start raw_value) (inr data) (seq a len) = inl IndexError.
Proof.
  revert a data. induction len as [|len IH]; intros a data Hlen Hover; [lia |].
  cbn [seq foldl]. destruct (round_position start a) as [Hpos Hsum].
  cbv zeta in Hpos, Hsum. unfold pack_bit at 2. cbv zeta.
  set (byte_index := (start / 8 + (start mod 8 + a) / 8)%nat) in *.
  set (bit_position := ((start mod 8 + a) mod 8)%nat) in *.
  destruct (data !! byte_index) as [byte|] eqn:Hbyte.
  - apply lookup_lt_Some in Hbyte.
    apply IH; [lia | rewrite length_insert; lia].
  - apply pack_bits_stop.
Qed.

Lemma byte_stays_byte (byte raw_value : Z) (i bit_position : nat) :
  (bit_position < 8)%nat ->
  (0 <= byte < 256)%Z ->
  (0 <= Z.lor byte (Z.shiftl (Z.land (Z.shiftr raw_value (Z.of_nat i)) 1)
                      (Z.of_nat bit_position)) < 256)%Z.
Proof.
  intros Hpos Hbyte.
  set (b := Z.land (Z.shiftr raw_value (Z.of_nat i)) 1).
  assert (Hb : (b = 0 \/ b = 1)%Z).
  { subst b. generalize (Z.shiftr raw_value (Z.of_nat i)). intros x.
    assert (Hx : Z.land x 1 = (x mod 2)%Z).
    { change 1%Z with (Z.ones 1). by rewrite Z.land_ones by lia. }
    rewrite Hx. pose proof (Z.mod_pos_bound x 2 ltac:(lia)). lia. }
  assert (Hs : (0 <= Z.shiftl b (Z.of_nat bit_position) < 256)%Z).
  { rewrite Z.shiftl_mul_pow2 by lia.
    assert (Hp : (0 < 2 ^ Z.of_nat bit_position <= 2 ^ 7)%Z).
    { split; [apply Z.pow_pos_nonneg; lia | apply Z.pow_le_mono_r; lia]. }
    change (2 ^ 7)%Z with 128%Z in Hp. destruct Hb as [-> | ->]; lia. }
  clearbody b. split; [apply Z.lor_nonneg; lia |].
  set (s := Z.shiftl b (Z.of_nat bit_position)) in *. clearbody s.
  destruct (Z.eq_dec (Z.lor byte s) 0%Z) as [-> | Hnz]; [lia |].
  assert (Hnn : (0 <= Z.lor byte s)%Z) by (apply Z.lor_nonneg; lia).
  change 256%Z with (2 ^ 8)%Z. apply Z.log2_lt_pow2; [lia |].
  rewrite Z.log2_lor by lia.
  apply Z.max_lub_lt.
  - destruct (Z.eq_dec byte 0%Z) as [-> | ?]; [done |].
    apply Z.log2_lt_pow2; lia.
  - destruct (Z.eq_dec s 0%Z) as [-> | ?]; [done |].
    apply Z.log2_lt_pow2; lia.
Qed.

Lemma pack_bits_bytes (start : nat) (raw_value : Z) (rounds : list nat)
    (data data' : list Z) :
  Forall (fun byte => 0 <= byte < 256)%Z data ->
  foldl (pack_bit start raw_value) (inr data) rounds = inr data' ->
  Forall (fun byte => 0 <= byte < 256)%Z data'.
Proof.
  revert data. induction rounds as [|i rounds IH]; intros data Hbytes; cbn [foldl].
  { by intros [= <-]. }
  unfold pack_bit at 2. cbv zeta.
  destruct (data !! _) as [byte|] eqn:Hbyte; [| by rewrite pack_bits_stop].
  apply IH. apply Forall_insert; [done |].
  apply byte_stays_byte; [apply Nat.mod_upper_bound; lia |].
  by eapply (Forall_lookup_1 _ _ _ _ Hbytes).
Qed.

Lemma pack_bits_run (signal : Signal) (raw_value : Z) (raw_data : list Z) :
  (start_bit signal + bit_length signal <= 8 * length raw_data)%nat ->
  exists raw_data',
    pack_bits signal raw_value raw_data = inr raw_data' /\
    length raw_data' = length raw_data /\
    (Forall (fun byte => 0 <= byte < 256)%Z raw_data ->
     Forall (fun byte => 0 <= byte < 256)%Z raw_data') /\
    forall n, frame_bit raw_data' n =
      frame_bit raw_data n ||
      (in_field signal n &&
       Z.testbit raw_value (Z.of_nat (n - start_bit signal))).
Proof.
  intros Hfit. unfold pack_bits.
  destruct (pack_bits_fit (start_bit signal) raw_value (bit_length signal) 0 raw_data)
    as (data' & Hrun & Hlen & Hbits); [lia |].
  exists data'. split; [exact Hrun |]. split; [exact Hlen |]. split.
  - intros Hbytes. by eapply pack_bits_bytes.
  - intros n. rewrite Hbits. unfold in_field. by rewrite !Nat.add_0_r.
Qed.

(** X29. The inner loop of [pack_signals_to_message] on one signal.  When
    the field of the signal lies within the frame, the loop returns a frame
    of the same length: every bit of the field is or-ed with the bit of the
    raw value at the same offset, least significant bit first, every other
    bit of the frame is kept, and bytes stay bytes.  Only the [bit_length]
    low bits of the raw value are read, so a raw value too large for the
    field is cut.  When the field is not empty and reaches past the end of
    the frame, the loop ends in [IndexError]. *)
Theorem packed_field_holds_the_low_bits (signal : Signal) (raw_value : Z)
    (raw_data : list Z) :
  ((start_bit signal + bit_length signal <= 8 * length raw_data)%nat ->
   exists raw_data',
     pack_bits signal raw_value raw_data = inr raw_data' /\
     length raw_data' = length raw_data /\
     (Forall (fun byte => 0 <= byte < 256)%Z raw_data ->
      Forall (fun byte => 0 <= byte < 256)%Z raw_data') /\
     forall n, frame_bit raw_data' n =
       frame_bit raw_data n ||
       (in_field signal n &&
        Z.testbit raw_value (Z.of_nat (n - start_bit signal)))) /\
  ((0 < bit_length signal)%nat ->
   (8 * length raw_data < start_bit signal + bit_length signal)%nat ->
   pack_bits signal raw_value raw_data = inl IndexError).
Proof.
  split.
  - apply pack_bits_run.
  - intros Hlen Hover. unfold pack_bits. apply pack_bits_overflow; lia.
Qed.

Local Open Scope Q_scope.

Section PackingProperties.

Context (uniform : Q -> Q -> Q) (randint : Z -> Z -> Z).




End PackingProperties.

